(** * AirAware: bounding boxes, sensor retrieval, daily aggregation, weather summary

    A shallow embedding of the tools under [agent_tools/] and of the
    statements made about them.  Python floats are kept behind an interface
    ([PyFloat]), with three arithmetics behind it: the exact reals, the reals
    rounded to a format after every operation, and binary64. *)

From Stdlib Require Import List String Ascii Bool ZArith QArith Qcanon.
From Stdlib Require Import Reals Lra Lia Permutation Sorted.
From Stdlib Require Floats.
Import ListNotations.

Close Scope Qc_scope.
Close Scope Q_scope.
Close Scope R_scope.

(** ** Python values shared by the tools *)

(** The float operations the tools use.  [float_of_str] is Python's [float()]
    on a string ([None] stands for its [ValueError]); [fradians] and [fcos]
    are [math.radians] and [math.cos]. *)
Class PyFloat (F : Type) := {
  of_int : Z -> F;
  fadd : F -> F -> F;
  fsub : F -> F -> F;
  fmul : F -> F -> F;
  fdiv : F -> F -> F;
  fcos : F -> F;
  fradians : F -> F;
  float_of_str : string -> option F
}.

Declare Scope py_scope.
Delimit Scope py_scope with py.
Infix "+" := fadd : py_scope.
Infix "-" := fsub : py_scope.
Infix "*" := fmul : py_scope.
Infix "/" := fdiv : py_scope.

(** Exceptions that can leave a tool, and the value/exception sum. *)
Inductive PyExn :=
  IndexError | ValueError | KeyError | TypeError | HTTPError | UnboundLocalError.

Inductive Exc (A : Type) :=
| Ok (a : A)
| Raise (e : PyExn).
Arguments Ok {A} a.
Arguments Raise {A} e.

Definition bind {A B} (m : Exc A) (k : A -> Exc B) : Exc B :=
  match m with
  | Ok a => k a
  | Raise e => Raise e
  end.

Notation "x <- m ;; k" := (bind m (fun x => k))
  (at level 61, m at next level, right associativity).

(** [l[i]] for a non-negative index. *)
Definition py_index {A} (l : list A) (i : nat) : Exc A :=
  match nth_error l i with
  | Some a => Ok a
  | None => Raise IndexError
  end.

(** ** Decimal text, as [float] reads it *)

(** The texts read here are the plain decimal ones: an optional sign, digits
    and at most one dot.  Python's [float] also reads exponents, blanks
    around the number, underscores between digits, [inf] and [nan]; those
    texts are not modelled and are refused here. *)
Module Decimal.

Definition digit_of (c : ascii) : option Z :=
  let n := Z.of_N (N_of_ascii c) in
  if ((48 <=? n) && (n <=? 57))%Z then Some (n - 48)%Z else None.

(** Reads digits up to the end or to a dot; returns the number read, how
    many digits it had, and what follows the dot. *)
Fixpoint digits (s : string) (acc : Z) (len : nat) : option (Z * nat * option string) :=
  match s with
  | EmptyString => Some (acc, len, None)
  | String c rest =>
      if Ascii.eqb c "."%char then Some (acc, len, Some rest)
      else match digit_of c with
           | Some d => digits rest (10 * acc + d)%Z (S len)
           | None => None
           end
  end.

Definition unsigned (s : string) : option Q :=
  match digits s 0%Z 0 with
  | Some (i, li, None) => if Nat.eqb li 0 then None else Some (inject_Z i)
  | Some (i, li, Some frac) =>
      match digits frac 0%Z 0 with
      | Some (f, lf, None) =>
          if Nat.eqb (li + lf) 0 then None
          else Some (Qmake (i * 10 ^ Z.of_nat lf + f) (Z.to_pos (10 ^ Z.of_nat lf)))
      | _ => None
      end
  | None => None
  end.

Definition parse (s : string) : option Q :=
  match s with
  | String "-"%char rest => option_map Qopp (unsigned rest)
  | String "+"%char rest => unsigned rest
  | _ => unsigned s
  end.

End Decimal.

(** The reals as an idealised float: exact arithmetic, [radians x = x·π/180]. *)
#[export] Instance R_PyFloat : PyFloat R := {
  of_int := IZR;
  fadd := Rplus;
  fsub := Rminus;
  fmul := Rmult;
  fdiv := Rdiv;
  fcos := cos;
  fradians := fun x => (x * (PI / 180))%R;
  float_of_str := fun s => option_map Q2R (Decimal.parse s)
}.

(** ** Floats that round *)

(** Floating-point arithmetic as its standard describes it: every operation
    returns the exact result rounded to the format by [rnd], and [math.cos]
    is whatever the platform's library returns ([libm_cos]).
    [math.radians] multiplies by the constant [Py_MATH_PI / 180.0].  The
    results stay real numbers: this arithmetic has no overflow and no NaN. *)
Module Rounded.

Section Format.
Variable rnd : R -> R.
Variable libm_cos : R -> R.

Definition arithmetic : PyFloat R := {|
  of_int := fun z => rnd (IZR z);
  fadd := fun x y => rnd (x + y)%R;
  fsub := fun x y => rnd (x - y)%R;
  fmul := fun x y => rnd (x * y)%R;
  fdiv := fun x y => rnd (x / y)%R;
  fcos := libm_cos;
  fradians := fun x => rnd (x * rnd (rnd PI / rnd 180))%R;
  float_of_str := fun s => option_map (fun q => rnd (Q2R q)) (Decimal.parse s)
|}.

End Format.


End Rounded.

(** Binary64 itself, on the primitive floats; only the cosine is left to the
    platform.  [of_Z] is exact for the small integers the tools write
    (below 2^53), [radians] multiplies by the double [Py_MATH_PI / 180.0] as
    CPython does, and a decimal text is the quotient of its digits by its
    power of ten, which is the nearest double for the short texts a geocoder
    sends. *)
Module Binary64.

Import PrimFloat.

Definition of_Z (z : Z) : float :=
  if (z <? 0)%Z then opp (of_uint63 (Uint63.of_Z (- z)))
  else of_uint63 (Uint63.of_Z z).

(** [Py_MATH_PI / 180.0], that is 0.017453292519943295. *)
Definition degToRad : float := 0x1.1df46a2529d39p-6%float.

Definition of_decimal (q : Q) : float :=
  div (of_Z (Qnum q)) (of_Z (Zpos (Qden q))).

Definition arithmetic (libm_cos : float -> float) : PyFloat float := {|
  of_int := of_Z;
  fadd := add;
  fsub := sub;
  fmul := mul;
  fdiv := div;
  fcos := libm_cos;
  fradians := fun x => mul x degToRad;
  float_of_str := fun s => option_map of_decimal (Decimal.parse s)
|}.


End Binary64.

(** ** agent_tools/bounding_box_extractor_tool.py *)

Module BoundingBoxExtractorTool.

(** What [requests.get(...)] followed by [raise_for_status()] and [.json()]
    gives: a [RequestException] with its text, or the list of places, each
    with its ['boundingbox'] strings.  The answers of the service have this
    shape; a place without the member, or with entries that are not texts
    (where the source would raise [KeyError] or [TypeError]), is outside
    this type. *)
Record Place := { boundingbox : list string }.

Inductive Response :=
  | RequestException (e : string)
  | Json (data : list Place).

Inductive Result (F : Type) :=
  | Box (b : list F)
  | Message (s : string).
Arguments Box {F} b.
Arguments Message {F} s.

Section Tool.
Context {F : Type} `{PyFloat F}.
Variable requests_get : string -> Response.

Local Open Scope py_scope.

(** Python's [/] raises only on a divisor equal to zero: [111] is a literal,
    and the cosine of a binary float is never [0.0], so the two quotients are
    taken as total. *)
Definition _expand_bounding_box
    (south_lat west_lon north_lat east_lon km_expansion : F) : list F :=
  let lat_offset := km_expansion / of_int 111 in
  let lon_offset :=
    km_expansion / (of_int 111 * fcos (fradians ((south_lat + north_lat) / of_int 2))) in
  [ south_lat - lat_offset;
    west_lon - lon_offset;
    north_lat + lat_offset;
    east_lon + lon_offset ].

Definition float (s : string) : Exc F :=
  match float_of_str s with
  | Some x => Ok x
  | None => Raise ValueError
  end.

Definition url (location : string) : string :=
  ("https://nominatim.openstreetmap.org/search?q=" ++ location
     ++ "&format=json&addressdetails=1")%string.

Definition _run (location : string) : Exc (Result F) :=
  match requests_get (url location) with
  | RequestException e =>
      Ok (Message ("Error fetching bounding box for " ++ location ++ ": " ++ e)%string)
  | Json [] =>
      Ok (Message ("Bounding box not found for location: " ++ location)%string)
  | Json (place :: _) =>
      let bbox := boundingbox place in
      b0 <- py_index bbox 0 ;; south_lat <- float b0 ;;
      b1 <- py_index bbox 1 ;; north_lat <- float b1 ;;
      b2 <- py_index bbox 2 ;; west_lon <- float b2 ;;
      b3 <- py_index bbox 3 ;; east_lon <- float b3 ;;
      Ok (Box (_expand_bounding_box south_lat west_lon north_lat east_lon (of_int 15)))
  end.

End Tool.

End BoundingBoxExtractorTool.

(** ** agent_tools/weather_tools.py *)

Module HistoricalWeatherTool.

(** Entries of the arrays of the archive's answer. *)
Inductive JValue :=
| JNull
| JNumber (q : Q)
| JString (s : string).

(** The ["daily"] object: metric name to array. *)
Definition Daily := list (string * list JValue).

(** [daily_data.get(key, [])] *)
Fixpoint get (key : string) (d : Daily) : list JValue :=
  match d with
  | [] => []
  | (k, v) :: rest => if String.eqb k key then v else get key rest
  end.

(** The decoded answer of the archive: a [RequestException], or a JSON
    object that has a ["daily"] member or lacks it. *)
Inductive Response :=
| RequestException (e : string)
| Json (daily : option Daily).

Record Params (F : Type) := {
  latitude : F;
  longitude : F;
  start_date : string;
  end_date : string;
  daily : string;
  timezone : string
}.
Arguments latitude {F} p.
Arguments longitude {F} p.

Record Summary := {
  date : JValue;
  temperature_mean_2m : JValue;
  temperature_max_2m : JValue;
  temperature_min_2m : JValue;
  precipitation_sum : JValue;
  wind_speed_10m_mean : JValue;
  relative_humidity_2m_mean : JValue
}.

(** What [_run] returns.  The source returns text in every case; the four
    messages are kept apart by constructor and the summary is kept as the
    list that [str(...)] would render.
    - [BoxLengthError]: "Error: Bounding box must contain exactly 4 float values ..."
    - [NoDailyData]: "No daily weather data found for the bounding box ..."
    - [FetchError e]: "Error fetching weather data from Open-Meteo ...: e"
    - [UnexpectedError e]: "An unexpected error occurred: e" *)
Inductive Result :=
| BoxLengthError
| NoDailyData
| FetchError (e : string)
| UnexpectedError (e : PyExn)
| WeatherSummary (rows : list Summary).

Definition NA : JValue := JString "N/A".

(** [arr[i] if i < len(arr) else "N/A"] *)
Definition at_or_NA (arr : list JValue) (i : nat) : Exc JValue :=
  if Nat.ltb i (List.length arr) then py_index arr i else Ok NA.

Definition summary_at (daily_data : Daily) (i : nat) : Exc Summary :=
  let times := get "time" daily_data in
  let temp_means := get "temperature_2m_mean" daily_data in
  let temp_maxs := get "temperature_2m_max" daily_data in
  let temp_mins := get "temperature_2m_min" daily_data in
  let precipitations := get "precipitation_sum" daily_data in
  let wind_speeds_mean := get "wind_speed_10m_mean" daily_data in
  let humidities_mean := get "relative_humidity_2m_mean" daily_data in
  d <- py_index times i ;;
  t_mean <- at_or_NA temp_means i ;;
  t_max <- at_or_NA temp_maxs i ;;
  t_min <- at_or_NA temp_mins i ;;
  p <- at_or_NA precipitations i ;;
  w <- at_or_NA wind_speeds_mean i ;;
  h <- at_or_NA humidities_mean i ;;
  Ok {| date := d;
        temperature_mean_2m := t_mean;
        temperature_max_2m := t_max;
        temperature_min_2m := t_min;
        precipitation_sum := p;
        wind_speed_10m_mean := w;
        relative_humidity_2m_mean := h |}.

(** The loop [for i in range(len(times))] with its [append]. *)
Fixpoint summary_loop (daily_data : Daily) (indices : list nat)
    (weather_summary : list Summary) : Exc (list Summary) :=
  match indices with
  | [] => Ok weather_summary
  | i :: rest =>
      summary <- summary_at daily_data i ;;
      summary_loop daily_data rest (weather_summary ++ [summary])
  end.

Section Tool.
Context {F : Type} `{PyFloat F}.
Variable requests_get : Params F -> Response.

Local Open Scope py_scope.

Definition daily_metrics : string :=
  "temperature_2m_mean,temperature_2m_max,temperature_2m_min,precipitation_sum,wind_speed_10m_mean,relative_humidity_2m_mean".

Definition _run (bounding_box : list F) (start_date end_date : string) : Result :=
  match bounding_box with
  | [south_lat; west_lon; north_lat; east_lon] =>
      let center_latitude := (south_lat + north_lat) / of_int 2 in
      let center_longitude := (west_lon + east_lon) / of_int 2 in
      let params := {| latitude := center_latitude;
                       longitude := center_longitude;
                       start_date := start_date;
                       end_date := end_date;
                       daily := daily_metrics;
                       timezone := "auto" |} in
      match requests_get params with
      | RequestException e => FetchError e
      | Json None => NoDailyData
      | Json (Some daily_data) =>
          let times := get "time" daily_data in
          match summary_loop daily_data (seq 0 (List.length times)) [] with
          | Ok weather_summary => WeatherSummary weather_summary
          | Raise e => UnexpectedError e
          end
      end
  | _ => BoxLengthError
  end.

End Tool.

(** The entry a row shows for a metric: the array's entry, or the marker. *)
Definition shown (arr : list JValue) (i : nat) : JValue :=
  nth i arr NA.

(** The row expected for the [i]-th reported date. *)
Definition expected_row (daily_data : Daily) (i : nat) : Summary :=
  {| date := nth i (get "time" daily_data) JNull;
     temperature_mean_2m := shown (get "temperature_2m_mean" daily_data) i;
     temperature_max_2m := shown (get "temperature_2m_max" daily_data) i;
     temperature_min_2m := shown (get "temperature_2m_min" daily_data) i;
     precipitation_sum := shown (get "precipitation_sum" daily_data) i;
     wind_speed_10m_mean := shown (get "wind_speed_10m_mean" daily_data) i;
     relative_humidity_2m_mean := shown (get "relative_humidity_2m_mean" daily_data) i |}.

End HistoricalWeatherTool.

(** ** agent_tools/input_parser_tool.py *)

Module InputParserTool.

(** [a >= b] on Python strings: code-point order. *)
Definition str_ge (a b : string) : bool := negb (String.ltb a b).

Record InputSummary := {
  locations : list string;
  start_date : string;
  end_date : string;
  parameters : list string
}.

(** [Text s] is a returned error line; [ValidatedInput d] stands for
    "Validated Input: " followed by the rendering of the dictionary [d]. *)
Inductive Result :=
| Text (s : string)
| ValidatedInput (input_summary : InputSummary).

Definition _run (locations : list string) (start_date end_date : string)
    (aq_parameters : list string) : Result :=
  match locations with
  | [] => Text "Error: At least one location must be specified."
  | _ :: _ =>
      match aq_parameters with
      | [] => Text "Error: At least one air quality parameter must be specified."
      | _ :: _ =>
          if str_ge start_date end_date
          then Text "Error: The start date must be before the end date."
          else ValidatedInput {| locations := locations;
                                 start_date := start_date;
                                 end_date := end_date;
                                 parameters := aq_parameters |}
      end
  end.

End InputParserTool.

(** ** Calendar dates, as [datetime.date] and [pandas.date_range] use them *)

Module Calendar.

Local Open Scope Z_scope.

(** A date is its proleptic Gregorian ordinal ([date.toordinal()]):
    day 1 is 0001-01-01. *)
Definition Date := Z.

Definition is_leap (y : Z) : bool :=
  (y mod 4 =? 0) && (negb (y mod 100 =? 0) || (y mod 400 =? 0)).

Definition days_in_month (y m : Z) : Z :=
  if m =? 2 then (if is_leap y then 29 else 28)
  else if (m =? 4) || (m =? 6) || (m =? 9) || (m =? 11) then 30
  else 31.

Definition days_before_year (y : Z) : Z :=
  let p := y - 1 in p * 365 + p / 4 - p / 100 + p / 400.

Definition days_before_month_common (m : Z) : Z :=
  nth (Z.to_nat m) [0; 0; 31; 59; 90; 120; 151; 181; 212; 243; 273; 304; 334] 0.

Definition days_before_month (y m : Z) : Z :=
  days_before_month_common m + (if (2 <? m) && is_leap y then 1 else 0).

Definition toordinal (y m d : Z) : Date :=
  days_before_year y + days_before_month y m + d.

(** Year, month and day of an ordinal. *)
Definition ymd (ordinal : Date) : Z * Z * Z :=
  let n := ordinal - 1 in
  let n400 := n / 146097 in
  let n := n mod 146097 in
  let n100 := n / 36524 in
  let n := n mod 36524 in
  let n4 := n / 1461 in
  let n := n mod 1461 in
  let n1 := n / 365 in
  let n := n mod 365 in
  let year := n400 * 400 + 1 + n100 * 100 + n4 * 4 + n1 in
  if (n1 =? 4) || (n100 =? 4) then (year - 1, 12, 31)
  else
    let leapyear := (n1 =? 3) && (negb (n4 =? 24) || (n100 =? 3)) in
    let month := Z.shiftr (n + 50) 5 in
    let preceding :=
      days_before_month_common month + (if (2 <? month) && leapyear then 1 else 0) in
    if n <? preceding
    then
      let month := month - 1 in
      let preceding :=
        days_before_month_common month + (if (2 <? month) && leapyear then 1 else 0) in
      (year, month, n - preceding + 1)
    else (year, month, n - preceding + 1).

(** Decimal text of a natural number. *)
Fixpoint digits_of (fuel : nat) (n : N) (acc : string) : string :=
  match fuel with
  | O => acc
  | S fuel' =>
      let acc' := String (ascii_of_N (48 + n mod 10)) acc in
      if (n / 10 =? 0)%N then acc' else digits_of fuel' (n / 10)%N acc'
  end.

Definition str_of_N (n : N) : string :=
  digits_of (S (N.to_nat (N.log2 n))) n "".

(** [str(i)] for an [int]. *)
Definition str_of_int (i : Z) : string :=
  if i <? 0 then ("-" ++ str_of_N (Z.abs_N i))%string else str_of_N (Z.to_N i).

Definition zero_pad (width : nat) (s : string) : string :=
  match Nat.sub width (String.length s) with
  | O => s
  | S k => (fix zeros (k : nat) := match k with
                                   | O => s
                                   | S k' => String "0"%char (zeros k')
                                   end) (S k)
  end.

(** [date.strftime("%Y")], ["%m"], ["%d"]. *)
Definition strftime_Y (d : Date) : string :=
  let '(y, _, _) := ymd d in zero_pad 4 (str_of_int y).
Definition strftime_m (d : Date) : string :=
  let '(_, m, _) := ymd d in zero_pad 2 (str_of_int m).
Definition strftime_d (d : Date) : string :=
  let '(_, _, dd) := ymd d in zero_pad 2 (str_of_int dd).

(** Leading decimal digits of a string and what follows them. *)
Fixpoint leading_digits (s : string) : list Z * string :=
  match s with
  | EmptyString => ([], EmptyString)
  | String c rest =>
      match Decimal.digit_of c with
      | Some d => let '(ds, r) := leading_digits rest in (d :: ds, r)
      | None => ([], s)
      end
  end.

Definition number (ds : list Z) : Z := fold_left (fun acc d => 10 * acc + d) ds 0.

(** [datetime.strptime(s, "%Y-%m-%d").date()]: four digits of year, one or
    two of month and of day, and a date that exists; [None] stands for the
    [ValueError]. *)
Definition strptime (s : string) : option Date :=
  let '(ys, r1) := leading_digits s in
  match r1 with
  | String "-"%char r1' =>
      let '(ms, r2) := leading_digits r1' in
      match r2 with
      | String "-"%char r2' =>
          let '(ds, r3) := leading_digits r2' in
          let y := number ys in
          let m := number ms in
          let d := number ds in
          if (Nat.eqb (List.length ys) 4)
             && (Nat.leb 1 (List.length ms)) && (Nat.leb (List.length ms) 2)
             && (Nat.leb 1 (List.length ds)) && (Nat.leb (List.length ds) 2)
             && (String.eqb r3 "")
             && (1 <=? y) && (1 <=? m) && (m <=? 12)
             && (1 <=? d) && (d <=? days_in_month y m)
          then Some (toordinal y m d)
          else None
      | _ => None
      end
  | _ => None
  end.

(** [pd.date_range(start=start, end=end)]: every day from [start] to [end],
    both included; empty when [end] is before [start]. *)
Definition date_range (start_date end_date : Date) : list Date :=
  map (fun i => start_date + Z.of_nat i) (seq 0 (Z.to_nat (end_date - start_date + 1))).

End Calendar.

(** ** agent_tools/air_quality_analysis_tool.py *)

Module AirQualityAnalysisTool.

Import Calendar.

(** *** Data *)

(** A parsed [datetime] entry: its calendar day and the seconds since
    midnight. *)
Record Timestamp := {
  day : Date;
  seconds : N
}.

(** One line of an archive file, restricted to the columns the tool reads,
    as [pd.read_csv] delivers it.  The text of the [datetime] column is kept
    as what [pd.to_datetime] reads in it: the day and the time of day of the
    local wall clock ([datetime]) and the UTC offset in minutes
    ([utcoffset]); the archive writes every datetime with its offset.
    [None] in [value] or [units] is a missing entry (NaN) of the CSV.  Values
    are exact rationals standing for the floats. *)
Record RawReading := {
  datetime : Timestamp;
  utcoffset : Z;
  parameter : string;
  value : option Qc;
  units : option string
}.

Definition RawFrame := list RawReading.

(** A table: its column labels and its rows. *)
Record Frame (A : Type) := {
  columns : list string;
  rows : list A
}.
Arguments columns {A} f.
Arguments rows {A} f.

(** A row after [groupby(...).agg(...).dropna().reset_index()] and the
    replacement of [datetime] by [date]. *)
Record DailyRow := {
  d_parameter : string;
  d_value : Qc;
  d_units : string;
  d_date : Date
}.

(** A row once the [location] column is set. *)
Record Row := {
  r_parameter : string;
  r_value : Qc;
  r_units : string;
  r_date : Date;
  r_location : string
}.

Record Site := { id : Z }.

(** Answer of [list_objects_v2]: an exception, or a response with or without
    its ['Contents'] (the keys under the prefix). *)
Inductive Listing :=
| ListingError
| ListingOk (contents : option (list string)).

(** *** [aggregate_data] *)

(** [pd.to_datetime(df['datetime'])] gives a column of timestamps when the
    texts share one UTC offset.  With more than one offset pandas 3 raises
    [ValueError] there, and earlier versions return a column of Python
    objects, on which the [groupby] with its [pd.Grouper(freq='D')] raises
    [TypeError]. *)
Inductive MixedOffsets := MixedRaises | MixedObjects.

Definition one_offset (df : RawFrame) : bool :=
  match df with
  | [] => true
  | r :: rest => forallb (fun r' => Z.eqb (utcoffset r') (utcoffset r)) rest
  end.

(** [pd.Grouper(key='datetime', freq='D')]: the timestamp floored to its day. *)
Definition floor_D (t : Timestamp) : Timestamp :=
  {| day := day t; seconds := 0 |}.

Definition Key := (string * Timestamp)%type.

Definition group_key (r : RawReading) : Key :=
  (parameter r, floor_D (datetime r)).

Definition timestamp_eqb (a b : Timestamp) : bool :=
  Z.eqb (day a) (day b) && N.eqb (seconds a) (seconds b).

Definition key_eqb (a b : Key) : bool :=
  String.eqb (fst a) (fst b) && timestamp_eqb (snd a) (snd b).

Definition timestamp_leb (a b : Timestamp) : bool :=
  Z.ltb (day a) (day b) || (Z.eqb (day a) (day b) && N.leb (seconds a) (seconds b)).

(** Order of the group labels: by parameter, then by time. *)
Definition key_leb (a b : Key) : bool :=
  match String.compare (fst a) (fst b) with
  | Lt => true
  | Eq => timestamp_leb (snd a) (snd b)
  | Gt => false
  end.

Fixpoint insert_sorted (k : Key) (l : list Key) : list Key :=
  match l with
  | [] => [k]
  | h :: t => if key_leb k h then k :: l else h :: insert_sorted k t
  end.

Definition sort_keys (l : list Key) : list Key :=
  fold_right insert_sorted [] l.

(** The labels in order of first appearance, each once. *)
Fixpoint distinct (l : list Key) : list Key :=
  match l with
  | [] => []
  | k :: t => k :: filter (fun k' => negb (key_eqb k' k)) (distinct t)
  end.

(** The groups of [groupby] (with its default [sort=True]): the labels that
    occur, in ascending order. *)
Definition group_labels (df : RawFrame) : list Key :=
  sort_keys (distinct (map group_key df)).

Definition group (k : Key) (df : RawFrame) : RawFrame :=
  filter (fun r => key_eqb (group_key r) k) df.

(** The entries of a column that are not missing. *)
Fixpoint present {A} (l : list (option A)) : list A :=
  match l with
  | [] => []
  | Some a :: t => a :: present t
  | None :: t => present t
  end.

Definition Qc_of_nat (n : nat) : Qc := Q2Qc (inject_Z (Z.of_nat n)).

Definition sum (vs : list Qc) : Qc := fold_right Qcplus (Q2Qc 0) vs.

(** ['mean'] over a group: the mean of the entries that are present, and
    missing (NaN) when none is. *)
Definition mean (vs : list (option Qc)) : option Qc :=
  match present vs with
  | [] => None
  | v :: t => Some (Qcdiv (sum (v :: t)) (Qc_of_nat (List.length (v :: t))))
  end.

(** ['first'] over a group: the first entry that is present. *)
Definition first {A} (l : list (option A)) : option A :=
  hd_error (present l).

(** The row of one group, or nothing when [dropna()] removes it. *)
Definition agg (k : Key) (g : RawFrame) : option DailyRow :=
  match mean (map value g), first (map units g) with
  | Some v, Some u =>
      Some {| d_parameter := fst k; d_value := v; d_units := u; d_date := day (snd k) |}
  | _, _ => None
  end.

Fixpoint collect {A B} (f : A -> option B) (l : list A) : list B :=
  match l with
  | [] => []
  | a :: t => match f a with
              | Some b => b :: collect f t
              | None => collect f t
              end
  end.

(** [df[df['parameter'].isin(parameters)]] under [if parameters:]. *)
Definition isin (parameters : list string) (r : RawReading) : bool :=
  existsb (String.eqb (parameter r)) parameters.

Definition select (parameters : option (list string)) (df : RawFrame) : RawFrame :=
  match parameters with
  | Some (p :: ps) => filter (isin (p :: ps)) df
  | _ => df
  end.

(** The rows of [daily_data]. *)
Definition daily_data (df : RawFrame) : list DailyRow :=
  collect (fun k => agg k (group k df)) (group_labels df).

(** Labels after [reset_index()], after [daily_data['date'] = ...] and after
    [del daily_data['datetime']]. *)
Definition del (label : string) (cols : list string) : list string :=
  filter (fun c => negb (String.eqb c label)) cols.

Definition daily_columns : list string :=
  del "datetime" (["parameter"; "datetime"; "value"; "units"]%string ++ ["date"%string]).

(** [df.head()] *)
Definition head {A} (df : list A) : list A := firstn 5 df.

(** The notions the statements about aggregation use: the (parameter,
    calendar day) of a reading and of a row, the readings of one such pair,
    a reading that has both its value and its unit, and the row a single
    reading stands for. *)
Definition reading_key (r : RawReading) : string * Date :=
  (parameter r, day (datetime r)).

(** A group label is a parameter with a midnight: its (parameter, day). *)
Definition label_day (k : Key) : string * Date := (fst k, day (snd k)).

Definition row_key (d : DailyRow) : string * Date :=
  (d_parameter d, d_date d).

Definition readings_of (k : string * Date) (df : RawFrame) : RawFrame :=
  filter (fun r => String.eqb (parameter r) (fst k) && Z.eqb (day (datetime r)) (snd k)) df.

Definition complete (r : RawReading) : Prop :=
  value r <> None /\ units r <> None.

Definition as_row (r : RawReading) : option DailyRow :=
  match value r, units r with
  | Some v, Some u =>
      Some {| d_parameter := parameter r; d_value := v; d_units := u;
              d_date := day (datetime r) |}
  | _, _ => None
  end.

Section Pipeline.

(** The floats of a bounding box are only indexed and printed here. *)
Variable F : Type.
Variable repr : F -> string.

(** The registry: the sites answered to the GET with the given [bbox]
    parameter, or the exception of the request, of [raise_for_status()] or of
    the reading of an ['id']. *)
Variable openaq_locations : string -> Exc (list Site).

(** The archive: the listing under a prefix, and the frame read from an
    object ([get_object], [GzipFile], [pd.read_csv]); [None] when any of these
    raises. *)
Variable list_objects_v2 : string -> Listing.
Variable read_csv_gz : string -> option RawFrame.

(** The installed pandas: what its [pd.to_datetime] does with mixed UTC
    offsets. *)
Variable mixed_offsets : MixedOffsets.

(** What leaves the tool besides its return value: the requests to the
    registry and the printed lines, in order. *)
Inductive Event :=
| Request (bbox : string)
| PrintFound (n : nat) (bbox_openaq_format : list F) (location : string)
| PrintDownloading (key : string)
| PrintFetchError (location_id : Z)
| PrintSample (sample : RawFrame)
| PrintFailed (failed_locations : list Z)
| PrintDF (sample : RawFrame)
| PrintAggregationFailed
| PrintProcessingError (bbox : list F) (location : string).

(** The frame returned, or the exception that leaves the function, and the
    lines printed.  The column is read over the whole frame, before the
    allow-list is applied.  When the texts share one offset the [try] runs to
    its end.  Otherwise either [pd.to_datetime] raises, outside the [try] and
    before any line is printed, or the [groupby] raises inside the [try]: the
    [except] prints its line, and the statement after it raises on
    [daily_data], which was never bound. *)
Definition aggregate_data (df : RawFrame) (parameters : option (list string))
    : Exc (Frame DailyRow) * list Event :=
  if one_offset df then
    let df := select parameters df in
    (Ok {| columns := daily_columns; rows := daily_data df |}, [PrintDF (head df)])
  else
    match mixed_offsets with
    | MixedRaises => (Raise ValueError, [])
    | MixedObjects =>
        let df := select parameters df in
        (Raise UnboundLocalError, [PrintDF (head df); PrintAggregationFailed])
    end.

(** *** [get_location_ids] *)

Definition bbox_param (bbox : list F) : Exc string :=
  b0 <- py_index bbox 0 ;;
  b1 <- py_index bbox 1 ;;
  b2 <- py_index bbox 2 ;;
  b3 <- py_index bbox 3 ;;
  Ok (repr b0 ++ "," ++ repr b1 ++ "," ++ repr b2 ++ "," ++ repr b3)%string.

Definition get_location_ids (bbox : list F) : Exc (list Site) * list Event :=
  match bbox_param bbox with
  | Raise e => (Raise e, [])
  | Ok param => (openaq_locations param, [Request param])
  end.

(** *** [fetch_sensor_data] *)

Record FetchState := {
  consolidated_df : RawFrame;
  failed_locations : list Z;
  printed : list Event
}.

Definition print (e : Event) (st : FetchState) : FetchState :=
  {| consolidated_df := consolidated_df st;
     failed_locations := failed_locations st;
     printed := printed st ++ [e] |}.

Definition append_failed (location_id : Z) (st : FetchState) : FetchState :=
  {| consolidated_df := consolidated_df st;
     failed_locations := failed_locations st ++ [location_id];
     printed := printed st |}.

Definition concat_daily (daily_df : RawFrame) (st : FetchState) : FetchState :=
  {| consolidated_df := consolidated_df st ++ daily_df;
     failed_locations := failed_locations st;
     printed := printed st |}.

Definition endswith (s suffix : string) : bool :=
  let ls := String.length s in
  let lx := String.length suffix in
  Nat.leb lx ls && String.eqb (substring (ls - lx) lx s) suffix.

(** The loop over [response['Contents']]; the flag tells that an exception
    left it. *)
Fixpoint download (suffix : string) (contents : list string) (st : FetchState)
    : FetchState * bool :=
  match contents with
  | [] => (st, false)
  | key :: rest =>
      if endswith key suffix then
        let st := print (PrintDownloading key) st in
        match read_csv_gz key with
        | Some daily_df => download suffix rest (concat_daily daily_df st)
        | None => (st, true)
        end
      else download suffix rest st
  end.

(** The [except] branch of the inner [try]. *)
Definition fetch_except (location_id : Z) (st : FetchState) : FetchState :=
  append_failed location_id (print (PrintFetchError location_id) st).

(** The body of the two loops, for one site and one day. *)
Definition fetch_day (location_id : Z) (date : Date) (st : FetchState) : FetchState :=
  let year := strftime_Y date in
  let month := strftime_m date in
  let day := strftime_d date in
  let prefix :=
    ("records/csv.gz/locationid=" ++ str_of_int location_id
       ++ "/year=" ++ year ++ "/month=" ++ month ++ "/")%string in
  match list_objects_v2 prefix with
  | ListingError => fetch_except location_id st
  | ListingOk None => append_failed location_id st
  | ListingOk (Some contents) =>
      let '(st', raised) := download (year ++ month ++ day ++ ".csv.gz")%string contents st in
      if raised then fetch_except location_id st' else st'
  end.

(** The site/day pairs in the order of the two loops. *)
Definition retrieval_units (location_ids : list Z) (start_date end_date : Date)
    : list (Z * Date) :=
  flat_map (fun location_id => map (pair location_id) (date_range start_date end_date))
           location_ids.

(** What the state [d] adds to the state [st]. *)
Definition merge (st d : FetchState) : FetchState :=
  {| consolidated_df := consolidated_df st ++ consolidated_df d;
     failed_locations := failed_locations st ++ failed_locations d;
     printed := printed st ++ printed d |}.

(** The state before the loops: an empty frame, no failure, nothing printed. *)
Definition fetch_init : FetchState :=
  {| consolidated_df := []; failed_locations := []; printed := [] |}.

Definition fetch_loops (location_ids : list Z) (start_date end_date : Date) : FetchState :=
  fold_left (fun st u => fetch_day (fst u) (snd u) st)
            (retrieval_units location_ids start_date end_date)
            fetch_init.

(** The state when [fetch_sensor_data] reaches its [return]. *)
Definition fetch_final (location_ids : list Z) (start_date end_date : Date) : FetchState :=
  let st := fetch_loops location_ids start_date end_date in
  let st := print (PrintSample (head (consolidated_df st))) st in
  match failed_locations st with
  | [] => st
  | _ :: _ => print (PrintFailed (failed_locations st)) st
  end.

(** What the function returns, and what it has printed by then. *)
Definition fetch_sensor_data (location_ids : list Z) (start_date end_date : Date) : RawFrame :=
  consolidated_df (fetch_final location_ids start_date end_date).

Definition fetch_printed (location_ids : list Z) (start_date end_date : Date) : list Event :=
  printed (fetch_final location_ids start_date end_date).

(** *** Main workflow *)

Definition set_location (location : string) (f : Frame DailyRow) : Frame Row :=
  {| columns := columns f ++ ["location"%string];
     rows := map (fun d => {| r_parameter := d_parameter d;
                              r_value := d_value d;
                              r_units := d_units d;
                              r_date := d_date d;
                              r_location := location |}) (rows f) |}.

(** The body of the [try] for one (bounding box, location) pair: the frame
    to append to [all_data], if any, and the events; [Raise] when an
    exception reaches the [except]. *)
Definition process (bbox : list F) (location : string)
    (start_date_dt end_date_dt : Date) (aq_parameters : option (list string))
    : Exc (option (Frame Row)) * list Event :=
  match (b1 <- py_index bbox 1 ;; b0 <- py_index bbox 0 ;;
         b3 <- py_index bbox 3 ;; b2 <- py_index bbox 2 ;;
         Ok [b1; b0; b3; b2]) with
  | Raise e => (Raise e, [])
  | Ok bbox_openaq_format =>
      match get_location_ids bbox_openaq_format with
      | (Raise e, ev) => (Raise e, ev)
      | (Ok location_data, ev) =>
          let location_ids := map id location_data in
          let ev := ev ++ [PrintFound (List.length location_ids) bbox_openaq_format location] in
          let consolidated_df := fetch_sensor_data location_ids start_date_dt end_date_dt in
          let ev' := fetch_printed location_ids start_date_dt end_date_dt in
          match consolidated_df with
          | [] => (Ok None, ev ++ ev')
          | _ :: _ =>
              match aggregate_data consolidated_df aq_parameters with
              | (Ok aggregated_daily_data, ev'') =>
                  (Ok (Some (set_location location aggregated_daily_data)), ev ++ ev' ++ ev'')
              | (Raise e, ev'') => (Raise e, ev ++ ev' ++ ev'')
              end
          end
      end
  end.

Record RunState := {
  all_data : list (Frame Row);
  trace : list Event
}.

Definition step (start_date_dt end_date_dt : Date) (aq_parameters : option (list string))
    (st : RunState) (pair : list F * string) : RunState :=
  let '(bbox, location) := pair in
  match process bbox location start_date_dt end_date_dt aq_parameters with
  | (Ok (Some f), ev) => {| all_data := all_data st ++ [f]; trace := trace st ++ ev |}
  | (Ok None, ev) => {| all_data := all_data st; trace := trace st ++ ev |}
  | (Raise _, ev) =>
      {| all_data := all_data st;
         trace := trace st ++ ev ++ [PrintProcessingError bbox location] |}
  end.

(** [pd.concat(frames, ignore_index=True)]: the labels in order of first
    appearance, the rows one frame after the other. *)
Definition union_columns (a b : list string) : list string :=
  a ++ filter (fun c => negb (existsb (String.eqb c) a)) b.

Definition concat (frames : list (Frame Row)) : Frame Row :=
  {| columns := fold_left union_columns (map (@columns Row) frames) [];
     rows := flat_map (@rows Row) frames |}.

Definition main_workflow (bounding_boxes : list (list F)) (locations : list string)
    (start_date_dt end_date_dt : Date) (aq_parameters : option (list string)) : RunState :=
  fold_left (step start_date_dt end_date_dt aq_parameters)
            (combine bounding_boxes locations)
            {| all_data := []; trace := [] |}.

(** [_run]: the returned table and the events, or the [ValueError] for a
    date that does not parse. *)
Definition _run (bounding_boxes : list (list F)) (locations : list string)
    (start_date end_date : string) (aq_parameters : option (list string))
    : Exc (Frame Row * list Event) :=
  match strptime start_date, strptime end_date with
  | Some start_date_dt, Some end_date_dt =>
      let st := main_workflow bounding_boxes locations start_date_dt end_date_dt aq_parameters in
      match all_data st with
      | [] => Ok ({| columns := ["date"; "parameter"; "unit"; "value"; "location"]%string;
                     rows := [] |}, trace st)
      | _ :: _ => Ok (concat (all_data st), trace st)
      end
  | _, _ => Raise ValueError
  end.

(** What one (bounding box, location) pair adds to [all_data] and to the
    trace. *)
Definition contributed_frame (start_date_dt end_date_dt : Date)
    (aq_parameters : option (list string)) (pair : list F * string) : option (Frame Row) :=
  match fst (process (fst pair) (snd pair) start_date_dt end_date_dt aq_parameters) with
  | Ok (Some f) => Some f
  | _ => None
  end.

Definition contributed_events (start_date_dt end_date_dt : Date)
    (aq_parameters : option (list string)) (pair : list F * string) : list Event :=
  match process (fst pair) (snd pair) start_date_dt end_date_dt aq_parameters with
  | (Raise _, ev) => ev ++ [PrintProcessingError (fst pair) (snd pair)]
  | (Ok _, ev) => ev
  end.

(** The labels of a frame that went through [aggregate_data] and got its
    [location]. *)
Definition located_columns : list string := daily_columns ++ ["location"%string].

(** The [bbox] parameters of the requests of a trace, in order. *)
Definition requests (tr : list Event) : list string :=
  collect (fun ev => match ev with Request bbox => Some bbox | _ => None end) tr.

(** The registry's axis order for a box given as south, west, north, east,
    and the text of a box as a query parameter. *)
Definition openaq_order (bbox : list F) : option (list F) :=
  match bbox with
  | south :: west :: north :: east :: _ => Some [west; south; east; north]
  | _ => None
  end.

Definition query_text (bbox : list F) : string :=
  String.concat "," (map repr bbox).

End Pipeline.

Arguments Request {F} bbox.
Arguments PrintFound {F} n bbox_openaq_format location.
Arguments PrintDownloading {F} key.
Arguments PrintFetchError {F} location_id.
Arguments PrintSample {F} sample.
Arguments PrintFailed {F} failed_locations.
Arguments PrintDF {F} sample.
Arguments PrintAggregationFailed {F}.
Arguments PrintProcessingError {F} bbox location.
Arguments print {F} e st.
Arguments append_failed {F} location_id st.
Arguments concat_daily {F} daily_df st.
Arguments fetch_except {F} location_id st.
Arguments merge {F} st d.
Arguments consolidated_df {F} f.
Arguments failed_locations {F} f.
Arguments printed {F} f.
Arguments all_data {F} r.
Arguments trace {F} r.
Arguments requests {F} tr.
Arguments openaq_order {F} bbox.
Arguments query_text {F} repr bbox.

(** The (location, date, parameter) of a row. *)
Definition triple (r : Row) : string * Date * string :=
  (r_location r, r_date r, r_parameter r).

End AirQualityAnalysisTool.

(** ** agent_tools_cai_studio/air_quality_analysis_tool.py *)

Module CaiStudio.

Import Calendar AirQualityAnalysisTool.

Section Tool.
Variable F : Type.
Variable repr : F -> string.
Variable openaq_locations : string -> Exc (list Site).
Variable list_objects_v2 : string -> Listing.
Variable read_csv_gz : string -> option RawFrame.

(** The reading of a date text by [pd.date_range]; [None] when it raises. *)
Variable to_datetime : string -> option Date.

(** The installed pandas, as for the agent tool. *)
Variable mixed_offsets : MixedOffsets.

(** The loop over [response["Contents"]]; the flag tells that an exception
    left it. *)
Fixpoint download (suffix : string) (contents : list string) (consolidated_df : RawFrame)
    : RawFrame * bool :=
  match contents with
  | [] => (consolidated_df, false)
  | key :: rest =>
      if endswith key suffix then
        match read_csv_gz key with
        | Some daily_df => download suffix rest (consolidated_df ++ daily_df)
        | None => (consolidated_df, true)
        end
      else download suffix rest consolidated_df
  end.

Definition fetch_day (location_id : Z) (date : Date) (st : RawFrame * list (Event F))
    : RawFrame * list (Event F) :=
  let '(consolidated_df, out) := st in
  let year := strftime_Y date in
  let month := strftime_m date in
  let day := strftime_d date in
  let prefix :=
    ("records/csv.gz/locationid=" ++ str_of_int location_id
       ++ "/year=" ++ year ++ "/month=" ++ month ++ "/")%string in
  match list_objects_v2 prefix with
  | ListingError => (consolidated_df, out ++ [PrintFetchError location_id])
  | ListingOk None => (consolidated_df, out)
  | ListingOk (Some contents) =>
      let '(df, raised) :=
        download (year ++ month ++ day ++ ".csv.gz")%string contents consolidated_df in
      if raised then (df, out ++ [PrintFetchError location_id]) else (df, out)
  end.

(** The two date texts are read by [pd.date_range] in the header of the
    inner loop, so only once there is a site to loop over. *)
Definition fetch_sensor_data (location_ids : list Z) (start_date end_date : string)
    : Exc (RawFrame * list (Event F)) :=
  match location_ids with
  | [] => Ok ([], [])
  | _ :: _ =>
      match to_datetime start_date, to_datetime end_date with
      | Some start_dt, Some end_dt =>
          Ok (fold_left (fun st u => fetch_day (fst u) (snd u) st)
                        (retrieval_units location_ids start_dt end_dt)
                        ([], []))
      | _, _ => Raise ValueError
      end
  end.

(** No [try] here: with mixed offsets [pd.to_datetime] or the [groupby]
    raises out of the function. *)
Definition aggregate_data (df : RawFrame) (parameters : option (list string))
    : Exc (Frame DailyRow) :=
  if one_offset df then
    Ok {| columns := daily_columns; rows := daily_data (select parameters df) |}
  else
    match mixed_offsets with
    | MixedRaises => Raise ValueError
    | MixedObjects => Raise TypeError
    end.

(** The loop of [run_tool]; nothing catches an exception here, so the first
    one ends the run.  The events are those that happened up to then. *)
Fixpoint main_loop (pairs : list (list F * string)) (start_date end_date : string)
    (aq_parameters : option (list string))
    (all_data : list (Frame Row)) (tr : list (Event F))
    : Exc (list (Frame Row)) * list (Event F) :=
  match pairs with
  | [] => (Ok all_data, tr)
  | (bbox, location) :: rest =>
      match (b1 <- py_index bbox 1 ;; b0 <- py_index bbox 0 ;;
             b3 <- py_index bbox 3 ;; b2 <- py_index bbox 2 ;;
             Ok [b1; b0; b3; b2]) with
      | Raise e => (Raise e, tr)
      | Ok bbox_openaq_format =>
          match get_location_ids F repr openaq_locations bbox_openaq_format with
          | (Raise e, ev) => (Raise e, tr ++ ev)
          | (Ok location_data, ev) =>
              let location_ids := map id location_data in
              match fetch_sensor_data location_ids start_date end_date with
              | Raise e => (Raise e, tr ++ ev)
              | Ok ([], ev') =>
                  main_loop rest start_date end_date aq_parameters all_data (tr ++ ev ++ ev')
              | Ok (r :: df, ev') =>
                  match aggregate_data (r :: df) aq_parameters with
                  | Raise e => (Raise e, tr ++ ev ++ ev')
                  | Ok aggregated_daily_data =>
                      main_loop rest start_date end_date aq_parameters
                                (all_data ++ [set_location location aggregated_daily_data])
                                (tr ++ ev ++ ev')
                  end
              end
          end
      end
  end.

Definition run_tool (bounding_boxes : list (list F)) (locations : list string)
    (start_date end_date : string) (aq_parameters : option (list string))
    : Exc (Frame Row) * list (Event F) :=
  match main_loop (combine bounding_boxes locations) start_date end_date aq_parameters [] [] with
  | (Raise e, tr) => (Raise e, tr)
  | (Ok [], tr) =>
      (Ok {| columns := ["date"; "parameter"; "unit"; "value"; "location"]%string;
             rows := [] |}, tr)
  | (Ok (f :: fs), tr) => (Ok (concat (f :: fs)), tr)
  end.

End Tool.

End CaiStudio.

(** ** Sample worlds *)

Module Scenarios.

(** A geocoder that knows one place, with the box listed as south, north,
    west, east. *)
Definition sample_place : BoundingBoxExtractorTool.Place :=
  {| BoundingBoxExtractorTool.boundingbox := ["20.0"; "30.0"; "70.0"; "80.0"]%string |}.

Definition sample_geocoder (url : string) : BoundingBoxExtractorTool.Response :=
  BoundingBoxExtractorTool.Json [sample_place].

(** An archive answer with three dates, two mean temperatures, one maximum
    and no other metric. *)
Definition ragged_daily : HistoricalWeatherTool.Daily :=
  [ ("time"%string,
     [ HistoricalWeatherTool.JString "2023-01-01";
       HistoricalWeatherTool.JString "2023-01-02";
       HistoricalWeatherTool.JString "2023-01-03" ]);
    ("temperature_2m_mean"%string,
     [ HistoricalWeatherTool.JNumber (141 # 10);
       HistoricalWeatherTool.JNull ]);
    ("temperature_2m_max"%string,
     [ HistoricalWeatherTool.JNumber (203 # 10) ]) ].

Definition ragged_archive (params : HistoricalWeatherTool.Params R)
    : HistoricalWeatherTool.Response :=
  HistoricalWeatherTool.Json (Some ragged_daily).

(** Two pm25 readings of 2023-01-01, 10 at midnight and 20 an hour later,
    and the same day with the second reading on the next day instead. *)
Definition pm25_at (d : Calendar.Date) (t : N) (v : Q) (u : string)
    : AirQualityAnalysisTool.RawReading :=
  {| AirQualityAnalysisTool.datetime :=
       {| AirQualityAnalysisTool.day := d; AirQualityAnalysisTool.seconds := t |};
     AirQualityAnalysisTool.utcoffset := 330;
     AirQualityAnalysisTool.parameter := "pm25";
     AirQualityAnalysisTool.value := Some (Q2Qc v);
     AirQualityAnalysisTool.units := Some u |}.

Definition two_readings_one_day : AirQualityAnalysisTool.RawFrame :=
  [ pm25_at (Calendar.toordinal 2023 1 1) 0 10 "ug/m3";
    pm25_at (Calendar.toordinal 2023 1 1) 3600 20 "ug/m3" ].

Definition one_reading_per_day : AirQualityAnalysisTool.RawFrame :=
  [ pm25_at (Calendar.toordinal 2023 1 2) 0 20 "ug/m3";
    pm25_at (Calendar.toordinal 2023 1 1) 0 10 "ug/m3" ].

(** Floats printed the way Python prints whole numbers, as a fraction
    otherwise. *)
Definition repr_Q (q : Q) : string :=
  match Qden q with
  | xH => (Calendar.str_of_int (Qnum q) ++ ".0")%string
  | d => (Calendar.str_of_int (Qnum q) ++ "/" ++ Calendar.str_of_N (Npos d))%string
  end.

(** A registry that knows sites 1 and 2 inside the box west 70, south 20,
    east 80, north 30, and refuses any other query. *)
Definition registry (bbox : string) : Exc (list AirQualityAnalysisTool.Site) :=
  if String.eqb bbox "70.0,20.0,80.0,30.0"
  then Ok [ {| AirQualityAnalysisTool.id := 1 |}; {| AirQualityAnalysisTool.id := 2 |} ]
  else Raise HTTPError.

Definition site1_january : string := "records/csv.gz/locationid=1/year=2023/month=01/".
Definition site1_new_year : string :=
  "records/csv.gz/locationid=1/year=2023/month=01/location-1-20230101.csv.gz".

(** An archive that holds one file, for site 1 on 2023-01-01; listing any
    other prefix fails in [failing_archive] and finds no key in
    [silent_archive]. *)
Definition failing_archive (prefix : string) : AirQualityAnalysisTool.Listing :=
  if String.eqb prefix site1_january
  then AirQualityAnalysisTool.ListingOk (Some [site1_new_year])
  else AirQualityAnalysisTool.ListingError.

Definition silent_archive (prefix : string) : AirQualityAnalysisTool.Listing :=
  if String.eqb prefix site1_january
  then AirQualityAnalysisTool.ListingOk (Some [site1_new_year])
  else AirQualityAnalysisTool.ListingOk (Some []).

Definition archive_files (key : string) : option AirQualityAnalysisTool.RawFrame :=
  if String.eqb key site1_new_year then Some two_readings_one_day else None.

Definition new_year : Calendar.Date := Calendar.toordinal 2023 1 1.

Definition india_box : list Q := [20; 70; 30; 80]%Q.

End Scenarios.

(** ** agent_tools_cai_studio/geocode_boundingbox_tool.py *)

Module CaiBoundingBoxExtractor.

(** The dictionary returned: [{"expanded_bounding_box": b}] or
    [{"error": s}]. *)
Inductive Result (F : Type) :=
| ExpandedBoundingBox (b : list F)
| Error (s : string).
Arguments ExpandedBoundingBox {F} b.
Arguments Error {F} s.

Section Tool.
Context {F : Type} `{PyFloat F}.
Variable requests_get : string -> BoundingBoxExtractorTool.Response.

Local Open Scope py_scope.

Definition expand_bounding_box
    (south_lat west_lon north_lat east_lon km_expansion : F) : list F :=
  let lat_offset := km_expansion / of_int 111 in
  let lon_offset :=
    km_expansion / (of_int 111 * fcos (fradians ((south_lat + north_lat) / of_int 2))) in
  [ south_lat - lat_offset;
    west_lon - lon_offset;
    north_lat + lat_offset;
    east_lon + lon_offset ].

Definition float (s : string) : Exc F :=
  match float_of_str s with
  | Some x => Ok x
  | None => Raise ValueError
  end.

Definition url (location : string) : string :=
  ("https://nominatim.openstreetmap.org/search?q=" ++ location
     ++ "&format=json&addressdetails=1")%string.

Definition run_tool (location : string) : Exc (Result F) :=
  match requests_get (url location) with
  | BoundingBoxExtractorTool.RequestException e =>
      Ok (Error ("Error fetching bounding box for " ++ location ++ ": " ++ e)%string)
  | BoundingBoxExtractorTool.Json [] =>
      Ok (Error ("Bounding box not found for location: " ++ location)%string)
  | BoundingBoxExtractorTool.Json (place :: _) =>
      let bbox := BoundingBoxExtractorTool.boundingbox place in
      b0 <- py_index bbox 0 ;; south_lat <- float b0 ;;
      b1 <- py_index bbox 1 ;; north_lat <- float b1 ;;
      b2 <- py_index bbox 2 ;; west_lon <- float b2 ;;
      b3 <- py_index bbox 3 ;; east_lon <- float b3 ;;
      Ok (ExpandedBoundingBox
            (expand_bounding_box south_lat west_lon north_lat east_lon (of_int 15)))
  end.

End Tool.

End CaiBoundingBoxExtractor.

(** ** agent_tools_cai_studio/weather_tool.py *)

Module CaiWeatherTool.

Import HistoricalWeatherTool.

(** [daily_data.get(key, default)] and [daily_data[key]]. *)
Fixpoint get_or (key : string) (default : list JValue) (d : Daily) : list JValue :=
  match d with
  | [] => default
  | (k, v) :: rest => if String.eqb k key then v else get_or key default rest
  end.

Fixpoint item (key : string) (d : Daily) : Exc (list JValue) :=
  match d with
  | [] => Raise KeyError
  | (k, v) :: rest => if String.eqb k key then Ok v else item key rest
  end.

Definition summary_at (daily_data : Daily) (i : nat) : Exc Summary :=
  times <- item "time" daily_data ;;
  d <- py_index times i ;;
  t_mean <- py_index (get_or "temperature_2m_mean" [NA] daily_data) i ;;
  t_max <- py_index (get_or "temperature_2m_max" [NA] daily_data) i ;;
  t_min <- py_index (get_or "temperature_2m_min" [NA] daily_data) i ;;
  p <- py_index (get_or "precipitation_sum" [NA] daily_data) i ;;
  w <- py_index (get_or "wind_speed_10m_mean" [NA] daily_data) i ;;
  h <- py_index (get_or "relative_humidity_2m_mean" [NA] daily_data) i ;;
  Ok {| date := d;
        temperature_mean_2m := t_mean;
        temperature_max_2m := t_max;
        temperature_min_2m := t_min;
        precipitation_sum := p;
        wind_speed_10m_mean := w;
        relative_humidity_2m_mean := h |}.

Fixpoint summary_loop (daily_data : Daily) (indices : list nat)
    (weather_summary : list Summary) : Exc (list Summary) :=
  match indices with
  | [] => Ok weather_summary
  | i :: rest =>
      summary <- summary_at daily_data i ;;
      summary_loop daily_data rest (weather_summary ++ [summary])
  end.

(** The six metrics a row shows. *)
Definition metrics : list string :=
  [ "temperature_2m_mean"; "temperature_2m_max"; "temperature_2m_min";
    "precipitation_sum"; "wind_speed_10m_mean"; "relative_humidity_2m_mean" ]%string.

Section Tool.
Context {F : Type} `{PyFloat F}.
Variable requests_get : Params F -> Response.

Local Open Scope py_scope.

(** The result: the list of rows, or one of the four [{"error": ...}]
    dictionaries, kept apart by the constructors of the other weather tool
    ([FetchError e] is "HTTP error occurred: e"). *)
Definition run_tool (bounding_box : list F) (start_date end_date : string) : Result :=
  match bounding_box with
  | [south_lat; west_lon; north_lat; east_lon] =>
      let center_latitude := (south_lat + north_lat) / of_int 2 in
      let center_longitude := (west_lon + east_lon) / of_int 2 in
      let params := {| latitude := center_latitude;
                       longitude := center_longitude;
                       start_date := start_date;
                       end_date := end_date;
                       daily := daily_metrics;
                       timezone := "auto" |} in
      match requests_get params with
      | RequestException e => FetchError e
      | Json None => NoDailyData
      | Json (Some daily_data) =>
          match summary_loop daily_data
                             (seq 0 (List.length (get_or "time" [] daily_data))) [] with
          | Ok weather_summary => WeatherSummary weather_summary
          | Raise e => UnexpectedError e
          end
      end
  | _ => BoxLengthError
  end.

End Tool.

End CaiWeatherTool.

(** ** agent_tools_cai_studio/input_parser_tool.py *)

Module CaiInputParser.

(** The dictionary returned: [{"error": s}] or [{"validated_input": d}]. *)
Inductive Result :=
| Error (s : string)
| ValidatedInput (input_summary : InputParserTool.InputSummary).

Definition run_tool (locations : list string) (start_date end_date : string)
    (aq_parameters : list string) : Result :=
  match locations with
  | [] => Error "At least one location must be specified."
  | _ :: _ =>
      match aq_parameters with
      | [] => Error "At least one air quality parameter must be specified."
      | _ :: _ =>
          if InputParserTool.str_ge start_date end_date
          then Error "The start date must be before the end date."
          else ValidatedInput
                 {| InputParserTool.locations := locations;
                    InputParserTool.start_date := start_date;
                    InputParserTool.end_date := end_date;
                    InputParserTool.parameters := aq_parameters |}
      end
  end.

End CaiInputParser.

(** ** Notions used to state further properties *)

Module Notions.

Section Geocoder.
Context {F : Type} `{PyFloat F}.

(** The four floats of a place's box, in the order listed (south, north,
    west, east), when the box has four entries and each reads as a float. *)
Definition parsed_box (place : BoundingBoxExtractorTool.Place) : option (F * F * F * F) :=
  match BoundingBoxExtractorTool.boundingbox place with
  | a :: b :: c :: d :: _ =>
      match float_of_str a, float_of_str b, float_of_str c, float_of_str d with
      | Some s, Some n, Some w, Some e => Some (s, n, w, e)
      | _, _, _, _ => None
      end
  | _ => None
  end.

(** The CAI Studio dictionary that says what a result of the other tool
    says. *)
Definition as_dictionary (r : BoundingBoxExtractorTool.Result F)
    : CaiBoundingBoxExtractor.Result F :=
  match r with
  | BoundingBoxExtractorTool.Box b => CaiBoundingBoxExtractor.ExpandedBoundingBox b
  | BoundingBoxExtractorTool.Message s => CaiBoundingBoxExtractor.Error s
  end.

End Geocoder.

(** Every metric array, or the one-entry default of a metric that is absent,
    reaches the end of the time array. *)
Definition covers (daily_data : HistoricalWeatherTool.Daily) : bool :=
  forallb (fun metric =>
             Nat.leb (List.length (HistoricalWeatherTool.get "time" daily_data))
                     (List.length (CaiWeatherTool.get_or metric [HistoricalWeatherTool.NA]
                                                         daily_data)))
          CaiWeatherTool.metrics.

(** The month prefix listed for a site and a day, and the ending a key must
    have to be read for that day. *)
Definition archive_prefix (location_id : Z) (date : Calendar.Date) : string :=
  ("records/csv.gz/locationid=" ++ Calendar.str_of_int location_id
     ++ "/year=" ++ Calendar.strftime_Y date
     ++ "/month=" ++ Calendar.strftime_m date ++ "/")%string.

Definition archive_suffix (date : Calendar.Date) : string :=
  (Calendar.strftime_Y date ++ Calendar.strftime_m date
     ++ Calendar.strftime_d date ++ ".csv.gz")%string.

(** The table returned when no pair contributed a frame. *)
Definition empty_table : AirQualityAnalysisTool.Frame AirQualityAnalysisTool.Row :=
  {| AirQualityAnalysisTool.columns :=
       ["date"; "parameter"; "unit"; "value"; "location"]%string;
     AirQualityAnalysisTool.rows := [] |}.

(** A pair whose box is too short to be reordered, or whose request to the
    registry raises. *)
Definition registry_fails {F : Type} (repr : F -> string)
    (openaq_locations : string -> Exc (list AirQualityAnalysisTool.Site))
    (pair : list F * string) : Prop :=
  match AirQualityAnalysisTool.openaq_order (fst pair) with
  | None => True
  | Some q =>
      exists exn, openaq_locations (AirQualityAnalysisTool.query_text repr q) = Raise exn
  end.

(** A pair whose box the registry answers, and for whose sites the archive
    yields readings written with more than one UTC offset. *)
Definition offsets_clash {F : Type} (repr : F -> string)
    (openaq_locations : string -> Exc (list AirQualityAnalysisTool.Site))
    (list_objects_v2 : string -> AirQualityAnalysisTool.Listing)
    (read_csv_gz : string -> option AirQualityAnalysisTool.RawFrame)
    (start_date_dt end_date_dt : Calendar.Date) (pair : list F * string) : Prop :=
  exists q location_data,
    AirQualityAnalysisTool.openaq_order (fst pair) = Some q /\
    openaq_locations (AirQualityAnalysisTool.query_text repr q) = Ok location_data /\
    AirQualityAnalysisTool.one_offset
      (AirQualityAnalysisTool.fetch_sensor_data F list_objects_v2 read_csv_gz
         (map AirQualityAnalysisTool.id location_data) start_date_dt end_date_dt)
    = false.

(** The returned table of a run, without its trace. *)
Definition returned {F : Type}
    (r : Exc (AirQualityAnalysisTool.Frame AirQualityAnalysisTool.Row
              * list (AirQualityAnalysisTool.Event F)))
    : Exc (AirQualityAnalysisTool.Frame AirQualityAnalysisTool.Row) :=
  match r with
  | Ok (frame, _) => Ok frame
  | Raise exn => Raise exn
  end.

(** The order of the rows of an aggregate: by parameter, then by date. *)
Definition row_order (a b : AirQualityAnalysisTool.DailyRow) : Prop :=
  match String.compare (AirQualityAnalysisTool.d_parameter a)
                       (AirQualityAnalysisTool.d_parameter b) with
  | Lt => True
  | Eq => (AirQualityAnalysisTool.d_date a <= AirQualityAnalysisTool.d_date b)%Z
  | Gt => False
  end.

(** A row without its unit. *)
Definition measured (d : AirQualityAnalysisTool.DailyRow) : string * Calendar.Date * Qc :=
  (AirQualityAnalysisTool.d_parameter d, AirQualityAnalysisTool.d_date d,
   AirQualityAnalysisTool.d_value d).

End Notions.

(** ** Further sample worlds *)

Module Samples.

(** An archive answer for one day that gives the mean temperature and no
    other metric. *)
Definition one_day_daily : HistoricalWeatherTool.Daily :=
  [ ("time"%string, [ HistoricalWeatherTool.JString "2023-01-01" ]);
    ("temperature_2m_mean"%string, [ HistoricalWeatherTool.JNumber (141 # 10) ]) ].

Definition one_day_archive (params : HistoricalWeatherTool.Params R)
    : HistoricalWeatherTool.Response :=
  HistoricalWeatherTool.Json (Some one_day_daily).

(** A box the sample registry refuses. *)
Definition unknown_box : list Q := [0; 0; 1; 1]%Q.


(** A pm25 reading of 2023-01-01 or a later day, with its time of day, its
    UTC offset in minutes, and a value and a unit that may be missing. *)
Definition reading (d : Calendar.Date) (t : N) (o : Z) (v : option Q) (u : option string)
    : AirQualityAnalysisTool.RawReading :=
  {| AirQualityAnalysisTool.datetime :=
       {| AirQualityAnalysisTool.day := d; AirQualityAnalysisTool.seconds := t |};
     AirQualityAnalysisTool.utcoffset := o;
     AirQualityAnalysisTool.parameter := "pm25";
     AirQualityAnalysisTool.value := option_map Q2Qc v;
     AirQualityAnalysisTool.units := u |}.



(** One reading a day, the second written with another UTC offset (a site
    across a time-zone border, or after a change of the clocks). *)
Definition two_offsets : AirQualityAnalysisTool.RawFrame :=
  [ reading (Calendar.toordinal 2023 1 1) 0 330 (Some 10%Q) (Some "ug/m3"%string);
    reading (Calendar.toordinal 2023 1 2) 0 345 (Some 20%Q) (Some "ug/m3"%string) ].

(** The archive of [Scenarios] with these two readings in its one file. *)
Definition clashing_files (key : string) : option AirQualityAnalysisTool.RawFrame :=
  if String.eqb key Scenarios.site1_new_year then Some two_offsets else None.

End Samples.

(** * Statements *)

(** ** Bounding-box expansion *)

Section ExpansionFormula.
Context {F : Type} `{PyFloat F}.
Import BoundingBoxExtractorTool.
Local Open Scope py_scope.

(** C1: for every base box (s, w, n, e) and margin m, the expansion returns
    [s - m/111; w - d; n + m/111; e + d] with
    d = m / (111 * cos (radians ((s + n) / 2))), in whatever float arithmetic
    is plugged in; and the geocoding path, whose answer lists the box as
    south, north, west, east, calls it with m = 15. *)
Theorem expand_bounding_box_formula :
  (forall s w n e m : F,
      _expand_bounding_box s w n e m =
      [ s - m / of_int 111;
        w - m / (of_int 111 * fcos (fradians ((s + n) / of_int 2)));
        n + m / of_int 111;
        e + m / (of_int 111 * fcos (fradians ((s + n) / of_int 2))) ]) /\
  (forall (requests_get : string -> Response) (location : string)
          (place : Place) (others : list Place)
          (s_text n_text w_text e_text : string) (more : list string) (s n w e : F),
      requests_get (url location) = Json (place :: others) ->
      boundingbox place = s_text :: n_text :: w_text :: e_text :: more ->
      float_of_str s_text = Some s ->
      float_of_str n_text = Some n ->
      float_of_str w_text = Some w ->
      float_of_str e_text = Some e ->
      _run requests_get location =
      Ok (Box [ s - of_int 15 / of_int 111;
                w - of_int 15 / (of_int 111 * fcos (fradians ((s + n) / of_int 2)));
                n + of_int 15 / of_int 111;
                e + of_int 15 / (of_int 111 * fcos (fradians ((s + n) / of_int 2))) ])).
Proof.
  split.
  - intros s w n e m. reflexivity.
  - intros requests_get location place others s_text n_text w_text e_text more s n w e
           Hget Hbox Hs Hn Hw He.
    unfold _run. rewrite Hget, Hbox.
    unfold py_index, float; simpl.
    rewrite Hs; simpl. rewrite Hn; simpl. rewrite Hw; simpl. rewrite He; simpl.
    reflexivity.
Qed.

End ExpansionFormula.

Lemma expand_bounding_box_formula_witness :
  BoundingBoxExtractorTool._run Scenarios.sample_geocoder "Sample" =
  Ok (BoundingBoxExtractorTool.Box
        [ Q2R (200 # 10) - 15 / 111;
          Q2R (700 # 10) - 15 / (111 * cos ((Q2R (200 # 10) + Q2R (300 # 10)) / 2 * (PI / 180)));
          Q2R (300 # 10) + 15 / 111;
          Q2R (800 # 10) + 15 / (111 * cos ((Q2R (200 # 10) + Q2R (300 # 10)) / 2 * (PI / 180))) ]%R).
Proof.
  exact (proj2 (expand_bounding_box_formula (F := R))
           Scenarios.sample_geocoder "Sample"%string Scenarios.sample_place []
           "20.0"%string "30.0"%string "70.0"%string "80.0"%string []
           (Q2R (200 # 10)) (Q2R (300 # 10)) (Q2R (700 # 10)) (Q2R (800 # 10))
           eq_refl eq_refl eq_refl eq_refl eq_refl eq_refl).
Defined.

Section ExpansionRounding.
Variables rnd libm_cos : R -> R.

Local Abbreviation A := (Rounded.arithmetic rnd libm_cos).


End ExpansionRounding.

(** Rounding downwards to eighths is a rounding in the sense of the
    statement: it is monotone, it keeps the integers, and it never goes
    above what it rounds. *)
Module RoundingFacts.






End RoundingFacts.



(** ** Weather summary *)

Section WeatherSummary.
Context {F : Type} `{PyFloat F}.
Import HistoricalWeatherTool.
Local Open Scope py_scope.

Lemma py_index_nth {A : Type} (l : list A) (i : nat) (default : A) :
  i < List.length l -> py_index l i = Ok (nth i l default).
Proof.
  intros Hi. unfold py_index.
  rewrite (nth_error_nth' l default Hi). reflexivity.
Qed.

(** The guarded access never reaches the end of the array. *)
Lemma at_or_NA_shown (arr : list JValue) (i : nat) :
  at_or_NA arr i = Ok (shown arr i).
Proof.
  unfold at_or_NA, shown.
  destruct (Nat.ltb i (List.length arr)) eqn:Hlt.
  - apply Nat.ltb_lt in Hlt. apply py_index_nth. exact Hlt.
  - apply Nat.ltb_ge in Hlt. rewrite (nth_overflow arr NA Hlt). reflexivity.
Qed.

Lemma summary_at_expected (daily_data : Daily) (i : nat) :
  i < List.length (get "time" daily_data) ->
  summary_at daily_data i = Ok (expected_row daily_data i).
Proof.
  intros Hi. unfold summary_at.
  rewrite (py_index_nth _ _ JNull Hi); simpl.
  rewrite !at_or_NA_shown; simpl.
  reflexivity.
Qed.

Lemma summary_loop_expected (daily_data : Daily) (indices : list nat) :
  Forall (fun i => i < List.length (get "time" daily_data)) indices ->
  forall acc,
    summary_loop daily_data indices acc
    = Ok (acc ++ map (expected_row daily_data) indices).
Proof.
  induction 1 as [| i rest Hi _ IH]; intros acc; simpl.
  - rewrite app_nil_r. reflexivity.
  - rewrite (summary_at_expected _ _ Hi); simpl.
    rewrite IH, <- app_assoc. reflexivity.
Qed.

(** C8: when the archive's answer has its daily section, the summary has one
    row per entry of the time array; in each row a metric shows its array's
    entry at that index, or "N/A" when the array ends before it; no access
    goes past the end of an array, so the [IndexError] branch is not taken. *)
Theorem weather_summary_defaults
    (requests_get : Params F -> Response) (s w n e : F)
    (start_date end_date : string) (daily_data : Daily) :
  requests_get {| latitude := (s + n) / of_int 2;
                  longitude := (w + e) / of_int 2;
                  HistoricalWeatherTool.start_date := start_date;
                  HistoricalWeatherTool.end_date := end_date;
                  daily := daily_metrics;
                  timezone := "auto" |} = Json (Some daily_data) ->
  let times := get "time" daily_data in
  let rows := map (expected_row daily_data) (seq 0 (List.length times)) in
  _run requests_get [s; w; n; e] start_date end_date = WeatherSummary rows /\
  List.length rows = List.length times /\
  (forall i, i < List.length times ->
             nth_error times i = Some (date (expected_row daily_data i))) /\
  (forall (arr : list JValue) (i : nat),
      (List.length arr <= i -> shown arr i = JString "N/A") /\
      (i < List.length arr -> nth_error arr i = Some (shown arr i))).
Proof.
  intros Hget times rows.
  split; [| split; [| split]].
  - unfold _run. rewrite Hget.
    rewrite summary_loop_expected.
    + reflexivity.
    + apply Forall_forall. intros i Hi. apply in_seq in Hi. lia.
  - unfold rows. rewrite length_map, length_seq. reflexivity.
  - intros i Hi. unfold expected_row; simpl.
    apply nth_error_nth'. exact Hi.
  - intros arr i. split; intros Hi; unfold shown.
    + apply nth_overflow. exact Hi.
    + apply nth_error_nth'. exact Hi.
Qed.

End WeatherSummary.

Lemma weather_summary_defaults_witness :
  HistoricalWeatherTool._run Scenarios.ragged_archive [20; 70; 30; 80]%R
                             "2023-01-01" "2023-01-03"
  = HistoricalWeatherTool.WeatherSummary
      (map (HistoricalWeatherTool.expected_row Scenarios.ragged_daily) (seq 0 3)).
Proof.
  exact (proj1 (weather_summary_defaults (F := R) Scenarios.ragged_archive
                  20%R 70%R 30%R 80%R "2023-01-01" "2023-01-03"
                  Scenarios.ragged_daily eq_refl)).
Defined.

(** ** Input parser *)

Lemma str_ge_refl (s : string) : InputParserTool.str_ge s s = true.
Proof.
  unfold InputParserTool.str_ge, String.ltb.
  pose proof (String.compare_antisym s s) as Hanti.
  destruct (String.compare s s); simpl in Hanti; try discriminate; reflexivity.
Qed.

Lemma date_range_single (d : Calendar.Date) : Calendar.date_range d d = [d].
Proof.
  unfold Calendar.date_range.
  replace (d - d + 1)%Z with 1%Z by lia.
  simpl. f_equal. lia.
Qed.

(** C10, as amended: with at least one location and one parameter, a start
    date that is not before the end date as text -- equal dates included --
    makes the parser return its date error; the analysis itself takes the
    range as inclusive, one day when the two dates are the same. *)
Theorem parser_rejects_unordered_dates
    (locations : list string) (start_date end_date : string)
    (aq_parameters : list string) :
  locations <> [] -> aq_parameters <> [] ->
  InputParserTool.str_ge start_date end_date = true ->
  InputParserTool._run locations start_date end_date aq_parameters
  = InputParserTool.Text "Error: The start date must be before the end date." /\
  InputParserTool._run locations start_date start_date aq_parameters
  = InputParserTool.Text "Error: The start date must be before the end date." /\
  (forall d : Calendar.Date, Calendar.date_range d d = [d]) /\
  (forall (location_ids : list Z) (d : Calendar.Date),
      AirQualityAnalysisTool.retrieval_units location_ids d d
      = map (fun location_id => (location_id, d)) location_ids).
Proof.
  intros Hloc Hpar Hge.
  destruct locations as [| l ls]; [congruence |].
  destruct aq_parameters as [| p ps]; [congruence |].
  repeat split.
  - simpl. rewrite Hge. reflexivity.
  - simpl. rewrite str_ge_refl. reflexivity.
  - apply date_range_single.
  - intros location_ids d. unfold AirQualityAnalysisTool.retrieval_units.
    induction location_ids as [| i ids IH]; simpl; [reflexivity |].
    rewrite IH, date_range_single. reflexivity.
Qed.

Lemma parser_rejects_unordered_dates_witness :
  InputParserTool._run ["New Delhi, India"]%string "2023-01-01" "2023-01-01" ["pm25"]%string
  = InputParserTool.Text "Error: The start date must be before the end date.".
Proof.
  apply (parser_rejects_unordered_dates
           ["New Delhi, India"]%string "2023-01-01" "2023-01-01" ["pm25"]%string).
  - discriminate.
  - discriminate.
  - reflexivity.
Defined.

(** C10 as stated fails when no location is given: the first guard answers
    before the dates are compared. *)
Lemma parser_empty_locations_first :
  InputParserTool.str_ge "2023-01-01" "2023-01-01" = true /\
  InputParserTool._run [] "2023-01-01" "2023-01-01" ["pm25"]%string
  = InputParserTool.Text "Error: At least one location must be specified." /\
  InputParserTool._run [] "2023-01-01" "2023-01-01" ["pm25"]%string
  <> InputParserTool.Text "Error: The start date must be before the end date.".
Proof.
  repeat split. discriminate.
Qed.

(** ** Daily aggregation *)

Module AggregationFacts.
Import Calendar AirQualityAnalysisTool.

Lemma timestamp_eqb_eq (a b : Timestamp) : timestamp_eqb a b = true <-> a = b.
Proof.
  destruct a as [da sa], b as [db sb]; unfold timestamp_eqb; simpl.
  rewrite andb_true_iff, Z.eqb_eq, N.eqb_eq.
  split.
  - intros [-> ->]. reflexivity.
  - intros Heq. inversion Heq. split; reflexivity.
Qed.

Lemma key_eqb_eq (a b : Key) : key_eqb a b = true <-> a = b.
Proof.
  destruct a as [pa ta], b as [pb tb]; unfold key_eqb; simpl.
  rewrite andb_true_iff, String.eqb_eq, timestamp_eqb_eq.
  split.
  - intros [-> ->]. reflexivity.
  - intros Heq. inversion Heq. split; reflexivity.
Qed.

Lemma key_eqb_neq (a b : Key) : key_eqb a b = false <-> a <> b.
Proof.
  rewrite <- key_eqb_eq. destruct (key_eqb a b); split; congruence.
Qed.

(** *** Labels: each once, whatever the order *)

Lemma In_distinct (l : list Key) (k : Key) : In k (distinct l) <-> In k l.
Proof.
  induction l as [| h t IH]; simpl; [tauto |].
  rewrite filter_In, IH, negb_true_iff, key_eqb_neq.
  split.
  - intros [-> | [Hin _]]; auto.
  - intros [-> | Hin]; auto.
    destruct (key_eqb k h) eqn:Heq.
    + apply key_eqb_eq in Heq. auto.
    + apply key_eqb_neq in Heq. auto.
Qed.

Lemma NoDup_distinct (l : list Key) : NoDup (distinct l).
Proof.
  induction l as [| h t IH]; simpl; constructor.
  - rewrite filter_In, negb_true_iff, key_eqb_neq. tauto.
  - apply NoDup_filter. exact IH.
Qed.

Lemma distinct_NoDup (l : list Key) : NoDup l -> distinct l = l.
Proof.
  induction 1 as [| h t Hnotin _ IH]; simpl; [reflexivity |].
  rewrite IH. f_equal.
  apply forallb_filter_id.
  apply forallb_forall. intros k Hin.
  apply negb_true_iff, key_eqb_neq. intros ->. contradiction.
Qed.

Lemma insert_sorted_perm (k : Key) (l : list Key) :
  Permutation (k :: l) (insert_sorted k l).
Proof.
  induction l as [| h t IH]; simpl; [reflexivity |].
  destruct (key_leb k h); [reflexivity |].
  rewrite perm_swap. apply perm_skip. exact IH.
Qed.

Lemma sort_keys_perm (l : list Key) : Permutation l (sort_keys l).
Proof.
  induction l as [| h t IH]; simpl; [reflexivity |].
  rewrite <- insert_sorted_perm. apply perm_skip. exact IH.
Qed.

Lemma group_labels_perm (df : RawFrame) :
  Permutation (distinct (map group_key df)) (group_labels df).
Proof. apply sort_keys_perm. Qed.

Lemma In_group_labels (df : RawFrame) (k : Key) :
  In k (group_labels df) <-> exists r, In r df /\ group_key r = k.
Proof.
  rewrite <- (Permutation_in' (eq_refl k) (group_labels_perm df)).
  rewrite In_distinct, in_map_iff.
  split; intros [r [H1 H2]]; exists r; auto.
Qed.

Lemma NoDup_group_labels (df : RawFrame) : NoDup (group_labels df).
Proof.
  apply (Permutation_NoDup (group_labels_perm df)), NoDup_distinct.
Qed.

Lemma label_day_group_key (r : RawReading) : label_day (group_key r) = reading_key r.
Proof. reflexivity. Qed.

Lemma group_key_of_reading_key (r r' : RawReading) :
  reading_key r = reading_key r' -> group_key r = group_key r'.
Proof.
  unfold reading_key, group_key, floor_D. intros Heq. inversion Heq as [[Hp Hd]].
  rewrite Hp, Hd. reflexivity.
Qed.

Lemma label_day_inj (df : RawFrame) (k k' : Key) :
  In k (group_labels df) -> In k' (group_labels df) ->
  label_day k = label_day k' -> k = k'.
Proof.
  rewrite !In_group_labels. intros [r [_ <-]] [r' [_ <-]].
  rewrite !label_day_group_key. apply group_key_of_reading_key.
Qed.

(** The readings under a label are the readings of its (parameter, day). *)
Lemma group_readings_of (r0 : RawReading) (df : RawFrame) :
  group (group_key r0) df = readings_of (reading_key r0) df.
Proof.
  unfold group, readings_of. apply filter_ext. intros r.
  unfold key_eqb, timestamp_eqb, group_key, reading_key, floor_D; simpl.
  rewrite andb_true_r. reflexivity.
Qed.

(** *** [collect] *)

Lemma In_collect {A B : Type} (f : A -> option B) (l : list A) (b : B) :
  In b (collect f l) <-> exists a, In a l /\ f a = Some b.
Proof.
  induction l as [| h t IH]; simpl.
  - split; [tauto | intros [a [[] _]]].
  - destruct (f h) as [b' |] eqn:Hf; simpl; rewrite IH; split.
    + intros [<- | [a [Hin Ha]]]; [exists h | exists a]; auto.
    + intros [a [[<- | Hin] Ha]]; [left; congruence | right; exists a; auto].
    + intros [a [Hin Ha]]; exists a; auto.
    + intros [a [[<- | Hin] Ha]]; [congruence | exists a; auto].
Qed.

Lemma collect_ext_in {A B : Type} (f g : A -> option B) (l : list A) :
  (forall a, In a l -> f a = g a) -> collect f l = collect g l.
Proof.
  induction l as [| h t IH]; intros Hext; simpl; [reflexivity |].
  rewrite (Hext h (or_introl eq_refl)), IH; [reflexivity |].
  intros a Hin. apply Hext. right. exact Hin.
Qed.

Lemma collect_map {A B C : Type} (g : A -> B) (f : B -> option C) (l : list A) :
  collect f (map g l) = collect (fun a => f (g a)) l.
Proof.
  induction l as [| h t IH]; simpl; [reflexivity |].
  rewrite IH. reflexivity.
Qed.

Lemma collect_perm {A B : Type} (f : A -> option B) (l l' : list A) :
  Permutation l l' -> Permutation (collect f l) (collect f l').
Proof.
  induction 1 as [| x l l' _ IH | x y l | l l' l'' _ IH1 _ IH2]; simpl.
  - reflexivity.
  - destruct (f x); [apply perm_skip |]; exact IH.
  - destruct (f x), (f y); try reflexivity. apply perm_swap.
  - rewrite IH1. exact IH2.
Qed.

(** Keys of collected rows: distinct when the sources map to distinct keys
    and each row keeps the key of its source. *)
Lemma NoDup_collect_keys {A B K : Type} (f : A -> option B)
    (src : A -> K) (key : B -> K) (l : list A) :
  (forall a b, In a l -> f a = Some b -> key b = src a) ->
  NoDup (map src l) ->
  NoDup (map key (collect f l)).
Proof.
  induction l as [| h t IH]; intros Hkey Hnd; simpl; [constructor |].
  inversion Hnd as [| ? ? Hnotin Hnd']; subst.
  assert (IH' : NoDup (map key (collect f t))).
  { apply IH; [| exact Hnd']. intros a b Hin. apply Hkey. right. exact Hin. }
  destruct (f h) as [b |] eqn:Hf; [| exact IH'].
  simpl. constructor; [| exact IH'].
  rewrite (Hkey h b (or_introl eq_refl) Hf).
  intros Hin. apply in_map_iff in Hin. destruct Hin as [b' [Hk Hin]].
  apply In_collect in Hin. destruct Hin as [a [Hin Ha]].
  apply Hnotin. apply in_map_iff. exists a. split; [| exact Hin].
  rewrite <- Hk. symmetry. apply Hkey; [right; exact Hin | exact Ha].
Qed.

Lemma NoDup_map_inj_in {A B : Type} (f : A -> B) (l : list A) :
  (forall a a', In a l -> In a' l -> f a = f a' -> a = a') ->
  NoDup l -> NoDup (map f l).
Proof.
  induction l as [| h t IH]; intros Hinj Hnd; simpl; [constructor |].
  inversion Hnd as [| ? ? Hnotin Hnd']; subst.
  constructor.
  - intros Hin. apply in_map_iff in Hin. destruct Hin as [a [Heq Hin]].
    apply Hnotin.
    rewrite (Hinj h a (or_introl eq_refl) (or_intror Hin) (eq_sym Heq)). exact Hin.
  - apply IH; [| exact Hnd'].
    intros a a' Ha Ha'. apply Hinj; right; assumption.
Qed.

(** *** Rows of [daily_data] *)

Lemma agg_key (k : Key) (g : RawFrame) (d : DailyRow) :
  agg k g = Some d -> row_key d = label_day k.
Proof.
  unfold agg. destruct (mean (map value g)), (first (map units g)); try discriminate.
  intros [= <-]. reflexivity.
Qed.

Lemma In_daily_data (df : RawFrame) (d : DailyRow) :
  In d (daily_data df) <->
  exists r, In r df /\ agg (group_key r) (readings_of (reading_key r) df) = Some d.
Proof.
  unfold daily_data. rewrite In_collect. split.
  - intros [k [Hk Hagg]]. apply In_group_labels in Hk. destruct Hk as [r [Hr <-]].
    exists r. rewrite <- group_readings_of. auto.
  - intros [r [Hr Hagg]]. exists (group_key r). split.
    + apply In_group_labels. exists r. auto.
    + rewrite group_readings_of. exact Hagg.
Qed.

(** One row per (parameter, day). *)
Lemma NoDup_daily_data_keys (df : RawFrame) : NoDup (map row_key (daily_data df)).
Proof.
  unfold daily_data.
  apply (NoDup_collect_keys _ label_day row_key).
  - intros k d _ Hagg. apply (agg_key _ _ _ Hagg).
  - apply NoDup_map_inj_in; [| apply NoDup_group_labels].
    intros k k'. apply label_day_inj.
Qed.

(** *** The readings of a group *)

Lemma readings_of_incl (k : string * Date) (df : RawFrame) (r : RawReading) :
  In r (readings_of k df) -> In r df /\ reading_key r = k.
Proof.
  unfold readings_of. rewrite filter_In, andb_true_iff, String.eqb_eq, Z.eqb_eq.
  intros [Hin [Hp Hd]]. split; [exact Hin |].
  unfold reading_key. rewrite Hp, Hd. destruct k; reflexivity.
Qed.

(** Singleton mean. *)
Lemma mean_single (v : Qc) : Qcdiv (sum [v]) (Qc_of_nat 1) = v.
Proof.
  unfold sum, Qc_of_nat; simpl.
  change (Q2Qc (inject_Z 1)) with 1%Qc.
  change (Q2Qc 0) with 0%Qc.
  unfold Qcdiv.
  replace (/ 1)%Qc with 1%Qc by (apply Qc_is_canon; reflexivity).
  rewrite Qcmult_1_r, Qcplus_0_r. reflexivity.
Qed.

Lemma readings_of_none (k : string * Date) (df : RawFrame) :
  ~ In k (map reading_key df) -> readings_of k df = [].
Proof.
  intros Hnotin. unfold readings_of.
  induction df as [| h t IH]; simpl; [reflexivity |].
  destruct (String.eqb (parameter h) (fst k) && Z.eqb (day (datetime h)) (snd k)) eqn:Hm.
  - exfalso. apply Hnotin. left.
    apply andb_true_iff in Hm. destruct Hm as [Hp Hd].
    apply String.eqb_eq in Hp. apply Z.eqb_eq in Hd.
    unfold reading_key. rewrite Hp, Hd. destruct k; reflexivity.
  - apply IH. intros Hin. apply Hnotin. right. exact Hin.
Qed.

(** With at most one reading per (parameter, day), a reading is alone in
    its group. *)
Lemma readings_of_unique (df : RawFrame) (r : RawReading) :
  NoDup (map reading_key df) -> In r df -> readings_of (reading_key r) df = [r].
Proof.
  induction df as [| h t IH]; intros Hnd Hin; [destruct Hin |].
  simpl in Hnd. inversion Hnd as [| ? ? Hnotin Hnd']; subst.
  destruct Hin as [-> | Hin].
  - change (readings_of (reading_key r) (r :: t))
      with (if String.eqb (parameter r) (parameter r) && Z.eqb (day (datetime r)) (day (datetime r))
            then r :: readings_of (reading_key r) t
            else readings_of (reading_key r) t).
    rewrite String.eqb_refl, Z.eqb_refl; simpl.
    rewrite (readings_of_none _ _ Hnotin). reflexivity.
  - change (readings_of (reading_key r) (h :: t))
      with (if String.eqb (parameter h) (parameter r) && Z.eqb (day (datetime h)) (day (datetime r))
            then h :: readings_of (reading_key r) t
            else readings_of (reading_key r) t).
    destruct (String.eqb (parameter h) (parameter r)
              && Z.eqb (day (datetime h)) (day (datetime r))) eqn:Hm.
    + exfalso. apply Hnotin.
      apply andb_true_iff in Hm. destruct Hm as [Hp Hd].
      apply String.eqb_eq in Hp. apply Z.eqb_eq in Hd.
      apply in_map_iff. exists r. split; [| exact Hin].
      unfold reading_key. rewrite Hp, Hd. reflexivity.
    + apply IH; assumption.
Qed.

Lemma filter_keeps_distinct_keys {A K : Type} (key : A -> K) (keep : A -> bool)
    (readings : list A) :
  NoDup (map key readings) -> NoDup (map key (filter keep readings)).
Proof.
  intros Hnd. induction readings as [| h t IH]; simpl; [constructor |].
  simpl in Hnd. inversion Hnd as [| ? ? Hnotin Hnd']; subst.
  specialize (IH Hnd').
  destruct (keep h); simpl; [| exact IH].
  constructor; [| exact IH].
  intros Hin. apply Hnotin.
  apply in_map_iff in Hin. destruct Hin as [a [Heq Hin]].
  apply in_map_iff. exists a. split; [exact Heq |].
  apply filter_In in Hin. tauto.
Qed.

Lemma NoDup_select_keys (parameters : option (list string)) (df : RawFrame) :
  NoDup (map reading_key df) -> NoDup (map reading_key (select parameters df)).
Proof.
  destruct parameters as [[| p ps] |]; simpl; auto.
  apply filter_keeps_distinct_keys.
Qed.

Lemma NoDup_group_keys (df : RawFrame) :
  NoDup (map reading_key df) -> NoDup (map group_key df).
Proof.
  intros Hnd. apply (NoDup_map_inv label_day).
  rewrite map_map. exact Hnd.
Qed.

(** The row of a group of one reading is that reading's own row. *)
Lemma agg_single (r : RawReading) : agg (group_key r) [r] = as_row r.
Proof.
  unfold agg, as_row, mean, first; simpl.
  destruct (value r) as [v |]; simpl; [| reflexivity].
  destruct (units r) as [u |]; simpl; [| reflexivity].
  change (Qcdiv (v + Q2Qc 0) (Qc_of_nat 1)) with (Qcdiv (sum [v]) (Qc_of_nat 1)).
  rewrite mean_single. reflexivity.
Qed.

Lemma collect_as_row_complete (df : RawFrame) :
  Forall complete df -> map Some (collect as_row df) = map as_row df.
Proof.
  induction 1 as [| r t [Hv Hu] _ IH]; simpl; [reflexivity |].
  destruct (as_row r) as [d |] eqn:Hrow.
  - simpl. rewrite IH. reflexivity.
  - unfold as_row in Hrow. destruct (value r), (units r); congruence.
Qed.

Lemma as_row_fields (r : RawReading) (d : DailyRow) :
  as_row r = Some d ->
  parameter r = d_parameter d /\ day (datetime r) = d_date d /\
  value r = Some (d_value d) /\ units r = Some (d_units d).
Proof.
  unfold as_row. destruct (value r), (units r); try discriminate.
  intros [= <-]. simpl. auto.
Qed.


End AggregationFacts.

Section Aggregation.
Import Calendar AirQualityAnalysisTool AggregationFacts.
Variable F : Type.
Variable mixed_offsets : MixedOffsets.

(** What [aggregate_data] returns when it returns. *)
Lemma aggregate_data_returns (df : RawFrame) (parameters : option (list string))
    (frame : Frame DailyRow) (ev : list (Event F)) :
  aggregate_data F mixed_offsets df parameters = (Ok frame, ev) <->
  one_offset df = true /\
  frame = {| columns := daily_columns; rows := daily_data (select parameters df) |} /\
  ev = [PrintDF (head (select parameters df))].
Proof.
  unfold aggregate_data. destruct (one_offset df).
  - split.
    + intros [= <- <-]. auto.
    + intros [_ [-> ->]]. reflexivity.
  - split; [destruct mixed_offsets; discriminate | intros [Hone _]; discriminate].
Qed.

(** With two offsets among the texts no frame is returned. *)
Lemma aggregate_data_raises (df : RawFrame) (parameters : option (list string)) :
  one_offset df = false ->
  exists exn, fst (aggregate_data F mixed_offsets df parameters) = Raise exn.
Proof.
  intros Hone. unfold aggregate_data. rewrite Hone.
  destruct mixed_offsets; eexists; reflexivity.
Qed.



(** C7, as amended: for an input with at most one reading per (parameter,
    calendar day), datetime texts with more than one UTC offset make
    aggregation raise.  When they share one offset aggregation returns, and
    the rows returned are, up to order, the selected readings that carry a
    value and a unit, each with its own parameter, day, value and unit
    unchanged; when every selected reading carries both, they are all the
    selected readings. *)
Theorem aggregate_data_idempotent (df : RawFrame) (parameters : option (list string)) :
  NoDup (map reading_key df) ->
  (one_offset df = false ->
   exists exn, fst (aggregate_data F mixed_offsets df parameters) = Raise exn) /\
  (one_offset df = true ->
   exists (frame : Frame DailyRow) (ev : list (Event F)),
     aggregate_data F mixed_offsets df parameters = (Ok frame, ev) /\
     let out := rows frame in
     Permutation out (collect as_row (select parameters df)) /\
     (forall d, In d out ->
        exists r, In r df /\
                  parameter r = d_parameter d /\ day (datetime r) = d_date d /\
                  value r = Some (d_value d) /\ units r = Some (d_units d)) /\
     (forall r, In r (select parameters df) -> complete r ->
        exists d, In d out /\ as_row r = Some d) /\
     (Forall complete (select parameters df) ->
      Permutation (map Some out) (map as_row (select parameters df)))).
Proof.
  intros Hnd. split; [apply aggregate_data_raises |].
  intros Hone.
  exists {| columns := daily_columns; rows := daily_data (select parameters df) |},
         [PrintDF (head (select parameters df))].
  split; [apply aggregate_data_returns; auto |].
  cbv zeta. simpl rows.
  set (selected := select parameters df).
  set (out := daily_data selected).
  assert (Hsel : NoDup (map reading_key selected)) by (apply NoDup_select_keys; exact Hnd).
  assert (Hperm : Permutation out (collect as_row selected)).
  { unfold out, daily_data.
    rewrite <- (collect_perm _ _ _ (group_labels_perm selected)).
    rewrite (distinct_NoDup _ (NoDup_group_keys _ Hsel)).
    rewrite collect_map.
    rewrite (collect_ext_in _ as_row); [reflexivity |].
    intros r Hr. rewrite group_readings_of, (readings_of_unique _ _ Hsel Hr).
    apply agg_single. }
  split; [exact Hperm | split; [| split]].
  - intros d Hd.
    apply (Permutation_in _ Hperm) in Hd.
    apply In_collect in Hd. destruct Hd as [r [Hr Hrow]].
    exists r. split; [| apply as_row_fields; exact Hrow].
    unfold selected in Hr. destruct parameters as [[| p ps] |]; simpl in Hr; auto.
    apply filter_In in Hr. tauto.
  - intros r Hr [Hv Hu].
    destruct (as_row r) as [d |] eqn:Hrow.
    + exists d. split; [| reflexivity].
      apply (Permutation_in _ (Permutation_sym Hperm)).
      apply In_collect. exists r. auto.
    + unfold as_row in Hrow. destruct (value r), (units r); congruence.
  - intros Hc. rewrite <- (collect_as_row_complete _ Hc).
    apply Permutation_map. exact Hperm.
Qed.

End Aggregation.



Lemma aggregate_data_idempotent_witness :
  exists frame ev,
    AirQualityAnalysisTool.aggregate_data R AirQualityAnalysisTool.MixedRaises
      Scenarios.one_reading_per_day None = (Ok frame, ev) /\
    Permutation (AirQualityAnalysisTool.rows frame)
                (AirQualityAnalysisTool.collect AirQualityAnalysisTool.as_row
                   Scenarios.one_reading_per_day).
Proof.
  assert (Hone : NoDup (map AirQualityAnalysisTool.reading_key Scenarios.one_reading_per_day))
    by (repeat constructor; simpl; intuition discriminate).
  destruct (proj2 (aggregate_data_idempotent R AirQualityAnalysisTool.MixedRaises
                     Scenarios.one_reading_per_day None Hone) eq_refl)
    as [frame [ev [Hret [Hperm _]]]].
  exists frame, ev. split; [exact Hret | exact Hperm].
Defined.

(** C7 as stated fails on two UTC offsets: with one reading a day, but the
    second written with another offset, aggregation raises under either
    pandas and returns no row. *)
Lemma aggregate_two_offsets_raises :
  NoDup (map AirQualityAnalysisTool.reading_key Samples.two_offsets) /\
  AirQualityAnalysisTool.aggregate_data R AirQualityAnalysisTool.MixedRaises
    Samples.two_offsets None
  = (Raise ValueError, []) /\
  AirQualityAnalysisTool.aggregate_data R AirQualityAnalysisTool.MixedObjects
    Samples.two_offsets None
  = (Raise UnboundLocalError,
     [AirQualityAnalysisTool.PrintDF Samples.two_offsets;
      AirQualityAnalysisTool.PrintAggregationFailed]).
Proof.
  split; [| split; reflexivity].
  repeat constructor; simpl; intuition discriminate.
Qed.

(** ** Retrieval from the archive *)

Module FetchFacts.
Import Calendar AirQualityAnalysisTool AggregationFacts.

Section Fetch.
Variable F : Type.
Variable list_objects_v2 : string -> Listing.
Variable read_csv_gz : string -> option RawFrame.

Local Abbreviation State := (FetchState F).
Local Abbreviation init := (fetch_init F).
Local Abbreviation fetch_day := (fetch_day F list_objects_v2 read_csv_gz).
Local Abbreviation download := (download F read_csv_gz).

Lemma merge_init (st : State) : merge st init = st.
Proof.
  destruct st; unfold merge; simpl. rewrite !app_nil_r. reflexivity.
Qed.

Lemma merge_assoc (a b c : State) : merge (merge a b) c = merge a (merge b c).
Proof.
  unfold merge; simpl. rewrite !app_assoc. reflexivity.
Qed.

Lemma print_merge (e : Event F) (st : State) : print e st = merge st (print e init).
Proof.
  unfold print, merge; simpl. rewrite !app_nil_r. reflexivity.
Qed.

Lemma append_failed_merge (i : Z) (st : State) :
  append_failed i st = merge st (append_failed i init).
Proof.
  unfold append_failed, merge; simpl. rewrite !app_nil_r. reflexivity.
Qed.

Lemma fetch_except_merge (i : Z) (st : State) :
  fetch_except i st = merge st (fetch_except i init).
Proof.
  unfold fetch_except.
  rewrite (append_failed_merge i (print _ st)), (print_merge _ st), merge_assoc.
  rewrite <- append_failed_merge. reflexivity.
Qed.

(** The loop over the listing adds to the state it starts from what it adds
    to the empty one. *)
Lemma download_merge (suffix : string) (contents : list string) (st : State) :
  download suffix contents st
  = (merge st (fst (download suffix contents init)), snd (download suffix contents init)).
Proof.
  revert st. induction contents as [| key rest IH]; intros st; simpl.
  - rewrite merge_init. reflexivity.
  - destruct (endswith key suffix); [| apply IH].
    destruct (read_csv_gz key) as [daily_df |]; simpl.
    + rewrite (IH (concat_daily daily_df (print (PrintDownloading key) st))).
      rewrite (IH (concat_daily daily_df (print (PrintDownloading key) init))).
      simpl. rewrite <- merge_assoc. do 2 f_equal.
      unfold concat_daily, print, merge; simpl. rewrite !app_nil_r. reflexivity.
    + rewrite <- print_merge. reflexivity.
Qed.

(** A site/day adds to the state what it adds to the empty one: what came
    before, failures included, does not change it. *)
Lemma fetch_day_merge (location_id : Z) (date : Date) (st : State) :
  fetch_day location_id date st = merge st (fetch_day location_id date init).
Proof.
  unfold AirQualityAnalysisTool.fetch_day.
  destruct (list_objects_v2 _) as [| [contents |]].
  - apply fetch_except_merge.
  - rewrite (download_merge _ contents st).
    destruct (download _ contents init) as [d raised]; simpl.
    destruct raised; [| reflexivity].
    rewrite fetch_except_merge, merge_assoc, <- fetch_except_merge. reflexivity.
  - apply append_failed_merge.
Qed.

Lemma fetch_fold (units : list (Z * Date)) (st : State) :
  let final := fold_left (fun st u => fetch_day (fst u) (snd u) st) units st in
  consolidated_df final
  = consolidated_df st
      ++ flat_map (fun u => consolidated_df (fetch_day (fst u) (snd u) init)) units /\
  failed_locations final
  = failed_locations st
      ++ flat_map (fun u => failed_locations (fetch_day (fst u) (snd u) init)) units /\
  printed final
  = printed st
      ++ flat_map (fun u => printed (fetch_day (fst u) (snd u) init)) units.
Proof.
  revert st. induction units as [| u rest IH]; intros st; simpl.
  - rewrite !app_nil_r. auto.
  - destruct (IH (fetch_day (fst u) (snd u) st)) as [Hc [Hf Hp]].
    rewrite Hc, Hf, Hp, fetch_day_merge; simpl.
    rewrite !app_assoc. auto.
Qed.

(** [fetch_sensor_data] prints, and sends nothing to the registry. *)
Lemma requests_app (a b : list (Event F)) : requests (a ++ b) = requests a ++ requests b.
Proof.
  unfold requests. induction a as [| e t IH]; simpl; [reflexivity |].
  destruct e; simpl; rewrite IH; reflexivity.
Qed.

Lemma requests_download (suffix : string) (contents : list string) (st : State) :
  requests (printed (fst (download suffix contents st))) = requests (printed st).
Proof.
  revert st. induction contents as [| key rest IH]; intros st; simpl; [reflexivity |].
  destruct (endswith key suffix); [| apply IH].
  destruct (read_csv_gz key) as [daily_df |]; simpl.
  - rewrite IH; simpl. rewrite requests_app; simpl. apply app_nil_r.
  - rewrite requests_app; simpl. apply app_nil_r.
Qed.

Lemma requests_fetch_day (location_id : Z) (date : Date) (st : State) :
  requests (printed (fetch_day location_id date st)) = requests (printed st).
Proof.
  unfold AirQualityAnalysisTool.fetch_day.
  destruct (list_objects_v2 _) as [| [contents |]]; simpl.
  - rewrite requests_app; simpl. apply app_nil_r.
  - pose proof (requests_download
                  (strftime_Y date ++ strftime_m date ++ strftime_d date ++ ".csv.gz")
                  contents st) as Hd.
    destruct (download _ contents st) as [d raised]; simpl in *.
    destruct raised; simpl; [| exact Hd].
    rewrite requests_app; simpl. rewrite app_nil_r. exact Hd.
  - reflexivity.
Qed.

Lemma requests_fetch_printed (location_ids : list Z) (start_date end_date : Date) :
  requests (fetch_printed F list_objects_v2 read_csv_gz location_ids start_date end_date) = [].
Proof.
  unfold fetch_printed, fetch_final, fetch_loops.
  set (units := retrieval_units location_ids start_date end_date).
  assert (Hloops : forall st,
             requests (printed (fold_left (fun st u => fetch_day (fst u) (snd u) st) units st))
             = requests (printed st)).
  { induction units as [| u rest IH]; intros st; simpl; [reflexivity |].
    rewrite IH. apply requests_fetch_day. }
  set (st := fold_left _ units init).
  assert (Hst : requests (printed st) = []) by (unfold st; rewrite Hloops; reflexivity).
  destruct (failed_locations (print (PrintSample (head (consolidated_df st))) st)); simpl;
    rewrite ?requests_app, Hst; reflexivity.
Qed.

(** The lines after the loops leave the frame and the failures as they are. *)
Lemma fetch_final_loops (location_ids : list Z) (start_date end_date : Date) :
  let loops := fetch_loops F list_objects_v2 read_csv_gz location_ids start_date end_date in
  let final := fetch_final F list_objects_v2 read_csv_gz location_ids start_date end_date in
  consolidated_df final = consolidated_df loops /\
  failed_locations final = failed_locations loops /\
  printed final
  = printed loops ++ [PrintSample (head (consolidated_df loops))]
      ++ match failed_locations loops with
         | [] => []
         | i :: rest => [PrintFailed (i :: rest)]
         end.
Proof.
  intros loops final. unfold final, fetch_final. fold loops.
  change (failed_locations (print (PrintSample (head (consolidated_df loops))) loops))
    with (failed_locations loops).
  destruct (failed_locations loops) as [| i rest] eqn:Hfail; simpl.
  - rewrite Hfail. auto.
  - rewrite Hfail, <- app_assoc. auto.
Qed.

End Fetch.

End FetchFacts.

(** C5, as amended: whatever the archive answers, the retrieval goes through
    every site/day; the frame it returns is the concatenation of what each
    site/day yields on its own, and the failed identifiers are those each
    site/day records on its own, so a failure changes nothing for the other
    units.  The failed identifiers are printed when there are any; the value
    returned is the frame alone. *)
Theorem fetch_sensor_data_isolates_failures
    (F : Type) (list_objects_v2 : string -> AirQualityAnalysisTool.Listing)
    (read_csv_gz : string -> option AirQualityAnalysisTool.RawFrame)
    (location_ids : list Z) (start_date end_date : Calendar.Date) :
  let alone := fun u : Z * Calendar.Date =>
    AirQualityAnalysisTool.fetch_day F list_objects_v2 read_csv_gz (fst u) (snd u)
      (AirQualityAnalysisTool.fetch_init F) in
  let units := AirQualityAnalysisTool.retrieval_units location_ids start_date end_date in
  let final :=
    AirQualityAnalysisTool.fetch_final F list_objects_v2 read_csv_gz
      location_ids start_date end_date in
  let failed := AirQualityAnalysisTool.failed_locations final in
  AirQualityAnalysisTool.fetch_sensor_data F list_objects_v2 read_csv_gz
    location_ids start_date end_date
  = flat_map (fun u => AirQualityAnalysisTool.consolidated_df (alone u)) units /\
  failed = flat_map (fun u => AirQualityAnalysisTool.failed_locations (alone u)) units /\
  (failed <> [] ->
   exists before,
     AirQualityAnalysisTool.fetch_printed F list_objects_v2 read_csv_gz
       location_ids start_date end_date
     = before ++ [AirQualityAnalysisTool.PrintFailed failed]).
Proof.
  cbv zeta.
  destruct (FetchFacts.fetch_fold F list_objects_v2 read_csv_gz
              (AirQualityAnalysisTool.retrieval_units location_ids start_date end_date)
              (AirQualityAnalysisTool.fetch_init F)) as [Hc [Hf _]].
  destruct (FetchFacts.fetch_final_loops F list_objects_v2 read_csv_gz
              location_ids start_date end_date) as [Hfc [Hff Hfp]].
  split; [| split].
  - unfold AirQualityAnalysisTool.fetch_sensor_data. rewrite Hfc. exact Hc.
  - rewrite Hff. exact Hf.
  - unfold AirQualityAnalysisTool.fetch_printed.
    rewrite Hfp, Hff.
    destruct (AirQualityAnalysisTool.failed_locations _) as [| i rest].
    + congruence.
    + intros _. eexists. rewrite app_assoc. reflexivity.
Qed.

(** C5 as stated fails on what reaches the caller: two archives that differ
    only in whether site 2 fails give the same returned frame, with the
    failed identifiers [2] in one run and none in the other. *)
Lemma fetch_failures_not_returned :
  AirQualityAnalysisTool.fetch_sensor_data Q Scenarios.failing_archive
    Scenarios.archive_files [1; 2]%Z Scenarios.new_year Scenarios.new_year
  = AirQualityAnalysisTool.fetch_sensor_data Q Scenarios.silent_archive
      Scenarios.archive_files [1; 2]%Z Scenarios.new_year Scenarios.new_year /\
  AirQualityAnalysisTool.failed_locations
    (AirQualityAnalysisTool.fetch_final Q Scenarios.failing_archive
       Scenarios.archive_files [1; 2]%Z Scenarios.new_year Scenarios.new_year) = [2%Z] /\
  AirQualityAnalysisTool.failed_locations
    (AirQualityAnalysisTool.fetch_final Q Scenarios.silent_archive
       Scenarios.archive_files [1; 2]%Z Scenarios.new_year Scenarios.new_year) = [].
Proof.
  repeat split; vm_compute; reflexivity.
Qed.

(** ** The main workflow *)

Module RunFacts.
Import Calendar AirQualityAnalysisTool AggregationFacts.

Section Run.
Variable F : Type.
Variable repr : F -> string.
Variable openaq_locations : string -> Exc (list Site).
Variable list_objects_v2 : string -> Listing.
Variable read_csv_gz : string -> option RawFrame.
Variable mixed_offsets : MixedOffsets.
Variables start_date_dt end_date_dt : Date.
Variable aq_parameters : option (list string).

Local Abbreviation process :=
  (process F repr openaq_locations list_objects_v2 read_csv_gz mixed_offsets).
Local Abbreviation step :=
  (step F repr openaq_locations list_objects_v2 read_csv_gz mixed_offsets
        start_date_dt end_date_dt aq_parameters).
Local Abbreviation frame_of :=
  (contributed_frame F repr openaq_locations list_objects_v2 read_csv_gz mixed_offsets
                     start_date_dt end_date_dt aq_parameters).
Local Abbreviation events_of :=
  (contributed_events F repr openaq_locations list_objects_v2 read_csv_gz mixed_offsets
                      start_date_dt end_date_dt aq_parameters).
Local Abbreviation main_workflow :=
  (main_workflow F repr openaq_locations list_objects_v2 read_csv_gz mixed_offsets).

Lemma step_contributed (st : RunState F) (pair : list F * string) :
  step st pair
  = {| all_data := all_data st ++ match frame_of pair with
                                  | Some f => [f]
                                  | None => []
                                  end;
       trace := trace st ++ events_of pair |}.
Proof.
  destruct pair as [bbox location].
  unfold AirQualityAnalysisTool.step, contributed_frame, contributed_events; simpl.
  destruct (process bbox location start_date_dt end_date_dt aq_parameters)
    as [[[f |] | e] ev]; simpl; rewrite ?app_nil_r; reflexivity.
Qed.

Lemma fold_step (pairs : list (list F * string)) (st : RunState F) :
  all_data (fold_left step pairs st) = all_data st ++ collect frame_of pairs /\
  trace (fold_left step pairs st) = trace st ++ flat_map events_of pairs.
Proof.
  revert st. induction pairs as [| pair rest IH]; intros st; simpl.
  - rewrite !app_nil_r. auto.
  - destruct (IH (step st pair)) as [Hd Ht].
    rewrite Hd, Ht, step_contributed; simpl.
    rewrite <- !app_assoc.
    destruct (frame_of pair); auto.
Qed.

Lemma main_workflow_contributed (bounding_boxes : list (list F)) (locations : list string) :
  let st := main_workflow bounding_boxes locations start_date_dt end_date_dt aq_parameters in
  all_data st = collect frame_of (combine bounding_boxes locations) /\
  trace st = flat_map events_of (combine bounding_boxes locations).
Proof.
  apply (fold_step (combine bounding_boxes locations) {| all_data := []; trace := [] |}).
Qed.

(** *** Requests *)

Lemma requests_events_of (pair : list F * string) :
  requests (events_of pair)
  = match openaq_order (fst pair) with
    | Some q => [query_text repr q]
    | None => []
    end.
Proof.
  destruct pair as [bbox location].
  unfold contributed_events; simpl.
  destruct bbox as [| s [| w [| n [| e more]]]]; try reflexivity.
  unfold AirQualityAnalysisTool.process; simpl.
  unfold get_location_ids; simpl.
  destruct (openaq_locations _) as [location_data | exn]; simpl; [| reflexivity].
  destruct (fetch_sensor_data F list_objects_v2 read_csv_gz _ _ _) as [| r df]; simpl.
  2: unfold aggregate_data;
     destruct (one_offset (r :: df)); [| destruct mixed_offsets]; simpl.
  all: change (requests (Request ?p :: PrintFound ?k ?b ?l :: ?rest))
         with (p :: requests rest).
  all: rewrite ?FetchFacts.requests_app, FetchFacts.requests_fetch_printed; reflexivity.
Qed.

Lemma requests_flat_map (pairs : list (list F * string)) :
  requests (flat_map events_of pairs)
  = collect (fun pair => option_map (query_text repr) (openaq_order (fst pair))) pairs.
Proof.
  induction pairs as [| pair rest IH]; simpl; [reflexivity |].
  rewrite FetchFacts.requests_app, requests_events_of, IH.
  destruct (openaq_order (fst pair)); reflexivity.
Qed.

(** *** Frames *)

(** A frame that reaches [all_data] is an aggregate with its location set. *)
Lemma frame_of_aggregate (pair : list F * string) (f : Frame Row) :
  frame_of pair = Some f ->
  exists df,
    one_offset df = true /\
    f = set_location (snd pair)
          {| columns := daily_columns; rows := daily_data (select aq_parameters df) |}.
Proof.
  destruct pair as [bbox location].
  unfold contributed_frame; simpl.
  destruct bbox as [| s [| w [| n [| e more]]]]; try discriminate.
  unfold AirQualityAnalysisTool.process; simpl.
  unfold get_location_ids; simpl.
  destruct (openaq_locations _) as [location_data | exn]; simpl; [| discriminate].
  destruct (fetch_sensor_data F list_objects_v2 read_csv_gz _ _ _) as [| r df] eqn:Hdf;
    simpl; [discriminate |].
  unfold aggregate_data.
  destruct (one_offset (r :: df)) eqn:Hone; [| destruct mixed_offsets; discriminate].
  simpl. intros [= <-]. exists (r :: df). auto.
Qed.

Lemma frame_of_columns (pair : list F * string) (f : Frame Row) :
  frame_of pair = Some f -> columns f = located_columns.
Proof.
  intros Hf. destruct (frame_of_aggregate _ _ Hf) as [df [_ ->]]. reflexivity.
Qed.

Lemma frame_of_location (pair : list F * string) (f : Frame Row) (r : Row) :
  frame_of pair = Some f -> In r (rows f) -> r_location r = snd pair.
Proof.
  intros Hf Hin. destruct (frame_of_aggregate _ _ Hf) as [df [_ ->]].
  simpl in Hin. apply in_map_iff in Hin. destruct Hin as [d [<- _]]. reflexivity.
Qed.

Lemma frame_of_unique (pair : list F * string) (f : Frame Row) :
  frame_of pair = Some f -> NoDup (map triple (rows f)).
Proof.
  intros Hf. destruct (frame_of_aggregate _ _ Hf) as [df [_ ->]]. simpl.
  rewrite map_map.
  change (fun d => triple _)
    with (fun d => (fun k : string * Date => (snd pair, snd k, fst k)) (row_key d)).
  rewrite <- (map_map row_key (fun k : string * Date => (snd pair, snd k, fst k))).
  apply NoDup_map_inj_in; [| apply NoDup_daily_data_keys].
  intros [p d] [p' d'] _ _ [= -> ->]. reflexivity.
Qed.

Lemma rows_locations (pairs : list (list F * string)) (r : Row) :
  In r (flat_map rows (collect frame_of pairs)) -> In (r_location r) (map snd pairs).
Proof.
  induction pairs as [| pair rest IH]; simpl; [tauto |].
  destruct (frame_of pair) as [f |] eqn:Hf; simpl.
  - rewrite in_app_iff. intros [Hin | Hin].
    + left. symmetry. apply (frame_of_location _ _ _ Hf Hin).
    + right. apply IH. exact Hin.
  - intros Hin. right. apply IH. exact Hin.
Qed.

(** Distinct location names give distinct (location, date, parameter). *)
Lemma rows_unique (pairs : list (list F * string)) :
  NoDup (map snd pairs) ->
  NoDup (map triple (flat_map rows (collect frame_of pairs))).
Proof.
  induction pairs as [| pair rest IH]; simpl; intros Hnd; [constructor |].
  inversion Hnd as [| ? ? Hnotin Hnd']; subst.
  destruct (frame_of pair) as [f |] eqn:Hf; simpl; [| apply IH; exact Hnd'].
  rewrite map_app. apply NoDup_app.
  - apply (frame_of_unique _ _ Hf).
  - apply IH. exact Hnd'.
  - intros t Hin Hin'.
    apply in_map_iff in Hin. destruct Hin as [r [<- Hr]].
    apply in_map_iff in Hin'. destruct Hin' as [r' [Heq Hr']].
    apply Hnotin.
    rewrite <- (frame_of_location _ _ _ Hf Hr).
    replace (r_location r) with (r_location r') by (unfold triple in Heq; congruence).
    apply rows_locations. exact Hr'.
Qed.

(** *** Labels of the result *)

Lemma union_columns_same (c : list string) : union_columns c c = c.
Proof.
  unfold union_columns.
  replace (filter (fun x => negb (existsb (String.eqb x) c)) c) with (@nil string).
  - apply app_nil_r.
  - symmetry. assert (Hall : forall l, incl l c ->
        filter (fun x => negb (existsb (String.eqb x) c)) l = []).
    { induction l as [| x l IHl]; intros Hincl; simpl; [reflexivity |].
      assert (Hx : existsb (String.eqb x) c = true).
      { apply existsb_exists. exists x. split; [apply Hincl; left; reflexivity |].
        apply String.eqb_refl. }
      rewrite Hx; simpl. apply IHl. intros y Hy. apply Hincl. right. exact Hy. }
    apply Hall. apply incl_refl.
Qed.

Lemma concat_columns_same (c : list string) (frames : list (Frame Row)) :
  Forall (fun f => columns f = c) frames ->
  forall acc, acc = [] \/ acc = c ->
  frames <> [] ->
  fold_left union_columns (map (@columns Row) frames) acc = c.
Proof.
  induction 1 as [| f rest Hf _ IH]; intros acc Hacc Hne; [congruence |].
  simpl. rewrite Hf.
  assert (Hstep : union_columns acc c = c).
  { destruct Hacc as [-> | ->]; [| apply union_columns_same].
    unfold union_columns; simpl.
    apply forallb_filter_id. apply forallb_forall. reflexivity. }
  rewrite Hstep.
  destruct rest as [| f' rest']; [reflexivity |].
  apply IH; [right; reflexivity | discriminate].
Qed.

Lemma collect_frame_columns (pairs : list (list F * string)) :
  Forall (fun f => columns f = located_columns) (collect frame_of pairs).
Proof.
  apply Forall_forall. intros f Hin.
  apply In_collect in Hin. destruct Hin as [pair [_ Hf]].
  apply (frame_of_columns _ _ Hf).
Qed.

End Run.

(** What [_run] returns, in terms of the pairs. *)
Lemma run_result (F : Type) (repr : F -> string)
    (openaq_locations : string -> Exc (list Site))
    (list_objects_v2 : string -> Listing) (read_csv_gz : string -> option RawFrame)
    (mixed_offsets : MixedOffsets)
    (bounding_boxes : list (list F)) (locations : list string)
    (start_date end_date : string) (aq_parameters : option (list string))
    (frame : Frame Row) (tr : list (Event F)) :
  _run F repr openaq_locations list_objects_v2 read_csv_gz mixed_offsets
       bounding_boxes locations start_date end_date aq_parameters = Ok (frame, tr) ->
  exists start_date_dt end_date_dt,
    strptime start_date = Some start_date_dt /\
    strptime end_date = Some end_date_dt /\
    let frames :=
      collect (contributed_frame F repr openaq_locations list_objects_v2 read_csv_gz mixed_offsets
                 start_date_dt end_date_dt aq_parameters)
              (combine bounding_boxes locations) in
    rows frame = flat_map rows frames /\
    columns frame = match frames with
                    | [] => ["date"; "parameter"; "unit"; "value"; "location"]%string
                    | _ :: _ => located_columns
                    end /\
    tr = flat_map (contributed_events F repr openaq_locations list_objects_v2 read_csv_gz
        mixed_offsets
                     start_date_dt end_date_dt aq_parameters)
                  (combine bounding_boxes locations).
Proof.
  unfold _run.
  destruct (strptime start_date) as [sd |]; [| discriminate].
  destruct (strptime end_date) as [ed |]; [| discriminate].
  destruct (main_workflow_contributed F repr openaq_locations list_objects_v2 read_csv_gz
      mixed_offsets
              sd ed aq_parameters bounding_boxes locations) as [Hd Ht].
  rewrite Hd, Ht.
  pose proof (collect_frame_columns F repr openaq_locations list_objects_v2 read_csv_gz
      mixed_offsets
                sd ed aq_parameters (combine bounding_boxes locations)) as Hcols.
  intros Hrun. exists sd, ed. split; [reflexivity | split; [reflexivity |]].
  cbv zeta.
  destruct (collect _ (combine bounding_boxes locations)) as [| f frames] eqn:Hframes.
  - injection Hrun as <- <-. auto.
  - injection Hrun as <- <-. split; [reflexivity | split; [| reflexivity]].
    unfold concat; simpl columns.
    apply (concat_columns_same located_columns (f :: frames) Hcols);
      [left; reflexivity | discriminate].
Qed.

End RunFacts.

Section MainWorkflow.
Import Calendar AirQualityAnalysisTool.
Variable F : Type.
Variable repr : F -> string.
Variable openaq_locations : string -> Exc (list Site).
Variable list_objects_v2 : string -> Listing.
Variable read_csv_gz : string -> option RawFrame.
Variable mixed_offsets : MixedOffsets.

(** C6, as amended: when the location names paired with the boxes are
    pairwise distinct, the rows of the result have pairwise distinct
    (location, date, parameter). *)
Theorem run_rows_unique
    (bounding_boxes : list (list F)) (locations : list string)
    (start_date end_date : string) (aq_parameters : option (list string))
    (frame : Frame Row) (tr : list (Event F)) :
  NoDup (map snd (combine bounding_boxes locations)) ->
  _run F repr openaq_locations list_objects_v2 read_csv_gz mixed_offsets
       bounding_boxes locations start_date end_date aq_parameters = Ok (frame, tr) ->
  NoDup (map triple (rows frame)).
Proof.
  intros Hnames Hrun.
  destruct (RunFacts.run_result _ _ _ _ _ _ _ _ _ _ _ _ _ Hrun)
    as [sd [ed [_ [_ [Hrows _]]]]].
  rewrite Hrows. apply RunFacts.rows_unique. exact Hnames.
Qed.

End MainWorkflow.

Lemma run_rows_unique_witness :
  exists frame tr,
    AirQualityAnalysisTool._run Q Scenarios.repr_Q Scenarios.registry
      Scenarios.failing_archive Scenarios.archive_files AirQualityAnalysisTool.MixedRaises
      [Scenarios.india_box; Scenarios.india_box] ["Delhi"; "Agra"]%string
      "2023-01-01" "2023-01-01" None
    = Ok (frame, tr) /\
    NoDup (map AirQualityAnalysisTool.triple (AirQualityAnalysisTool.rows frame)).
Proof.
  destruct (AirQualityAnalysisTool._run Q Scenarios.repr_Q Scenarios.registry
              Scenarios.failing_archive Scenarios.archive_files AirQualityAnalysisTool.MixedRaises
              [Scenarios.india_box; Scenarios.india_box] ["Delhi"; "Agra"]%string
              "2023-01-01" "2023-01-01" None)
    as [[frame tr] | exn] eqn:Hrun.
  - exists frame, tr. split; [reflexivity |].
    apply (run_rows_unique Q Scenarios.repr_Q Scenarios.registry
             Scenarios.failing_archive Scenarios.archive_files AirQualityAnalysisTool.MixedRaises
             [Scenarios.india_box; Scenarios.india_box] ["Delhi"; "Agra"]%string
             "2023-01-01" "2023-01-01" None frame tr); [| exact Hrun].
    simpl. repeat constructor; simpl; intuition discriminate.
  - vm_compute in Hrun. discriminate.
Defined.

(** C6 as stated fails when a location name is requested twice: the two
    passes give the same rows under the same name. *)
Lemma run_rows_repeated_location :
  exists frame tr,
    AirQualityAnalysisTool._run Q Scenarios.repr_Q Scenarios.registry
      Scenarios.failing_archive Scenarios.archive_files AirQualityAnalysisTool.MixedRaises
      [Scenarios.india_box; Scenarios.india_box] ["Delhi"; "Delhi"]%string
      "2023-01-01" "2023-01-01" None
    = Ok (frame, tr) /\
    map AirQualityAnalysisTool.triple (AirQualityAnalysisTool.rows frame)
    = [ ("Delhi"%string, Scenarios.new_year, "pm25"%string);
        ("Delhi"%string, Scenarios.new_year, "pm25"%string) ] /\
    ~ NoDup (map AirQualityAnalysisTool.triple (AirQualityAnalysisTool.rows frame)).
Proof.
  destruct (AirQualityAnalysisTool._run Q Scenarios.repr_Q Scenarios.registry
              Scenarios.failing_archive Scenarios.archive_files AirQualityAnalysisTool.MixedRaises
              [Scenarios.india_box; Scenarios.india_box] ["Delhi"; "Delhi"]%string
              "2023-01-01" "2023-01-01" None)
    as [[frame tr] | exn] eqn:Hrun; vm_compute in Hrun; [| discriminate].
  injection Hrun as <- <-.
  eexists. eexists. split; [reflexivity |].
  split; [reflexivity |].
  intros Hnd. inversion Hnd as [| t l Hnotin _]; subst.
  apply Hnotin. left. reflexivity.
Qed.

(** ** The workflow of the CAI Studio tool *)

Module CaiFacts.
Import Calendar AirQualityAnalysisTool.

Section Tool.
Variable F : Type.
Variable repr : F -> string.
Variable openaq_locations : string -> Exc (list Site).
Variable list_objects_v2 : string -> Listing.
Variable read_csv_gz : string -> option RawFrame.
Variable to_datetime : string -> option Date.
Variable mixed_offsets : MixedOffsets.

Local Abbreviation fetch_day := (CaiStudio.fetch_day F list_objects_v2 read_csv_gz).
Local Abbreviation main_loop :=
  (CaiStudio.main_loop F repr openaq_locations list_objects_v2 read_csv_gz
      to_datetime mixed_offsets).
Local Abbreviation sent :=
  (fun pair : list F * string => option_map (query_text repr) (openaq_order (fst pair))).

Lemma requests_cai_fetch_day (location_id : Z) (date : Date) (st : RawFrame * list (Event F)) :
  requests (snd (fetch_day location_id date st)) = requests (snd st).
Proof.
  destruct st as [df out]. unfold CaiStudio.fetch_day.
  destruct (list_objects_v2 _) as [| [contents |]]; simpl.
  - rewrite FetchFacts.requests_app. apply app_nil_r.
  - destruct (CaiStudio.download read_csv_gz _ contents df) as [df' raised].
    destruct raised; simpl; [| reflexivity].
    rewrite FetchFacts.requests_app. apply app_nil_r.
  - reflexivity.
Qed.

Lemma requests_cai_fetch_sensor_data (location_ids : list Z) (start_date end_date : string)
    (df : RawFrame) (ev : list (Event F)) :
  CaiStudio.fetch_sensor_data F list_objects_v2 read_csv_gz to_datetime
    location_ids start_date end_date = Ok (df, ev) ->
  requests ev = [].
Proof.
  unfold CaiStudio.fetch_sensor_data.
  destruct location_ids as [| i ids]; [intros [= <- <-]; reflexivity |].
  destruct (to_datetime start_date) as [sd |]; [| discriminate].
  destruct (to_datetime end_date) as [ed |]; [| discriminate].
  intros [= Hfold].
  assert (Hloops : forall todo st,
             requests (snd (fold_left (fun st u => fetch_day (fst u) (snd u) st) todo st))
             = requests (snd st)).
  { induction todo as [| u rest IH]; intros st; simpl; [reflexivity |].
    rewrite IH. apply requests_cai_fetch_day. }
  change ev with (snd (df, ev)). rewrite <- Hfold.
  apply (Hloops _ ([], [])).
Qed.

(** The requests of a run: those of every pair when the loop ends; when an
    exception ends it at a pair, those of the pairs up to that one, that one
    included. *)
Lemma requests_main_loop (start_date end_date : string)
    (aq_parameters : option (list string)) (pairs : list (list F * string)) :
  forall (all_data : list (Frame Row)) (tr : list (Event F)),
    let out := main_loop pairs start_date end_date aq_parameters all_data tr in
    match fst out with
    | Ok _ => requests (snd out) = requests tr ++ collect sent pairs
    | Raise _ =>
        exists before bad after,
          pairs = before ++ bad :: after /\
          requests (snd out) = requests tr ++ collect sent (before ++ [bad])
    end.
Proof.
  induction pairs as [| [bbox location] rest IH]; intros all_data tr; cbv zeta.
  - simpl. rewrite app_nil_r. reflexivity.
  - assert (Hstop : forall (q : list string) (ev : list (Event F)),
               collect sent [(bbox, location)] = q -> requests ev = q ->
               exists before bad after,
                 (bbox, location) :: rest = before ++ bad :: after /\
                 requests (tr ++ ev) = requests tr ++ collect sent (before ++ [bad])).
    { intros q ev Hq Hev. exists [], (bbox, location), rest.
      split; [reflexivity |].
      rewrite FetchFacts.requests_app, Hev, <- Hq. reflexivity. }
    assert (Hgo : forall (q : list string) (ev : list (Event F)) (frames : list (Frame Row)),
               collect sent [(bbox, location)] = q -> requests ev = q ->
               match fst (main_loop rest start_date end_date aq_parameters frames (tr ++ ev)) with
               | Ok _ =>
                   requests (snd (main_loop rest start_date end_date aq_parameters frames
                                            (tr ++ ev)))
                   = requests tr ++ collect sent ((bbox, location) :: rest)
               | Raise _ =>
                   exists before bad after,
                     (bbox, location) :: rest = before ++ bad :: after /\
                     requests (snd (main_loop rest start_date end_date aq_parameters frames
                                              (tr ++ ev)))
                     = requests tr ++ collect sent (before ++ [bad])
               end).
    { intros q ev frames Hq Hev.
      assert (Hcons : forall l, collect sent ((bbox, location) :: l) = q ++ collect sent l).
      { intros l. rewrite <- Hq. simpl.
        destruct (option_map (query_text repr) (openaq_order bbox)); reflexivity. }
      specialize (IH frames (tr ++ ev)). cbv zeta in IH.
      destruct (fst (main_loop rest start_date end_date aq_parameters frames (tr ++ ev))).
      - rewrite IH, FetchFacts.requests_app, Hev, Hcons, <- app_assoc. reflexivity.
      - destruct IH as [before [bad [after [-> Hreq]]]].
        exists ((bbox, location) :: before), bad, after.
        split; [reflexivity |].
        rewrite Hreq, FetchFacts.requests_app, Hev.
        change (((bbox, location) :: before) ++ [bad])
          with ((bbox, location) :: (before ++ [bad])).
        rewrite Hcons, <- app_assoc. reflexivity. }
    destruct bbox as [| s [| w [| n [| e more]]]];
      try (simpl;
           match goal with
           | |- exists _ _ _, ?p :: _ = _ /\ _ => exists [], p, rest
           end;
           split; [reflexivity | simpl; rewrite app_nil_r; reflexivity]).
    set (q := query_text repr [w; s; e; n]).
    simpl. unfold get_location_ids; simpl.
    change (repr w ++ String "," (repr s ++ String "," (repr e ++ String "," (repr n))))%string
      with q.
    destruct (openaq_locations q) as [location_data | exn]; simpl;
      [| apply (Hstop [q] [Request q]); reflexivity].
    destruct (CaiStudio.fetch_sensor_data F list_objects_v2 read_csv_gz to_datetime
                (map id location_data) start_date end_date) as [[df ev] | exn] eqn:Hfetch;
      simpl; [| apply (Hstop [q] [Request q]); reflexivity].
    pose proof (requests_cai_fetch_sensor_data _ _ _ _ _ Hfetch) as Hev.
    assert (Hsent : requests (Request q :: ev) = [q]).
    { change (requests (Request q :: ev)) with (q :: requests ev). rewrite Hev. reflexivity. }
    destruct df as [| r df].
    + apply (Hgo [q] (Request q :: ev)); [reflexivity | exact Hsent].
    + destruct (CaiStudio.aggregate_data mixed_offsets (r :: df) aq_parameters)
        as [aggregated | exn]; simpl.
      * apply (Hgo [q] (Request q :: ev)); [reflexivity | exact Hsent].
      * apply (Hstop [q] (Request q :: ev)); [reflexivity | exact Hsent].
Qed.

Lemma requests_run_tool (bounding_boxes : list (list F)) (locations : list string)
    (start_date end_date : string) (aq_parameters : option (list string)) :
  let out := CaiStudio.run_tool F repr openaq_locations list_objects_v2 read_csv_gz
               to_datetime mixed_offsets
               bounding_boxes locations start_date end_date aq_parameters in
  (forall frame, fst out = Ok frame ->
                 requests (snd out) = collect sent (combine bounding_boxes locations)) /\
  (forall exn, fst out = Raise exn ->
               exists before bad after,
                 combine bounding_boxes locations = before ++ bad :: after /\
                 requests (snd out) = collect sent (before ++ [bad])).
Proof.
  cbv zeta. unfold CaiStudio.run_tool.
  pose proof (requests_main_loop start_date end_date aq_parameters
                (combine bounding_boxes locations) [] []) as Hloop.
  cbv zeta in Hloop.
  destruct (main_loop (combine bounding_boxes locations) start_date end_date
                      aq_parameters [] []) as [[[| f fs] | exn] tr]; simpl in *.
  - split; [intros _ _; exact Hloop | discriminate].
  - split; [intros _ _; exact Hloop | discriminate].
  - split; [discriminate | intros _ _; exact Hloop].
Qed.

(** One box with its four entries: its request is sent, whatever comes
    after. *)
Lemma requests_run_tool_single (south west north east : F) (location : string)
    (start_date end_date : string) (aq_parameters : option (list string)) :
  requests (snd (CaiStudio.run_tool F repr openaq_locations list_objects_v2 read_csv_gz
                   to_datetime mixed_offsets
                   [[south; west; north; east]] [location]
                   start_date end_date aq_parameters))
  = [query_text repr [west; south; east; north]].
Proof.
  destruct (requests_run_tool [[south; west; north; east]] [location]
              start_date end_date aq_parameters) as [Hok Hraise].
  cbv zeta in Hok, Hraise.
  destruct (fst (CaiStudio.run_tool F repr openaq_locations list_objects_v2 read_csv_gz
                   to_datetime mixed_offsets
                   [[south; west; north; east]] [location]
                   start_date end_date aq_parameters)) as [frame | exn] eqn:Hout.
  - rewrite (Hok frame eq_refl). reflexivity.
  - destruct (Hraise exn eq_refl) as [before [bad [after [Hpairs ->]]]].
    destruct before as [| b before]; simpl in Hpairs.
    + injection Hpairs as <- _. reflexivity.
    + injection Hpairs as _ Hrest. destruct before; discriminate.
Qed.

End Tool.

End CaiFacts.

Section RegistryQuery.
Import Calendar AirQualityAnalysisTool.
Variable F : Type.
Variable repr : F -> string.
Variable openaq_locations : string -> Exc (list Site).
Variable list_objects_v2 : string -> Listing.
Variable read_csv_gz : string -> option RawFrame.
Variable to_datetime : string -> option Date.
Variable mixed_offsets : MixedOffsets.

(** C3: the requests the run sends to the registry are, in order, one per
    (bounding box, location) pair whose box has its four entries, and the
    [bbox] parameter of each is the box reordered from south, west, north,
    east to west, south, east, north, that is [b[1], b[0], b[3], b[2]].  The
    CAI Studio tool sends the same requests: all of them when it returns,
    and, when an exception ends its run at a pair, those of the pairs up to
    that one, that one included; for a single box it always sends the
    reordered box. *)
Theorem registry_query_axis_order
    (bounding_boxes : list (list F)) (locations : list string)
    (start_date end_date : string) (aq_parameters : option (list string))
    (frame : Frame Row) (tr : list (Event F)) :
  _run F repr openaq_locations list_objects_v2 read_csv_gz mixed_offsets
       bounding_boxes locations start_date end_date aq_parameters = Ok (frame, tr) ->
  let sent := fun pair : list F * string =>
                option_map (query_text repr) (openaq_order (fst pair)) in
  let cai := CaiStudio.run_tool F repr openaq_locations list_objects_v2 read_csv_gz
               to_datetime mixed_offsets
               bounding_boxes locations start_date end_date aq_parameters in
  requests tr = collect sent (combine bounding_boxes locations) /\
  (forall south west north east : F,
      openaq_order [south; west; north; east] = Some [west; south; east; north] /\
      query_text repr [west; south; east; north]
      = (repr west ++ "," ++ repr south ++ "," ++ repr east ++ "," ++ repr north)%string) /\
  (forall (south west north east : F) (location : string),
      bounding_boxes = [[south; west; north; east]] -> locations = [location] ->
      requests tr
      = [(repr west ++ "," ++ repr south ++ "," ++ repr east ++ "," ++ repr north)%string] /\
      requests (snd cai)
      = [(repr west ++ "," ++ repr south ++ "," ++ repr east ++ "," ++ repr north)%string]) /\
  (forall frame', fst cai = Ok frame' ->
                  requests (snd cai) = collect sent (combine bounding_boxes locations)) /\
  (forall exn, fst cai = Raise exn ->
               exists before bad after,
                 combine bounding_boxes locations = before ++ bad :: after /\
                 requests (snd cai) = collect sent (before ++ [bad])).
Proof.
  intros Hrun sent cai.
  destruct (RunFacts.run_result _ _ _ _ _ _ _ _ _ _ _ _ _ Hrun)
    as [sd [ed [_ [_ [_ [_ Htr]]]]]].
  assert (Hreq : requests tr = collect sent (combine bounding_boxes locations)).
  { rewrite Htr. apply RunFacts.requests_flat_map. }
  split; [exact Hreq | split; [| split]].
  - intros south west north east. split; reflexivity.
  - intros south west north east location Hboxes Hlocations. split.
    + rewrite Hreq, Hboxes, Hlocations. reflexivity.
    + unfold cai. rewrite Hboxes, Hlocations.
      apply CaiFacts.requests_run_tool_single.
  - apply CaiFacts.requests_run_tool.
Qed.

End RegistryQuery.

Lemma registry_query_axis_order_witness :
  exists frame tr,
    AirQualityAnalysisTool._run Q Scenarios.repr_Q Scenarios.registry
      Scenarios.failing_archive Scenarios.archive_files AirQualityAnalysisTool.MixedRaises
      [Scenarios.india_box] ["Delhi"%string] "2023-01-01" "2023-01-01" None
    = Ok (frame, tr) /\
    AirQualityAnalysisTool.requests tr = ["70.0,20.0,80.0,30.0"%string] /\
    AirQualityAnalysisTool.requests
      (snd (CaiStudio.run_tool Q Scenarios.repr_Q Scenarios.registry
              Scenarios.failing_archive Scenarios.archive_files Calendar.strptime
              AirQualityAnalysisTool.MixedRaises
              [Scenarios.india_box] ["Delhi"%string] "2023-01-01" "2023-01-01" None))
    = ["70.0,20.0,80.0,30.0"%string].
Proof.
  destruct (AirQualityAnalysisTool._run Q Scenarios.repr_Q Scenarios.registry
              Scenarios.failing_archive Scenarios.archive_files
              AirQualityAnalysisTool.MixedRaises
              [Scenarios.india_box] ["Delhi"%string] "2023-01-01" "2023-01-01" None)
    as [[frame tr] | exn] eqn:Hrun.
  - exists frame, tr. split; [reflexivity |].
    exact (proj1 (proj2 (proj2 (registry_query_axis_order Q Scenarios.repr_Q
                    Scenarios.registry Scenarios.failing_archive Scenarios.archive_files
                    Calendar.strptime AirQualityAnalysisTool.MixedRaises
                    _ _ _ _ _ _ _ Hrun)))
             20%Q 70%Q 30%Q 80%Q "Delhi"%string eq_refl eq_refl).
  - vm_compute in Hrun. discriminate.
Defined.

(** The labels of the result: the five fixed ones, with no row, when no pair
    contributed a frame; the labels of the aggregate otherwise, where the
    unit goes under ["units"]. *)
Lemma run_columns (F : Type) (repr : F -> string)
    (openaq_locations : string -> Exc (list AirQualityAnalysisTool.Site))
    (list_objects_v2 : string -> AirQualityAnalysisTool.Listing)
    (read_csv_gz : string -> option AirQualityAnalysisTool.RawFrame)
    (mixed_offsets : AirQualityAnalysisTool.MixedOffsets)
    (bounding_boxes : list (list F)) (locations : list string)
    (start_date end_date : string) (aq_parameters : option (list string))
    (frame : AirQualityAnalysisTool.Frame AirQualityAnalysisTool.Row)
    (tr : list (AirQualityAnalysisTool.Event F)) :
  AirQualityAnalysisTool._run F repr openaq_locations list_objects_v2 read_csv_gz
    mixed_offsets bounding_boxes locations start_date end_date aq_parameters = Ok (frame, tr) ->
  (AirQualityAnalysisTool.columns frame
   = ["date"; "parameter"; "unit"; "value"; "location"]%string /\
   AirQualityAnalysisTool.rows frame = []) \/
  AirQualityAnalysisTool.columns frame
  = ["parameter"; "value"; "units"; "date"; "location"]%string.
Proof.
  intros Hrun.
  destruct (RunFacts.run_result _ _ _ _ _ _ _ _ _ _ _ _ _ Hrun)
    as [sd [ed [_ [_ [Hrows [Hcols _]]]]]].
  destruct (AirQualityAnalysisTool.collect _ _) as [| f frames].
  - left. split; [exact Hcols | exact Hrows].
  - right. exact Hcols.
Qed.

(** C4, at an input where it fails: one box, one location, one day with two
    readings.  The table returned has one row and the labels parameter,
    value, units, date, location: the unit is under ["units"], not under the
    ["unit"] of the fixed labels that the empty result carries. *)
Theorem run_columns_units_label (mixed_offsets : AirQualityAnalysisTool.MixedOffsets) :
  exists frame tr,
    AirQualityAnalysisTool._run Q Scenarios.repr_Q Scenarios.registry
      Scenarios.failing_archive Scenarios.archive_files mixed_offsets
      [Scenarios.india_box] ["Delhi"%string] "2023-01-01" "2023-01-01" None
    = Ok (frame, tr) /\
    AirQualityAnalysisTool.columns frame
    = ["parameter"; "value"; "units"; "date"; "location"]%string /\
    List.length (AirQualityAnalysisTool.rows frame) = 1 /\
    ~ In "unit"%string (AirQualityAnalysisTool.columns frame) /\
    ~ Permutation (AirQualityAnalysisTool.columns frame)
        ["date"; "parameter"; "unit"; "value"; "location"]%string.
Proof.
  assert (Hsame : AirQualityAnalysisTool._run Q Scenarios.repr_Q Scenarios.registry
                     Scenarios.failing_archive Scenarios.archive_files mixed_offsets
                     [Scenarios.india_box] ["Delhi"%string] "2023-01-01" "2023-01-01" None
                   = AirQualityAnalysisTool._run Q Scenarios.repr_Q Scenarios.registry
                       Scenarios.failing_archive Scenarios.archive_files
                       AirQualityAnalysisTool.MixedRaises
                       [Scenarios.india_box] ["Delhi"%string] "2023-01-01" "2023-01-01" None)
    by (destruct mixed_offsets; reflexivity).
  rewrite Hsame. clear Hsame.
  destruct (AirQualityAnalysisTool._run Q Scenarios.repr_Q Scenarios.registry
              Scenarios.failing_archive Scenarios.archive_files
              AirQualityAnalysisTool.MixedRaises
              [Scenarios.india_box] ["Delhi"%string] "2023-01-01" "2023-01-01" None)
    as [[frame tr] | exn] eqn:Hrun; vm_compute in Hrun; [| discriminate].
  injection Hrun as <- <-.
  eexists. eexists. split; [reflexivity |].
  assert (Hnot : ~ In "unit"%string
                   ["parameter"; "value"; "units"; "date"; "location"]%string).
  { simpl. intuition discriminate. }
  split; [reflexivity | split; [reflexivity | split]].
  - exact Hnot.
  - intros Hperm. apply Hnot.
    apply (Permutation_in _ (Permutation_sym Hperm)). simpl. auto.
Qed.

(** * Further properties of the tools *)

(** ** Outcomes of the geocoding tools *)

Section GeocoderOutcomes.
Context {F : Type} `{PyFloat F}.
Variable requests_get : string -> BoundingBoxExtractorTool.Response.

Lemma not_found_is_not_transport (location e : string) :
  ("Bounding box not found for location: " ++ location)%string
  <> ("Error fetching bounding box for " ++ location ++ ": " ++ e)%string.
Proof. simpl. discriminate. Qed.

(** X5: what the geocoding tool does with each answer of the service whose
    places carry their ['boundingbox'] as a list of strings: a failed
    request and an empty result come back as two texts that always differ; a
    first place whose list has four entries that read as floats gives the
    expanded box; a first place whose list is shorter, or holds a text that
    does not read as a float, makes the tool raise [IndexError] or
    [ValueError], which nothing catches. *)
Theorem geocoder_outcomes (location : string) :
  match requests_get (BoundingBoxExtractorTool.url location) with
  | BoundingBoxExtractorTool.RequestException e =>
      BoundingBoxExtractorTool._run requests_get location
      = Ok (BoundingBoxExtractorTool.Message
              ("Error fetching bounding box for " ++ location ++ ": " ++ e)%string) /\
      ("Bounding box not found for location: " ++ location)%string
      <> ("Error fetching bounding box for " ++ location ++ ": " ++ e)%string
  | BoundingBoxExtractorTool.Json [] =>
      BoundingBoxExtractorTool._run requests_get location
      = Ok (BoundingBoxExtractorTool.Message
              ("Bounding box not found for location: " ++ location)%string)
  | BoundingBoxExtractorTool.Json (place :: _) =>
      match Notions.parsed_box place with
      | Some (s, n, w, e) =>
          BoundingBoxExtractorTool._run requests_get location
          = Ok (BoundingBoxExtractorTool.Box
                  (BoundingBoxExtractorTool._expand_bounding_box s w n e (of_int 15)))
      | None =>
          BoundingBoxExtractorTool._run requests_get location = Raise IndexError \/
          BoundingBoxExtractorTool._run requests_get location = Raise ValueError
      end
  end.
Proof.
  unfold BoundingBoxExtractorTool._run, Notions.parsed_box.
  destruct (requests_get _) as [e | [| place others]].
  - split; [reflexivity | apply not_found_is_not_transport].
  - reflexivity.
  - unfold BoundingBoxExtractorTool.float, py_index.
    destruct (BoundingBoxExtractorTool.boundingbox place) as [| a [| b [| c [| d more]]]];
      simpl; auto;
      destruct (float_of_str a); simpl; auto;
      destruct (float_of_str b); simpl; auto;
      destruct (float_of_str c); simpl; auto;
      destruct (float_of_str d); simpl; auto.
Qed.

(** X6: on the same answer of the service the CAI Studio geocoding tool
    returns what the other one returns -- the same expanded box, the same
    text, now under the keys of a dictionary -- and raises when it raises. *)
Theorem cai_geocoder_agrees
    (cai_requests_get : string -> BoundingBoxExtractorTool.Response) (location : string) :
  cai_requests_get (CaiBoundingBoxExtractor.url location)
  = requests_get (BoundingBoxExtractorTool.url location) ->
  CaiBoundingBoxExtractor.run_tool cai_requests_get location
  = match BoundingBoxExtractorTool._run requests_get location with
    | Ok r => Ok (Notions.as_dictionary r)
    | Raise exn => Raise exn
    end.
Proof.
  intros Hsame.
  unfold CaiBoundingBoxExtractor.run_tool, BoundingBoxExtractorTool._run.
  rewrite Hsame.
  destruct (requests_get _) as [e | [| place others]]; try reflexivity.
  unfold BoundingBoxExtractorTool.float, CaiBoundingBoxExtractor.float, py_index.
  destruct (BoundingBoxExtractorTool.boundingbox place) as [| a [| b [| c [| d more]]]];
    simpl; try reflexivity;
    destruct (float_of_str a); simpl; try reflexivity;
    destruct (float_of_str b); simpl; try reflexivity;
    destruct (float_of_str c); simpl; try reflexivity;
    destruct (float_of_str d); simpl; reflexivity.
Qed.

End GeocoderOutcomes.

Lemma cai_geocoder_agrees_witness :
  CaiBoundingBoxExtractor.run_tool (F := R) Scenarios.sample_geocoder "Sample"
  = match BoundingBoxExtractorTool._run (F := R) Scenarios.sample_geocoder "Sample" with
    | Ok r => Ok (Notions.as_dictionary r)
    | Raise exn => Raise exn
    end.
Proof.
  apply (cai_geocoder_agrees (F := R) Scenarios.sample_geocoder
           Scenarios.sample_geocoder "Sample").
  reflexivity.
Defined.

(** ** The two weather tools *)

Module WeatherFacts.
Import HistoricalWeatherTool.

Lemma get_or_empty (key : string) (d : Daily) : CaiWeatherTool.get_or key [] d = get key d.
Proof.
  induction d as [| [k v] rest IH]; simpl; [reflexivity |].
  destruct (String.eqb k key); [reflexivity | exact IH].
Qed.

Lemma item_get (key : string) (d : Daily) :
  CaiWeatherTool.item key d = Ok (get key d) \/
  (CaiWeatherTool.item key d = Raise KeyError /\ get key d = []).
Proof.
  induction d as [| [k v] rest IH]; simpl; [right; auto |].
  destruct (String.eqb k key); [left; reflexivity | exact IH].
Qed.

Lemma get_or_default (key : string) (d : Daily) :
  CaiWeatherTool.get_or key [NA] d = get key d \/
  (CaiWeatherTool.get_or key [NA] d = [NA] /\ get key d = []).
Proof.
  induction d as [| [k v] rest IH]; simpl; [right; auto |].
  destruct (String.eqb k key); [left; reflexivity | exact IH].
Qed.

(** The unguarded access gives what the guarded one shows, as long as it
    stays inside the array (or inside the default of an absent metric). *)
Lemma index_inside (key : string) (d : Daily) (i : nat) :
  i < List.length (CaiWeatherTool.get_or key [NA] d) ->
  py_index (CaiWeatherTool.get_or key [NA] d) i = Ok (shown (get key d) i).
Proof.
  intros Hi. destruct (get_or_default key d) as [Heq | [Hdef Habsent]].
  - rewrite Heq in *. unfold shown. apply py_index_nth. exact Hi.
  - rewrite Hdef in *. rewrite Habsent. simpl in Hi.
    assert (i = 0) as -> by lia. reflexivity.
Qed.

Lemma index_outside (key : string) (d : Daily) (i : nat) :
  List.length (CaiWeatherTool.get_or key [NA] d) <= i ->
  py_index (CaiWeatherTool.get_or key [NA] d) i = Raise IndexError.
Proof.
  intros Hi. unfold py_index.
  replace (nth_error _ i) with (@None JValue); [reflexivity |].
  symmetry. apply nth_error_None. exact Hi.
Qed.

Lemma index_cases (key : string) (d : Daily) (i : nat) :
  (i < List.length (CaiWeatherTool.get_or key [NA] d) /\
   py_index (CaiWeatherTool.get_or key [NA] d) i = Ok (shown (get key d) i)) \/
  (List.length (CaiWeatherTool.get_or key [NA] d) <= i /\
   py_index (CaiWeatherTool.get_or key [NA] d) i = Raise IndexError).
Proof.
  destruct (Nat.lt_ge_cases i (List.length (CaiWeatherTool.get_or key [NA] d))) as [Hi | Hi].
  - left. split; [exact Hi | apply index_inside; exact Hi].
  - right. split; [exact Hi | apply index_outside; exact Hi].
Qed.

Lemma covers_iff (d : Daily) :
  Notions.covers d = true <->
  forall metric, In metric CaiWeatherTool.metrics ->
                 List.length (get "time" d)
                 <= List.length (CaiWeatherTool.get_or metric [NA] d).
Proof.
  unfold Notions.covers. rewrite forallb_forall.
  split; intros Hall metric Hin.
  - apply Nat.leb_le. apply Hall. exact Hin.
  - apply Nat.leb_le. apply Hall. exact Hin.
Qed.

(** A row of the CAI Studio tool: the expected one when every metric reaches
    the index, [IndexError] otherwise. *)
Lemma cai_summary_at (d : Daily) (i : nat) :
  i < List.length (get "time" d) ->
  ((forall metric, In metric CaiWeatherTool.metrics ->
                   i < List.length (CaiWeatherTool.get_or metric [NA] d)) /\
   CaiWeatherTool.summary_at d i = Ok (expected_row d i)) \/
  ((exists metric, In metric CaiWeatherTool.metrics /\
                   List.length (CaiWeatherTool.get_or metric [NA] d) <= i) /\
   CaiWeatherTool.summary_at d i = Raise IndexError).
Proof.
  intros Hi. unfold CaiWeatherTool.summary_at.
  destruct (item_get "time" d) as [Htime | [_ Hempty]];
    [| rewrite Hempty in Hi; simpl in Hi; lia].
  rewrite Htime; simpl. rewrite (py_index_nth _ _ JNull Hi); simpl.
  destruct (index_cases "temperature_2m_mean" d i) as [[H1 ->] | [H1 ->]]; simpl;
    [| right; split; [eexists; split; [| exact H1]; simpl; auto 10 | reflexivity]].
  destruct (index_cases "temperature_2m_max" d i) as [[H2 ->] | [H2 ->]]; simpl;
    [| right; split; [eexists; split; [| exact H2]; simpl; auto 10 | reflexivity]].
  destruct (index_cases "temperature_2m_min" d i) as [[H3 ->] | [H3 ->]]; simpl;
    [| right; split; [eexists; split; [| exact H3]; simpl; auto 10 | reflexivity]].
  destruct (index_cases "precipitation_sum" d i) as [[H4 ->] | [H4 ->]]; simpl;
    [| right; split; [eexists; split; [| exact H4]; simpl; auto 10 | reflexivity]].
  destruct (index_cases "wind_speed_10m_mean" d i) as [[H5 ->] | [H5 ->]]; simpl;
    [| right; split; [eexists; split; [| exact H5]; simpl; auto 10 | reflexivity]].
  destruct (index_cases "relative_humidity_2m_mean" d i) as [[H6 ->] | [H6 ->]]; simpl;
    [| right; split; [eexists; split; [| exact H6]; simpl; auto 10 | reflexivity]].
  left. split; [| reflexivity].
  intros metric Hin. simpl in Hin.
  destruct Hin as [<- | [<- | [<- | [<- | [<- | [<- | []]]]]]]; assumption.
Qed.

Lemma cai_loop_complete (d : Daily) (indices : list nat) :
  Forall (fun i => CaiWeatherTool.summary_at d i = Ok (expected_row d i)) indices ->
  forall acc,
    CaiWeatherTool.summary_loop d indices acc = Ok (acc ++ map (expected_row d) indices).
Proof.
  induction 1 as [| i rest Hi _ IH]; intros acc; simpl.
  - rewrite app_nil_r. reflexivity.
  - rewrite Hi; simpl. rewrite IH, <- app_assoc. reflexivity.
Qed.

Lemma cai_loop_raises (d : Daily) (indices : list nat) :
  Forall (fun i => CaiWeatherTool.summary_at d i = Ok (expected_row d i) \/
                   CaiWeatherTool.summary_at d i = Raise IndexError) indices ->
  Exists (fun i => CaiWeatherTool.summary_at d i = Raise IndexError) indices ->
  forall acc, CaiWeatherTool.summary_loop d indices acc = Raise IndexError.
Proof.
  induction 1 as [| i rest Hi _ IH]; intros Hex acc; [inversion Hex |].
  simpl. destruct Hi as [Hok | Hraise].
  - rewrite Hok; simpl. apply IH.
    inversion Hex as [? ? Hhere | ? ? Hlater]; subst; [congruence | exact Hlater].
  - rewrite Hraise. reflexivity.
Qed.

Section Tools.
Context {F : Type} `{PyFloat F}.
Variable requests_get : Params F -> Response.

(** X7: when every metric array of the answer (or the one-entry default of a
    metric that is absent) is at least as long as the time array, the CAI
    Studio weather tool ends as the other weather tool does: with the same
    rows, or with the error of the same kind. *)
Theorem cai_weather_agrees (bounding_box : list F) (start_date end_date : string) :
  (forall params daily_data,
      requests_get params = Json (Some daily_data) -> Notions.covers daily_data = true) ->
  CaiWeatherTool.run_tool requests_get bounding_box start_date end_date
  = _run requests_get bounding_box start_date end_date.
Proof.
  intros Hcovers.
  unfold CaiWeatherTool.run_tool, _run.
  destruct bounding_box as [| s [| w [| n [| e [| x more]]]]]; try reflexivity.
  destruct (requests_get _) as [err | [d |]] eqn:Hget; try reflexivity.
  pose proof (proj1 (covers_iff d) (Hcovers _ _ Hget)) as Hall.
  rewrite get_or_empty.
  assert (Hrows : Forall (fun i => CaiWeatherTool.summary_at d i = Ok (expected_row d i))
                         (seq 0 (List.length (get "time" d)))).
  { apply Forall_forall. intros i Hi. apply in_seq in Hi.
    destruct (cai_summary_at d i) as [[_ Hok] | [[metric [Hin Hshort]] _]];
      [lia | exact Hok |].
    specialize (Hall metric Hin). lia. }
  rewrite (cai_loop_complete d _ Hrows).
  rewrite summary_loop_expected; [reflexivity |].
  apply Forall_forall. intros i Hi. apply in_seq in Hi. lia.
Qed.

(** X8: when some metric array ends before the time array, the CAI Studio
    weather tool returns its unexpected-error result for an [IndexError] and
    no row at all, where the other weather tool returns every row with
    "N/A" in the gaps. *)
Theorem cai_weather_short_array (s w n e : F) (start_date end_date : string)
    (daily_data : Daily) :
  requests_get {| latitude := fdiv (fadd s n) (of_int 2);
                  longitude := fdiv (fadd w e) (of_int 2);
                  HistoricalWeatherTool.start_date := start_date;
                  HistoricalWeatherTool.end_date := end_date;
                  daily := daily_metrics;
                  timezone := "auto" |} = Json (Some daily_data) ->
  Notions.covers daily_data = false ->
  CaiWeatherTool.run_tool requests_get [s; w; n; e] start_date end_date
  = UnexpectedError IndexError /\
  _run requests_get [s; w; n; e] start_date end_date
  = WeatherSummary (map (expected_row daily_data)
                        (seq 0 (List.length (get "time" daily_data)))).
Proof.
  intros Hget Hshort.
  split.
  - unfold CaiWeatherTool.run_tool. rewrite Hget, get_or_empty.
    rewrite cai_loop_raises; [reflexivity | |].
    + apply Forall_forall. intros i Hi. apply in_seq in Hi.
      destruct (cai_summary_at daily_data i) as [[_ Hok] | [_ Hraise]]; [lia | auto | auto].
    + unfold Notions.covers in Hshort.
      assert (Hex : exists metric, In metric CaiWeatherTool.metrics /\
                      List.length (CaiWeatherTool.get_or metric [NA] daily_data)
                      < List.length (get "time" daily_data)).
      { destruct (forallb _ CaiWeatherTool.metrics) eqn:Hall; [discriminate |].
        clear Hshort.
        assert (Hnot : ~ (forall metric, In metric CaiWeatherTool.metrics ->
                            Nat.leb (List.length (get "time" daily_data))
                                    (List.length (CaiWeatherTool.get_or metric [NA] daily_data))
                            = true)).
        { intros Hforall. apply forallb_forall in Hforall. congruence. }
        induction CaiWeatherTool.metrics as [| m ms IH].
        - exfalso. apply Hnot. intros metric [].
        - destruct (Nat.leb (List.length (get "time" daily_data))
                            (List.length (CaiWeatherTool.get_or m [NA] daily_data))) eqn:Hm.
          + simpl in Hall. rewrite Hm in Hall. simpl in Hall.
            destruct IH as [metric [Hin Hlt]]; [exact Hall | |].
            * intros Hforall. apply Hnot. intros metric [<- | Hin]; auto.
            * exists metric. split; [right; exact Hin | exact Hlt].
          + exists m. split; [left; reflexivity |]. apply Nat.leb_gt. exact Hm. }
      destruct Hex as [metric [Hin Hlt]].
      apply Exists_exists.
      exists (List.length (CaiWeatherTool.get_or metric [NA] daily_data)).
      split; [apply in_seq; lia |].
      destruct (cai_summary_at daily_data
                  (List.length (CaiWeatherTool.get_or metric [NA] daily_data)) Hlt)
        as [[Hall _] | [_ Hraise]]; [| exact Hraise].
      specialize (Hall metric Hin). lia.
  - unfold _run. rewrite Hget.
    rewrite summary_loop_expected; [reflexivity |].
    apply Forall_forall. intros i Hi. apply in_seq in Hi. lia.
Qed.

End Tools.

End WeatherFacts.

(** ** The two input parsers *)

(** X9: the parser validates an input exactly when there is at least one
    location, at least one parameter and the start date is strictly before
    the end date as text; the summary it then returns carries the four
    arguments unchanged. *)
Theorem parser_accepts_iff
    (locations : list string) (start_date end_date : string)
    (aq_parameters : list string) (summary : InputParserTool.InputSummary) :
  InputParserTool._run locations start_date end_date aq_parameters
  = InputParserTool.ValidatedInput summary
  <->
  locations <> [] /\ aq_parameters <> [] /\
  String.ltb start_date end_date = true /\
  summary = {| InputParserTool.locations := locations;
               InputParserTool.start_date := start_date;
               InputParserTool.end_date := end_date;
               InputParserTool.parameters := aq_parameters |}.
Proof.
  unfold InputParserTool._run, InputParserTool.str_ge.
  destruct locations as [| l ls].
  - split; [discriminate | intros [Hl _]; congruence].
  - destruct aq_parameters as [| p ps].
    + split; [discriminate | intros [_ [Hp _]]; congruence].
    + destruct (String.ltb start_date end_date); simpl.
      * split.
        -- intros [= <-]. repeat split; discriminate.
        -- intros [_ [_ [_ ->]]]. reflexivity.
      * split; [discriminate | intros [_ [_ [Hlt _]]]; discriminate].
Qed.

(** X10: the CAI Studio parser decides as the other parser does: it returns
    the same summary when the input is valid, and otherwise the same message
    without the leading "Error: ". *)
Theorem cai_parser_agrees
    (locations : list string) (start_date end_date : string)
    (aq_parameters : list string) :
  InputParserTool._run locations start_date end_date aq_parameters
  = match CaiInputParser.run_tool locations start_date end_date aq_parameters with
    | CaiInputParser.Error msg => InputParserTool.Text ("Error: " ++ msg)
    | CaiInputParser.ValidatedInput summary => InputParserTool.ValidatedInput summary
    end.
Proof.
  unfold InputParserTool._run, CaiInputParser.run_tool.
  destruct locations as [| l ls]; [reflexivity |].
  destruct aq_parameters as [| p ps]; [reflexivity |].
  destruct (InputParserTool.str_ge start_date end_date); reflexivity.
Qed.

(** ** More on the daily aggregation *)

Module AggregationOrder.
Import Calendar AirQualityAnalysisTool AggregationFacts.

(** *** The order of the group labels *)

Lemma ascii_compare_lt_trans (a b c : ascii) :
  Ascii.compare a b = Lt -> Ascii.compare b c = Lt -> Ascii.compare a c = Lt.
Proof.
  unfold Ascii.compare. rewrite !N.compare_lt_iff. lia.
Qed.

Lemma string_compare_lt_trans (a b c : string) :
  String.compare a b = Lt -> String.compare b c = Lt -> String.compare a c = Lt.
Proof.
  revert b c. induction a as [| x a IH]; intros [| y b] [| z c]; simpl;
    try discriminate; try reflexivity.
  destruct (Ascii.compare x y) eqn:Hxy; try discriminate;
    destruct (Ascii.compare y z) eqn:Hyz; try discriminate; intros H1 H2.
  - apply Ascii.compare_eq_iff in Hxy, Hyz. subst.
    replace (Ascii.compare z z) with Eq.
    + apply (IH b c); assumption.
    + symmetry. unfold Ascii.compare. apply N.compare_refl.
  - apply Ascii.compare_eq_iff in Hxy. subst. rewrite Hyz. reflexivity.
  - apply Ascii.compare_eq_iff in Hyz. subst. rewrite Hxy. reflexivity.
  - rewrite (ascii_compare_lt_trans _ _ _ Hxy Hyz). reflexivity.
Qed.

Lemma timestamp_leb_trans (a b c : Timestamp) :
  timestamp_leb a b = true -> timestamp_leb b c = true -> timestamp_leb a c = true.
Proof.
  unfold timestamp_leb.
  rewrite !orb_true_iff, !andb_true_iff, !Z.ltb_lt, !Z.eqb_eq, !N.leb_le. lia.
Qed.

Lemma timestamp_leb_total (a b : Timestamp) :
  timestamp_leb a b = false -> timestamp_leb b a = true.
Proof.
  unfold timestamp_leb.
  rewrite orb_false_iff, andb_false_iff, orb_true_iff, andb_true_iff,
          !Z.ltb_lt, !Z.ltb_ge, !Z.eqb_eq, Z.eqb_neq, N.leb_le, N.leb_gt. lia.
Qed.

Lemma key_leb_trans (a b c : Key) :
  key_leb a b = true -> key_leb b c = true -> key_leb a c = true.
Proof.
  unfold key_leb.
  destruct (String.compare (fst a) (fst b)) eqn:Hab; try discriminate;
    destruct (String.compare (fst b) (fst c)) eqn:Hbc; try discriminate; intros H1 H2.
  - apply String.compare_eq_iff in Hab. rewrite Hab, Hbc.
    apply (timestamp_leb_trans _ _ _ H1 H2).
  - apply String.compare_eq_iff in Hab. rewrite Hab, Hbc. reflexivity.
  - apply String.compare_eq_iff in Hbc. rewrite <- Hbc, Hab. reflexivity.
  - rewrite (string_compare_lt_trans _ _ _ Hab Hbc). reflexivity.
Qed.

Lemma key_leb_total (a b : Key) : key_leb a b = false -> key_leb b a = true.
Proof.
  unfold key_leb. rewrite (String.compare_antisym (fst b) (fst a)).
  destruct (String.compare (fst a) (fst b)) eqn:Hab; simpl; try discriminate.
  - apply timestamp_leb_total.
  - reflexivity.
Qed.

Lemma insert_sorted_sorted (k : Key) (l : list Key) :
  StronglySorted (fun a b => key_leb a b = true) l ->
  StronglySorted (fun a b => key_leb a b = true) (insert_sorted k l).
Proof.
  induction 1 as [| h t Hsorted IH Hall]; simpl.
  - constructor; constructor.
  - destruct (key_leb k h) eqn:Hkh.
    + constructor.
      * constructor; assumption.
      * constructor; [exact Hkh |].
        revert Hall. apply Forall_impl. intros x Hx.
        apply (key_leb_trans _ _ _ Hkh Hx).
    + constructor; [exact IH |].
      apply (Permutation_Forall (insert_sorted_perm k t)).
      constructor; [apply key_leb_total; exact Hkh | exact Hall].
Qed.

Lemma sort_keys_sorted (l : list Key) :
  StronglySorted (fun a b => key_leb a b = true) (sort_keys l).
Proof.
  induction l as [| k t IH]; simpl; [constructor |].
  apply insert_sorted_sorted. exact IH.
Qed.

Lemma collect_sorted {A B : Type} (R : A -> A -> Prop) (R' : B -> B -> Prop)
    (f : A -> option B) (l : list A) :
  (forall a b x y, In a l -> In b l -> f a = Some x -> f b = Some y -> R a b -> R' x y) ->
  StronglySorted R l -> StronglySorted R' (collect f l).
Proof.
  intros Hmono Hsorted. induction Hsorted as [| a t Hsorted IH Hall]; simpl;
    [constructor |].
  assert (IH' : StronglySorted R' (collect f t)).
  { apply IH. intros x y u v Hx Hy. apply Hmono; right; assumption. }
  destruct (f a) as [x |] eqn:Hfa; [| exact IH'].
  constructor; [exact IH' |].
  apply Forall_forall. intros y Hy.
  apply In_collect in Hy. destruct Hy as [b [Hb Hfb]].
  apply (Hmono a b x y); auto using in_eq, in_cons.
  rewrite Forall_forall in Hall. apply Hall. exact Hb.
Qed.

Lemma agg_fields (k : Key) (g : RawFrame) (d : DailyRow) :
  agg k g = Some d ->
  d_parameter d = fst k /\ d_date d = day (snd k) /\
  mean (map value g) = Some (d_value d) /\
  first (map units g) = Some (d_units d).
Proof.
  unfold agg. destruct (mean (map value g)), (first (map units g)); try discriminate.
  intros [= <-]. simpl. auto.
Qed.

Lemma label_midnight (df : RawFrame) (k : Key) :
  In k (group_labels df) -> seconds (snd k) = 0%N.
Proof.
  intros Hin. apply In_group_labels in Hin. destruct Hin as [r [_ <-]]. reflexivity.
Qed.

Section Rows.
Variable F : Type.
Variable mixed_offsets : MixedOffsets.

(** X11: readings whose datetime texts share one UTC offset are aggregated,
    and the rows of the aggregate come in ascending order of parameter and,
    within a parameter, of date. *)
Theorem aggregate_rows_sorted (df : RawFrame) (parameters : option (list string)) :
  one_offset df = true ->
  exists (frame : Frame DailyRow) (ev : list (Event F)),
    aggregate_data F mixed_offsets df parameters = (Ok frame, ev) /\
    StronglySorted Notions.row_order (rows frame).
Proof.
  intros Hone.
  exists {| columns := daily_columns; rows := daily_data (select parameters df) |},
         [PrintDF (head (select parameters df))].
  split; [apply aggregate_data_returns; auto |].
  simpl. unfold daily_data.
  set (selected := select parameters df).
  apply (collect_sorted (fun a b => key_leb a b = true)); [| apply sort_keys_sorted].
  intros a b x y Ha Hb Hx Hy Hab.
  destruct (agg_fields _ _ _ Hx) as [Hpx [Hdx _]].
  destruct (agg_fields _ _ _ Hy) as [Hpy [Hdy _]].
  pose proof (label_midnight _ _ Ha) as Hsa.
  pose proof (label_midnight _ _ Hb) as Hsb.
  unfold Notions.row_order. rewrite Hpx, Hpy, Hdx, Hdy.
  unfold key_leb in Hab.
  destruct (String.compare (fst a) (fst b)); try discriminate; [| exact I].
  unfold timestamp_leb in Hab.
  apply orb_true_iff in Hab. destruct Hab as [Hlt | Heq].
  - apply Z.ltb_lt in Hlt. lia.
  - apply andb_true_iff in Heq. destruct Heq as [Heq _].
    apply Z.eqb_eq in Heq. lia.
Qed.

(** X12: readings whose datetime texts share one UTC offset are aggregated,
    and no row of the aggregate is invented: its (parameter, date) is that
    of a reading of the input, its unit is the unit of a reading of that
    parameter and date, and when a non-empty allow-list is given its
    parameter is on the list. *)
Theorem aggregate_rows_from_readings
    (df : RawFrame) (parameters : option (list string)) :
  one_offset df = true ->
  exists (frame : Frame DailyRow) (ev : list (Event F)),
    aggregate_data F mixed_offsets df parameters = (Ok frame, ev) /\
    forall d, In d (rows frame) ->
      (exists r, In r df /\ parameter r = d_parameter d /\ day (datetime r) = d_date d /\
                 units r = Some (d_units d)) /\
      (exists r, In r df /\ parameter r = d_parameter d /\ day (datetime r) = d_date d /\
                 value r <> None) /\
      (forall p ps, parameters = Some (p :: ps) -> In (d_parameter d) (p :: ps)).
Proof.
  intros Hone.
  exists {| columns := daily_columns; rows := daily_data (select parameters df) |},
         [PrintDF (head (select parameters df))].
  split; [apply aggregate_data_returns; auto |].
  intros d. simpl.
  set (selected := select parameters df).
  intros Hd. apply In_daily_data in Hd. destruct Hd as [r0 [Hr0 Hagg]].
  destruct (agg_fields _ _ _ Hagg) as [Hp [Hdate [Hmean Hfirst]]]. simpl in Hp, Hdate.
  assert (Hsub : forall r, In r selected -> In r df).
  { intros r. unfold selected. destruct parameters as [[| p ps] |]; simpl; auto.
    rewrite filter_In. tauto. }
  assert (Hgroup : forall r, In r (readings_of (reading_key r0) selected) ->
                             In r df /\ parameter r = d_parameter d /\
                             day (datetime r) = d_date d).
  { intros r Hr. apply readings_of_incl in Hr. destruct Hr as [Hr Hkey].
    unfold reading_key in Hkey. inversion Hkey as [[Hkp Hkd]].
    repeat split; [apply Hsub; exact Hr | congruence | congruence]. }
  split; [| split].
  - unfold first in Hfirst.
    assert (Hex : exists r, In r (readings_of (reading_key r0) selected) /\
                            units r = Some (d_units d)).
    { revert Hfirst. generalize (readings_of (reading_key r0) selected) as g.
      induction g as [| r g IH]; simpl; [discriminate |].
      destruct (units r) as [u |] eqn:Hu; simpl.
      - intros [= <-]. exists r. auto.
      - intros Hfirst. destruct (IH Hfirst) as [r' [Hin Hr']]. exists r'. auto. }
    destruct Hex as [r [Hr Hu]]. exists r.
    destruct (Hgroup r Hr) as [H1 [H2 H3]]. auto.
  - unfold mean in Hmean.
    assert (Hex : exists r, In r (readings_of (reading_key r0) selected) /\
                            value r <> None).
    { revert Hmean. generalize (readings_of (reading_key r0) selected) as g.
      induction g as [| r g IH]; simpl; [discriminate |].
      destruct (value r) as [v |] eqn:Hv; simpl.
      - intros _. exists r. split; [auto | congruence].
      - intros Hmean. destruct (IH Hmean) as [r' [Hin Hr']]. exists r'. auto. }
    destruct Hex as [r [Hr Hv]]. exists r.
    destruct (Hgroup r Hr) as [H1 [H2 H3]]. auto.
  - intros p ps ->. unfold selected in Hr0. simpl in Hr0.
    apply filter_In in Hr0. destruct Hr0 as [_ Hisin].
    unfold isin in Hisin. apply existsb_exists in Hisin.
    destruct Hisin as [q [Hq Heq]]. apply String.eqb_eq in Heq.
    rewrite Hp, Heq. exact Hq.
Qed.

End Rows.

End AggregationOrder.

Module AggregationPermutation.
Import Calendar AirQualityAnalysisTool AggregationFacts.

Lemma filter_perm {A : Type} (keep : A -> bool) (l l' : list A) :
  Permutation l l' -> Permutation (filter keep l) (filter keep l').
Proof.
  induction 1 as [| x l l' _ IH | x y l | l l' l'' _ IH1 _ IH2]; simpl.
  - reflexivity.
  - destruct (keep x); [apply perm_skip |]; exact IH.
  - destruct (keep x), (keep y); try reflexivity. apply perm_swap.
  - rewrite IH1. exact IH2.
Qed.

Lemma present_perm {A : Type} (l l' : list (option A)) :
  Permutation l l' -> Permutation (present l) (present l').
Proof.
  induction 1 as [| x l l' _ IH | x y l | l l' l'' _ IH1 _ IH2]; simpl.
  - reflexivity.
  - destruct x; [apply perm_skip |]; exact IH.
  - destruct x, y; try reflexivity. apply perm_swap.
  - rewrite IH1. exact IH2.
Qed.

Lemma sum_perm (vs vs' : list Qc) : Permutation vs vs' -> sum vs = sum vs'.
Proof.
  induction 1 as [| x l l' _ IH | x y l | l l' l'' _ IH1 _ IH2]; simpl.
  - reflexivity.
  - rewrite IH. reflexivity.
  - rewrite !Qcplus_assoc, (Qcplus_comm y x). reflexivity.
  - rewrite IH1. exact IH2.
Qed.

Lemma mean_perm (vs vs' : list (option Qc)) : Permutation vs vs' -> mean vs = mean vs'.
Proof.
  intros Hperm. apply present_perm in Hperm. unfold mean.
  pose proof (sum_perm _ _ Hperm) as Hsum.
  pose proof (Permutation_length Hperm) as Hlen.
  destruct (present vs) as [| v t], (present vs') as [| v' t'];
    try reflexivity; try discriminate.
  rewrite Hsum, Hlen. reflexivity.
Qed.

Lemma first_perm {A : Type} (l l' : list (option A)) :
  Permutation l l' -> (first l = None <-> first l' = None).
Proof.
  intros Hperm. apply present_perm in Hperm. unfold first.
  pose proof (Permutation_length Hperm) as Hlen.
  destruct (present l), (present l'); simpl in *; try discriminate; split; congruence.
Qed.

(** The row of a group, without its unit, does not depend on the order of
    the group. *)
Lemma agg_perm (k : Key) (g g' : RawFrame) :
  Permutation g g' ->
  option_map Notions.measured (agg k g) = option_map Notions.measured (agg k g').
Proof.
  intros Hperm. unfold agg.
  rewrite (mean_perm _ _ (Permutation_map value Hperm)).
  pose proof (first_perm _ _ (Permutation_map units Hperm)) as Hfirst.
  destruct (mean (map value g')); [| reflexivity].
  destruct (first (map units g)), (first (map units g')); try reflexivity.
  - destruct Hfirst as [_ Hfirst]. specialize (Hfirst eq_refl). discriminate.
  - destruct Hfirst as [Hfirst _]. specialize (Hfirst eq_refl). discriminate.
Qed.

Lemma map_collect {A B C : Type} (f : A -> option B) (g : B -> C) (l : list A) :
  map g (collect f l) = collect (fun a => option_map g (f a)) l.
Proof.
  induction l as [| a t IH]; simpl; [reflexivity |].
  destruct (f a); simpl; rewrite IH; reflexivity.
Qed.

(** Sharing one offset is a property of the set of readings. *)
Lemma one_offset_iff (df : RawFrame) :
  one_offset df = true <->
  forall r r', In r df -> In r' df -> utcoffset r = utcoffset r'.
Proof.
  unfold one_offset. destruct df as [| r0 rest]; [split; [intros _ r r' [] | reflexivity] |].
  rewrite forallb_forall. split.
  - intros Hall.
    assert (Hr0 : forall r, In r (r0 :: rest) -> utcoffset r = utcoffset r0).
    { intros r [<- | Hr]; [reflexivity |]. apply Z.eqb_eq. apply Hall. exact Hr. }
    intros r r' Hr Hr'. rewrite (Hr0 r Hr), (Hr0 r' Hr'). reflexivity.
  - intros Hall r Hr. apply Z.eqb_eq. apply Hall; [right; exact Hr | left; reflexivity].
Qed.

Lemma one_offset_perm (df df' : RawFrame) :
  Permutation df df' -> one_offset df = true -> one_offset df' = true.
Proof.
  intros Hperm. rewrite !one_offset_iff. intros Hall r r' Hr Hr'.
  apply Hall; apply (Permutation_in _ (Permutation_sym Hperm)); assumption.
Qed.

Section Rows.
Variable F : Type.
Variable mixed_offsets : MixedOffsets.

(** X14: whether an aggregate is returned, and which (parameter, date) its
    rows have, does not depend on the order in which the readings arrive:
    of two orders of the same readings both raise, or both return and their
    rows have the same (parameter, date) pairs. *)
Theorem aggregate_order_independent
    (df df' : RawFrame) (parameters : option (list string)) :
  Permutation df df' ->
  (one_offset df = false ->
   exists exn exn',
     fst (aggregate_data F mixed_offsets df parameters) = Raise exn /\
     fst (aggregate_data F mixed_offsets df' parameters) = Raise exn') /\
  (one_offset df = true ->
   exists (frame frame' : Frame DailyRow) (ev ev' : list (Event F)),
     aggregate_data F mixed_offsets df parameters = (Ok frame, ev) /\
     aggregate_data F mixed_offsets df' parameters = (Ok frame', ev') /\
     Permutation (map row_key (rows frame)) (map row_key (rows frame'))).
Proof.
  intros Hperm. split.
  { intros Hone.
    assert (Hone' : one_offset df' = false).
    { destruct (one_offset df') eqn:H'; [| reflexivity].
      rewrite (one_offset_perm _ _ (Permutation_sym Hperm) H') in Hone. discriminate. }
    destruct (aggregate_data_raises F mixed_offsets df parameters Hone) as [exn Hexn].
    destruct (aggregate_data_raises F mixed_offsets df' parameters Hone') as [exn' Hexn'].
    exists exn, exn'. auto. }
  intros Hone.
  exists {| columns := daily_columns; rows := daily_data (select parameters df) |},
         {| columns := daily_columns; rows := daily_data (select parameters df') |},
         [PrintDF (head (select parameters df))],
         [PrintDF (head (select parameters df'))].
  split; [apply aggregate_data_returns; auto |].
  split.
  { apply aggregate_data_returns.
    split; [apply (one_offset_perm _ _ Hperm Hone) | auto]. }
  simpl. unfold daily_data.
  assert (Hsel : Permutation (select parameters df) (select parameters df')).
  { destruct parameters as [[| p ps] |]; simpl; auto. apply filter_perm. exact Hperm. }
  set (selected := select parameters df) in *.
  set (selected' := select parameters df') in *.
  assert (Hkey : forall l, map row_key l = map fst (map Notions.measured l)).
  { intros l. rewrite map_map. reflexivity. }
  rewrite !Hkey. apply Permutation_map.
  rewrite !map_collect.
  assert (Hlabels : Permutation (group_labels selected) (group_labels selected')).
  { apply NoDup_Permutation; try apply NoDup_group_labels.
    intros k. rewrite !In_group_labels.
    split; intros [r [Hr Hk]]; exists r; split; auto.
    - apply (Permutation_in _ Hsel). exact Hr.
    - apply (Permutation_in _ (Permutation_sym Hsel)). exact Hr. }
  rewrite (collect_perm _ _ _ Hlabels).
  rewrite (collect_ext_in
             (fun k => option_map Notions.measured (agg k (group k selected)))
             (fun k => option_map Notions.measured (agg k (group k selected')))).
  - reflexivity.
  - intros k _. apply agg_perm. apply filter_perm. exact Hsel.
Qed.

End Rows.

End AggregationPermutation.

(** ** More on the retrieval from the archive *)

Module FetchMore.
Import Calendar AirQualityAnalysisTool.

Section Fetch.
Variable F : Type.
Variable list_objects_v2 : string -> Listing.
Variable read_csv_gz : string -> option RawFrame.

Local Abbreviation init := (fetch_init F).
Local Abbreviation fetch_day := (fetch_day F list_objects_v2 read_csv_gz).
Local Abbreviation download := (download F read_csv_gz).

Lemma date_range_In (start_date end_date date : Date) :
  In date (date_range start_date end_date) <-> (start_date <= date <= end_date)%Z.
Proof.
  unfold date_range. rewrite in_map_iff. split.
  - intros [i [<- Hi]]. apply in_seq in Hi. lia.
  - intros Hd. exists (Z.to_nat (date - start_date)). split; [lia |].
    apply in_seq. lia.
Qed.

Lemma retrieval_units_In (location_ids : list Z) (start_date end_date : Date)
    (u : Z * Date) :
  In u (retrieval_units location_ids start_date end_date) <->
  In (fst u) location_ids /\ (start_date <= snd u <= end_date)%Z.
Proof.
  unfold retrieval_units. rewrite in_flat_map. split.
  - intros [i [Hi Hu]]. apply in_map_iff in Hu. destruct Hu as [d [<- Hd]].
    apply date_range_In in Hd. auto.
  - intros [Hi Hd]. exists (fst u). split; [exact Hi |].
    apply in_map_iff. exists (snd u). split; [destruct u; reflexivity |].
    apply date_range_In. exact Hd.
Qed.

(** What the loop over a listing prints and records, from the empty state:
    only [Downloading] lines, for keys of the listing with the ending, and no
    failure. *)
Lemma download_from_init (suffix : string) (contents : list string) :
  forall st,
    failed_locations (fst (download suffix contents st)) = failed_locations st /\
    exists keys,
      printed (fst (download suffix contents st))
      = printed st ++ map PrintDownloading keys /\
      Forall (fun key => In key contents /\ endswith key suffix = true) keys.
Proof.
  induction contents as [| key rest IH]; intros st; simpl.
  - split; [reflexivity |]. exists []. rewrite app_nil_r. auto.
  - destruct (endswith key suffix) eqn:Hend.
    + destruct (read_csv_gz key) as [daily_df |]; simpl.
      * destruct (IH (concat_daily daily_df (print (PrintDownloading key) st)))
          as [Hf [keys [Hp Hall]]].
        split; [exact Hf |].
        exists (key :: keys). simpl in Hp. rewrite Hp, <- app_assoc. split; [reflexivity |].
        constructor; [auto |].
        revert Hall. apply Forall_impl. intros k [Hk Hs]. auto.
      * split; [reflexivity |]. exists [key]. split; [reflexivity |].
        constructor; auto.
    + destruct (IH st) as [Hf [keys [Hp Hall]]].
      split; [exact Hf |]. exists keys. split; [exact Hp |].
      revert Hall. apply Forall_impl. intros k [Hk Hs]. auto.
Qed.

Lemma fetch_day_prefix (location_id : Z) (date : Date) (st : FetchState F) :
  fetch_day location_id date st
  = match list_objects_v2 (Notions.archive_prefix location_id date) with
    | ListingError => fetch_except location_id st
    | ListingOk None => append_failed location_id st
    | ListingOk (Some contents) =>
        let '(st', raised) := download (Notions.archive_suffix date) contents st in
        if raised then fetch_except location_id st' else st'
    end.
Proof. reflexivity. Qed.

(** One site/day, from the empty state. *)
Lemma fetch_day_alone (location_id : Z) (date : Date) :
  let st := fetch_day location_id date init in
  (failed_locations st = [] \/ failed_locations st = [location_id]) /\
  forall key, In (PrintDownloading key) (printed st) ->
    endswith key (Notions.archive_suffix date) = true /\
    exists contents,
      list_objects_v2 (Notions.archive_prefix location_id date) = ListingOk (Some contents) /\
      In key contents.
Proof.
  cbv zeta. rewrite fetch_day_prefix.
  destruct (list_objects_v2 _) as [| [contents |]] eqn:Hlist.
  - split; [right; reflexivity |]. simpl. intros key [Hk | []]. discriminate.
  - destruct (download_from_init (Notions.archive_suffix date) contents init)
      as [Hf [keys [Hp Hall]]].
    destruct (download _ contents init) as [st' raised]; simpl in *.
    assert (Hkeys : forall key, In (PrintDownloading key) (printed st') ->
              endswith key (Notions.archive_suffix date) = true /\
              exists contents0, Some contents = Some contents0 /\ In key contents0).
    { intros key Hin. rewrite Hp in Hin. apply in_map_iff in Hin.
      destruct Hin as [k [[= ->] Hk]].
      rewrite Forall_forall in Hall. destruct (Hall key Hk) as [H1 H2].
      split; [exact H2 |]. exists contents. auto. }
    destruct raised; simpl.
    + split; [right; rewrite Hf; reflexivity |].
      intros key Hin. apply in_app_or in Hin. destruct Hin as [Hin | [Hk | []]];
        [| discriminate].
      destruct (Hkeys key Hin) as [H1 [c [[= <-] H2]]]. split; [exact H1 |].
      exists contents. auto.
    + split; [left; exact Hf |].
      intros key Hin.
      destruct (Hkeys key Hin) as [H1 [c [[= <-] H2]]]. split; [exact H1 |].
      exists contents. auto.
  - split; [right; reflexivity |]. simpl. intros key [].
Qed.

(** X15: the identifiers recorded as failed are among the sites asked for,
    at most one per site/day; and every object the retrieval announces it
    downloads is listed under the month prefix of a requested site and ends
    with the year-month-day of a day inside the range. *)
Theorem fetch_stays_in_range (location_ids : list Z) (start_date end_date : Date) :
  let final := fetch_final F list_objects_v2 read_csv_gz location_ids start_date end_date in
  (forall i, In i (failed_locations final) -> In i location_ids) /\
  List.length (failed_locations final)
  <= List.length (retrieval_units location_ids start_date end_date) /\
  (forall key, In (PrintDownloading key) (printed final) ->
     exists location_id date contents,
       In location_id location_ids /\ (start_date <= date <= end_date)%Z /\
       list_objects_v2 (Notions.archive_prefix location_id date) = ListingOk (Some contents) /\
       In key contents /\
       endswith key (Notions.archive_suffix date) = true).
Proof.
  cbv zeta.
  destruct (FetchFacts.fetch_final_loops F list_objects_v2 read_csv_gz
              location_ids start_date end_date) as [_ [Hff Hfp]].
  destruct (FetchFacts.fetch_fold F list_objects_v2 read_csv_gz
              (retrieval_units location_ids start_date end_date) init) as [_ [Hf Hp]].
  simpl in Hf, Hp. unfold fetch_loops in Hff, Hfp.
  rewrite Hff, Hfp, Hf, Hp.
  split; [| split].
  - intros i Hi. apply in_flat_map in Hi. destruct Hi as [u [Hu Hi]].
    apply retrieval_units_In in Hu.
    destruct (fetch_day_alone (fst u) (snd u)) as [[Hnone | Hone] _].
    + rewrite Hnone in Hi. destruct Hi.
    + rewrite Hone in Hi. destruct Hi as [<- | []]. tauto.
  - generalize (retrieval_units location_ids start_date end_date) as todo.
    induction todo as [| u rest IH]; simpl; [lia |].
    rewrite length_app.
    destruct (fetch_day_alone (fst u) (snd u)) as [[Hnone | Hone] _].
    + rewrite Hnone. simpl. lia.
    + rewrite Hone. simpl. lia.
  - intros key Hin.
    apply in_app_or in Hin. destruct Hin as [Hin | Hin].
    + apply in_flat_map in Hin. destruct Hin as [u [Hu Hin]].
      apply retrieval_units_In in Hu. destruct Hu as [Hid Hdate].
      destruct (fetch_day_alone (fst u) (snd u)) as [_ Hkeys].
      destruct (Hkeys key Hin) as [Hend [contents [Hlist Hkey]]].
      exists (fst u), (snd u), contents. auto.
    + simpl in Hin. destruct Hin as [Hin | Hin]; [discriminate |].
      destruct (flat_map _ _) in Hin; simpl in Hin; [destruct Hin |].
      destruct Hin as [Hin | []]. discriminate.
Qed.

(** X16: when the listing of a site's month has keys but none ends with
    the day's year-month-day, that site/day changes nothing: no frame, no
    line, no failure recorded -- whereas a listing without any key at all
    records the site as failed. *)
Theorem fetch_day_absent (location_id : Z) (date : Date) (st : FetchState F) :
  (forall contents,
      list_objects_v2 (Notions.archive_prefix location_id date) = ListingOk (Some contents) ->
      Forall (fun key => endswith key (Notions.archive_suffix date) = false) contents ->
      fetch_day location_id date st = st) /\
  (list_objects_v2 (Notions.archive_prefix location_id date) = ListingOk None ->
   fetch_day location_id date st
   = {| consolidated_df := consolidated_df st;
        failed_locations := failed_locations st ++ [location_id];
        printed := printed st |}).
Proof.
  rewrite fetch_day_prefix. split.
  - intros contents -> Hnone.
    assert (Hdown : download (Notions.archive_suffix date) contents st = (st, false)).
    { induction Hnone as [| key rest Hkey _ IH]; simpl; [reflexivity |].
      rewrite Hkey. exact IH. }
    rewrite Hdown. reflexivity.
  - intros ->. reflexivity.
Qed.

End Fetch.

End FetchMore.

(** ** More on the main workflow *)

Module RunMore.
Import Calendar AirQualityAnalysisTool AggregationFacts.

Section Run.
Variable F : Type.
Variable repr : F -> string.
Variable openaq_locations : string -> Exc (list Site).
Variable list_objects_v2 : string -> Listing.
Variable read_csv_gz : string -> option RawFrame.
Variable mixed_offsets : MixedOffsets.

Local Abbreviation run := (_run F repr openaq_locations list_objects_v2 read_csv_gz mixed_offsets).
Local Abbreviation frame_of :=
  (contributed_frame F repr openaq_locations list_objects_v2 read_csv_gz mixed_offsets).
Local Abbreviation fetch := (fetch_sensor_data F list_objects_v2 read_csv_gz).

Lemma combine_split (pairs : list (list F * string)) :
  combine (map fst pairs) (map snd pairs) = pairs.
Proof.
  induction pairs as [| [b l] rest IH]; simpl; [reflexivity |].
  rewrite IH. reflexivity.
Qed.

Lemma collect_app {A B : Type} (f : A -> option B) (l l' : list A) :
  collect f (l ++ l') = collect f l ++ collect f l'.
Proof.
  induction l as [| a t IH]; simpl; [reflexivity |].
  destruct (f a); simpl; rewrite IH; reflexivity.
Qed.

(** The table returned, from the frames the pairs contribute. *)
Lemma returned_run (bounding_boxes : list (list F)) (locations : list string)
    (start_date end_date : string) (aq_parameters : option (list string)) :
  Notions.returned (run bounding_boxes locations start_date end_date aq_parameters)
  = match strptime start_date, strptime end_date with
    | Some sd, Some ed =>
        match collect (frame_of sd ed aq_parameters) (combine bounding_boxes locations) with
        | [] => Ok Notions.empty_table
        | f :: fs => Ok (concat (f :: fs))
        end
    | _, _ => Raise ValueError
    end.
Proof.
  unfold _run.
  destruct (strptime start_date) as [sd |]; [| reflexivity].
  destruct (strptime end_date) as [ed |]; [| reflexivity].
  destruct (RunFacts.main_workflow_contributed F repr openaq_locations list_objects_v2
              read_csv_gz mixed_offsets sd ed aq_parameters bounding_boxes locations) as [Hd _].
  rewrite Hd.
  destruct (collect _ (combine bounding_boxes locations)); reflexivity.
Qed.

(** No site/day, no frame. *)
Lemma fetch_nothing (location_ids : list Z) (sd ed : Date) :
  retrieval_units location_ids sd ed = [] -> fetch location_ids sd ed = [].
Proof.
  intros Hunits.
  unfold fetch_sensor_data, fetch_final, fetch_loops. rewrite Hunits. reflexivity.
Qed.

Lemma retrieval_units_reversed (location_ids : list Z) (sd ed : Date) :
  (ed < sd)%Z -> retrieval_units location_ids sd ed = [].
Proof.
  intros Hrev. unfold retrieval_units, date_range.
  replace (Z.to_nat (ed - sd + 1)) with 0 by lia. simpl.
  induction location_ids as [| i rest IH]; simpl; auto.
Qed.

Lemma frame_of_no_data (sd ed : Date) (aq_parameters : option (list string))
    (pair : list F * string) :
  (forall location_ids, fetch location_ids sd ed = []) ->
  frame_of sd ed aq_parameters pair = None.
Proof.
  intros Hnone. destruct pair as [bbox location].
  unfold contributed_frame; simpl.
  destruct bbox as [| s [| w [| n [| e more]]]]; try reflexivity.
  unfold process; simpl. unfold get_location_ids; simpl.
  destruct (openaq_locations _) as [location_data | exn]; simpl; [| reflexivity].
  rewrite Hnone. reflexivity.
Qed.

(** X17: when the end date is before the start date, the run returns the
    empty table with the five fixed labels, whatever the registry and the
    archive hold; it does not reject the range. *)
Theorem run_reversed_range
    (bounding_boxes : list (list F)) (locations : list string)
    (start_date end_date : string) (aq_parameters : option (list string))
    (sd ed : Date) :
  strptime start_date = Some sd -> strptime end_date = Some ed -> (ed < sd)%Z ->
  Notions.returned (run bounding_boxes locations start_date end_date aq_parameters)
  = Ok Notions.empty_table.
Proof.
  intros Hsd Hed Hrev. rewrite returned_run, Hsd, Hed.
  replace (collect _ (combine bounding_boxes locations)) with (@nil (Frame Row));
    [reflexivity |].
  symmetry. induction (combine bounding_boxes locations) as [| pair rest IH]; simpl;
    [reflexivity |].
  rewrite frame_of_no_data; [exact IH |].
  intros ids. apply fetch_nothing. apply retrieval_units_reversed. exact Hrev.
Qed.

Lemma frame_of_registry_fails (sd ed : Date) (aq_parameters : option (list string))
    (pair : list F * string) :
  Notions.registry_fails repr openaq_locations pair ->
  frame_of sd ed aq_parameters pair = None.
Proof.
  unfold Notions.registry_fails. destruct pair as [bbox location].
  unfold contributed_frame; simpl.
  destruct bbox as [| s [| w [| n [| e more]]]]; try reflexivity.
  simpl. intros [exn Hraise].
  unfold process; simpl. unfold get_location_ids; simpl.
  change (repr w ++ String "," (repr s ++ String "," (repr e ++ String "," (repr n))))%string
    with (query_text repr [w; s; e; n]).
  rewrite Hraise. reflexivity.
Qed.

(** X18: a pair whose box cannot be reordered or whose request to the
    registry raises is skipped: the table returned is the one returned
    without that pair, so the other locations keep all their rows. *)
Theorem run_skips_failed_pair
    (before after : list (list F * string)) (bad : list F * string)
    (start_date end_date : string) (aq_parameters : option (list string)) :
  Notions.registry_fails repr openaq_locations bad ->
  Notions.returned
    (run (map fst (before ++ bad :: after)) (map snd (before ++ bad :: after))
         start_date end_date aq_parameters)
  = Notions.returned
      (run (map fst (before ++ after)) (map snd (before ++ after))
           start_date end_date aq_parameters).
Proof.
  intros Hbad. rewrite !returned_run, !combine_split.
  destruct (strptime start_date) as [sd |]; [| reflexivity].
  destruct (strptime end_date) as [ed |]; [| reflexivity].
  rewrite !collect_app. simpl.
  rewrite (frame_of_registry_fails sd ed aq_parameters bad Hbad). reflexivity.
Qed.

Lemma daily_data_allowed (df : RawFrame) (p : string) (ps : list string) (d : DailyRow) :
  In d (daily_data (select (Some (p :: ps)) df)) -> In (d_parameter d) (p :: ps).
Proof.
  intros Hd. apply In_daily_data in Hd. destruct Hd as [r [Hr Hagg]].
  pose proof (agg_key _ _ _ Hagg) as Hkey. rewrite label_day_group_key in Hkey.
  unfold row_key, reading_key in Hkey. inversion Hkey as [[Hp Hdate]].
  simpl in Hr. apply filter_In in Hr. destruct Hr as [_ Hisin].
  unfold isin in Hisin. apply existsb_exists in Hisin.
  destruct Hisin as [q [Hq Heq]]. apply String.eqb_eq in Heq.
  rewrite Hp, Heq. exact Hq.
Qed.

Lemma frame_of_offsets_clash (sd ed : Date) (aq_parameters : option (list string))
    (pair : list F * string) :
  Notions.offsets_clash repr openaq_locations list_objects_v2 read_csv_gz sd ed pair ->
  frame_of sd ed aq_parameters pair = None.
Proof.
  destruct pair as [bbox location].
  intros [q [location_data [Hq [Hanswer Hclash]]]]. simpl in Hq.
  unfold contributed_frame; simpl.
  destruct bbox as [| s [| w [| n [| e more]]]]; try discriminate.
  injection Hq as <-.
  unfold process; simpl. unfold get_location_ids; simpl.
  change (repr w ++ String "," (repr s ++ String "," (repr e ++ String "," (repr n))))%string
    with (query_text repr [w; s; e; n]).
  rewrite Hanswer. simpl.
  destruct (fetch_sensor_data F list_objects_v2 read_csv_gz (map id location_data) sd ed)
    as [| r df]; [reflexivity |].
  unfold aggregate_data. rewrite Hclash.
  destruct mixed_offsets; reflexivity.
Qed.

(** X22: a pair whose readings carry more than one UTC offset is skipped
    like a pair that fails at the registry: its aggregation raises inside
    the pair's [try], and the table returned is the one returned without
    that pair. *)
Theorem run_skips_clashing_pair
    (before after : list (list F * string)) (bad : list F * string)
    (start_date end_date : string) (aq_parameters : option (list string))
    (sd ed : Date) :
  strptime start_date = Some sd -> strptime end_date = Some ed ->
  Notions.offsets_clash repr openaq_locations list_objects_v2 read_csv_gz sd ed bad ->
  Notions.returned
    (run (map fst (before ++ bad :: after)) (map snd (before ++ bad :: after))
         start_date end_date aq_parameters)
  = Notions.returned
      (run (map fst (before ++ after)) (map snd (before ++ after))
           start_date end_date aq_parameters).
Proof.
  intros Hsd Hed Hbad. rewrite !returned_run, !combine_split, Hsd, Hed.
  rewrite !collect_app. simpl.
  rewrite (frame_of_offsets_clash sd ed aq_parameters bad Hbad). reflexivity.
Qed.

(** X19: every row of the table returned carries one of the requested
    location names, and, when a non-empty allow-list is given, a parameter
    of the list. *)
Theorem run_rows_requested
    (bounding_boxes : list (list F)) (locations : list string)
    (start_date end_date : string) (aq_parameters : option (list string))
    (frame : Frame Row) (tr : list (Event F)) (r : Row) :
  run bounding_boxes locations start_date end_date aq_parameters = Ok (frame, tr) ->
  In r (rows frame) ->
  In (r_location r) locations /\
  (forall p ps, aq_parameters = Some (p :: ps) -> In (r_parameter r) (p :: ps)).
Proof.
  intros Hrun Hr.
  destruct (RunFacts.run_result _ _ _ _ _ _ _ _ _ _ _ _ _ Hrun)
    as [sd [ed [_ [_ [Hrows _]]]]].
  rewrite Hrows in Hr. split.
  - apply RunFacts.rows_locations in Hr.
    apply in_map_iff in Hr. destruct Hr as [[b l] [<- Hpair]].
    apply (in_combine_r _ _ _ _ Hpair).
  - intros p ps ->.
    apply in_flat_map in Hr. destruct Hr as [f [Hf Hr]].
    apply In_collect in Hf. destruct Hf as [pair [_ Hf]].
    destruct (RunFacts.frame_of_aggregate _ _ _ _ _ _ _ _ _ _ _ Hf) as [df [_ ->]].
    simpl in Hr. apply in_map_iff in Hr. destruct Hr as [d [<- Hd]]. simpl.
    apply (daily_data_allowed df p ps d Hd).
Qed.

End Run.

End RunMore.

(** ** The CAI Studio air-quality tool beside the agent tool *)

Module CaiMore.
Import Calendar AirQualityAnalysisTool AggregationFacts.

Section Tools.
Variable F : Type.
Variable repr : F -> string.
Variable openaq_locations : string -> Exc (list Site).
Variable list_objects_v2 : string -> Listing.
Variable read_csv_gz : string -> option RawFrame.
Variable to_datetime : string -> option Date.
Variable mixed_offsets : MixedOffsets.

Local Abbreviation run := (_run F repr openaq_locations list_objects_v2 read_csv_gz mixed_offsets).
Local Abbreviation frame_of :=
  (contributed_frame F repr openaq_locations list_objects_v2 read_csv_gz mixed_offsets).
Local Abbreviation cai_loop :=
  (CaiStudio.main_loop F repr openaq_locations list_objects_v2 read_csv_gz
      to_datetime mixed_offsets).
Local Abbreviation cai_run :=
  (CaiStudio.run_tool F repr openaq_locations list_objects_v2 read_csv_gz
      to_datetime mixed_offsets).
Local Abbreviation cai_day := (CaiStudio.fetch_day F list_objects_v2 read_csv_gz).
Local Abbreviation day_step := (fetch_day F list_objects_v2 read_csv_gz).

(** The two download loops read the same objects and leave at the same one. *)
Lemma cai_download_frame (suffix : string) (contents : list string) :
  forall (st : FetchState F),
    CaiStudio.download read_csv_gz suffix contents (consolidated_df st)
    = (consolidated_df (fst (download F read_csv_gz suffix contents st)),
       snd (download F read_csv_gz suffix contents st)).
Proof.
  induction contents as [| key rest IH]; intros st; simpl; [reflexivity |].
  destruct (endswith key suffix); [| apply IH].
  destruct (read_csv_gz key) as [daily_df |]; [| reflexivity].
  apply (IH (concat_daily daily_df (print (PrintDownloading key) st))).
Qed.

Lemma cai_day_frame (location_id : Z) (date : Date) (st : FetchState F)
    (out : list (Event F)) :
  fst (cai_day location_id date (consolidated_df st, out))
  = consolidated_df (day_step location_id date st).
Proof.
  unfold CaiStudio.fetch_day, fetch_day.
  destruct (list_objects_v2 _) as [| [contents |]]; try reflexivity.
  rewrite cai_download_frame.
  destruct (download F read_csv_gz _ contents st) as [st' raised]; simpl.
  destruct raised; reflexivity.
Qed.

Lemma cai_fold_frame (todo : list (Z * Date)) :
  forall (st : FetchState F) (out : list (Event F)),
    fst (fold_left (fun acc u => cai_day (fst u) (snd u) acc) todo (consolidated_df st, out))
    = consolidated_df (fold_left (fun acc u => day_step (fst u) (snd u) acc) todo st).
Proof.
  induction todo as [| u rest IH]; intros st out; [reflexivity |].
  cbn [fold_left].
  pose proof (cai_day_frame (fst u) (snd u) st out) as Hday.
  destruct (cai_day (fst u) (snd u) (consolidated_df st, out)) as [df out'].
  cbn [fst] in Hday. subst df. apply IH.
Qed.

(** With both dates read as the agent tool reads them, the frame fetched is
    the same. *)
Lemma cai_fetch_frame (location_ids : list Z) (start_date end_date : string)
    (sd ed : Date) :
  to_datetime start_date = Some sd -> to_datetime end_date = Some ed ->
  exists ev,
    CaiStudio.fetch_sensor_data F list_objects_v2 read_csv_gz to_datetime
      location_ids start_date end_date
    = Ok (fetch_sensor_data F list_objects_v2 read_csv_gz location_ids sd ed, ev).
Proof.
  intros Hsd Hed. unfold CaiStudio.fetch_sensor_data.
  destruct location_ids as [| i ids]; [exists []; reflexivity |].
  rewrite Hsd, Hed.
  pose proof (cai_fold_frame (retrieval_units (i :: ids) sd ed) (fetch_init F) [])
    as Hfold.
  change (consolidated_df (fetch_init F), @nil (Event F)) with (@nil RawReading, @nil (Event F))
    in Hfold.
  destruct (fold_left (fun acc u => cai_day (fst u) (snd u) acc)
                      (retrieval_units (i :: ids) sd ed) ([], [])) as [df ev].
  exists ev. cbn [fst] in Hfold. subst df.
  destruct (FetchFacts.fetch_final_loops F list_objects_v2 read_csv_gz (i :: ids) sd ed)
    as [Hdf _].
  unfold fetch_sensor_data. rewrite Hdf. reflexivity.
Qed.

(** When the loop ends, it ends with the frames the agent tool collects. *)
Lemma cai_loop_frames (start_date end_date : string) (sd ed : Date)
    (aq_parameters : option (list string)) (pairs : list (list F * string)) :
  to_datetime start_date = Some sd -> to_datetime end_date = Some ed ->
  forall (all_data frames : list (Frame Row)) (tr : list (Event F)),
    fst (cai_loop pairs start_date end_date aq_parameters all_data tr) = Ok frames ->
    frames = all_data ++ collect (frame_of sd ed aq_parameters) pairs.
Proof.
  intros Hsd Hed.
  induction pairs as [| [bbox location] rest IH]; intros all_data frames tr.
  - simpl. intros [= <-]. rewrite app_nil_r. reflexivity.
  - destruct bbox as [| s [| w [| n [| e more]]]]; try discriminate.
    simpl. unfold contributed_frame, process, get_location_ids; simpl.
    destruct (openaq_locations _) as [location_data | exn]; simpl; [| discriminate].
    destruct (cai_fetch_frame (map id location_data) start_date end_date sd ed Hsd Hed)
      as [ev Hfetch].
    rewrite Hfetch.
    destruct (fetch_sensor_data F list_objects_v2 read_csv_gz (map id location_data) sd ed)
      as [| r df]; simpl.
    + apply IH.
    + unfold CaiStudio.aggregate_data, aggregate_data.
      destruct (one_offset (r :: df)); [| destruct mixed_offsets; discriminate].
      simpl. intros Hloop. rewrite (IH _ _ _ Hloop), <- app_assoc. reflexivity.
Qed.

(** A pair the registry fails on ends the loop, wherever it stands. *)
Lemma cai_loop_aborts (start_date end_date : string)
    (aq_parameters : option (list string)) (pairs : list (list F * string))
    (bad : list F * string) :
  In bad pairs -> Notions.registry_fails repr openaq_locations bad ->
  forall (all_data : list (Frame Row)) (tr : list (Event F)),
    exists exn, fst (cai_loop pairs start_date end_date aq_parameters all_data tr) = Raise exn.
Proof.
  intros Hin Hbad.
  induction pairs as [| [bbox location] rest IH]; intros all_data tr; [destruct Hin |].
  destruct bbox as [| s [| w [| n [| e more]]]];
    try (exists IndexError; reflexivity).
  simpl. unfold get_location_ids; simpl.
  change (repr w ++ String "," (repr s ++ String "," (repr e ++ String "," (repr n))))%string
    with (query_text repr [w; s; e; n]).
  destruct (openaq_locations (query_text repr [w; s; e; n])) as [location_data | exn] eqn:Hq;
    simpl; [| exists exn; reflexivity].
  destruct Hin as [<- | Hin].
  - unfold Notions.registry_fails in Hbad; simpl in Hbad.
    destruct Hbad as [exn Hraise]. rewrite Hq in Hraise. discriminate.
  - destruct (CaiStudio.fetch_sensor_data F list_objects_v2 read_csv_gz to_datetime
                (map id location_data) start_date end_date) as [[[| r df] ev] | exn];
      [apply (IH Hin) | | exists exn; reflexivity].
    destruct (CaiStudio.aggregate_data mixed_offsets (r :: df) aq_parameters)
      as [aggregated | exn]; [apply (IH Hin) | exists exn; reflexivity].
Qed.

(** A pair whose readings carry two offsets ends the loop as well. *)
Lemma cai_loop_clash (start_date end_date : string) (sd ed : Date)
    (aq_parameters : option (list string)) (pairs : list (list F * string))
    (bad : list F * string) :
  to_datetime start_date = Some sd -> to_datetime end_date = Some ed ->
  In bad pairs ->
  Notions.offsets_clash repr openaq_locations list_objects_v2 read_csv_gz sd ed bad ->
  forall (all_data : list (Frame Row)) (tr : list (Event F)),
    exists exn, fst (cai_loop pairs start_date end_date aq_parameters all_data tr) = Raise exn.
Proof.
  intros Hsd Hed Hin Hbad.
  induction pairs as [| [bbox location] rest IH]; intros all_data tr; [destruct Hin |].
  destruct bbox as [| s [| w [| n [| e more]]]];
    try (exists IndexError; reflexivity).
  simpl. unfold get_location_ids; simpl.
  change (repr w ++ String "," (repr s ++ String "," (repr e ++ String "," (repr n))))%string
    with (query_text repr [w; s; e; n]).
  destruct (openaq_locations (query_text repr [w; s; e; n])) as [location_data | exn] eqn:Hq;
    simpl; [| exists exn; reflexivity].
  destruct (cai_fetch_frame (map id location_data) start_date end_date sd ed Hsd Hed)
    as [ev Hfetch].
  rewrite Hfetch.
  destruct (fetch_sensor_data F list_objects_v2 read_csv_gz (map id location_data) sd ed)
    as [| r df] eqn:Hdf.
  - destruct Hin as [<- | Hin]; [| apply (IH Hin)].
    destruct Hbad as [q [sites [Horder [Hanswer Hclash]]]].
    simpl in Horder. injection Horder as <-.
    rewrite Hq in Hanswer. injection Hanswer as <-.
    rewrite Hdf in Hclash. discriminate.
  - unfold CaiStudio.aggregate_data.
    destruct (one_offset (r :: df)) eqn:Hone.
    + destruct Hin as [<- | Hin]; [| apply (IH Hin)].
      destruct Hbad as [q [sites [Horder [Hanswer Hclash]]]].
      simpl in Horder. injection Horder as <-.
      rewrite Hq in Hanswer. injection Hanswer as <-.
      rewrite Hdf, Hone in Hclash. discriminate.
    + destruct mixed_offsets; eexists; reflexivity.
Qed.

(** X23: where the agent tool skips a pair whose readings carry more than
    one UTC offset, the CAI Studio tool, which has no [try] around the
    aggregation either, raises. *)
Theorem cai_run_aborts_on_clash
    (bounding_boxes : list (list F)) (locations : list string)
    (start_date end_date : string) (aq_parameters : option (list string))
    (sd ed : Date) (bad : list F * string) :
  to_datetime start_date = Some sd -> to_datetime end_date = Some ed ->
  In bad (combine bounding_boxes locations) ->
  Notions.offsets_clash repr openaq_locations list_objects_v2 read_csv_gz sd ed bad ->
  exists exn,
    fst (cai_run bounding_boxes locations start_date end_date aq_parameters) = Raise exn.
Proof.
  intros Hsd Hed Hin Hbad.
  destruct (cai_loop_clash start_date end_date sd ed aq_parameters
              (combine bounding_boxes locations) bad Hsd Hed Hin Hbad [] [])
    as [exn Hraise].
  exists exn. unfold CaiStudio.run_tool.
  destruct (cai_loop (combine bounding_boxes locations) start_date end_date
                     aq_parameters [] []) as [res tr].
  simpl in Hraise. subst res. reflexivity.
Qed.

(** X20: when both tools read the two dates alike, a table that the CAI
    Studio tool returns is the table the agent tool returns. *)
Theorem cai_run_same_table
    (bounding_boxes : list (list F)) (locations : list string)
    (start_date end_date : string) (aq_parameters : option (list string))
    (sd ed : Date) (table : Frame Row) :
  strptime start_date = Some sd -> strptime end_date = Some ed ->
  to_datetime start_date = Some sd -> to_datetime end_date = Some ed ->
  fst (cai_run bounding_boxes locations start_date end_date aq_parameters) = Ok table ->
  Notions.returned (run bounding_boxes locations start_date end_date aq_parameters)
  = Ok table.
Proof.
  intros Hsd Hed Hsd' Hed' Hcai.
  pose proof (fun frames =>
                cai_loop_frames start_date end_date sd ed aq_parameters
                  (combine bounding_boxes locations) Hsd' Hed' [] frames []) as Hloop.
  unfold CaiStudio.run_tool in Hcai. unfold _run. rewrite Hsd, Hed.
  destruct (RunFacts.main_workflow_contributed F repr openaq_locations list_objects_v2
              read_csv_gz mixed_offsets sd ed aq_parameters bounding_boxes locations)
    as [Hd _].
  rewrite Hd.
  destruct (cai_loop (combine bounding_boxes locations) start_date end_date
                     aq_parameters [] []) as [[frames | exn] tr]; [| discriminate].
  pose proof (Hloop frames eq_refl) as Hframes. simpl in Hframes.
  rewrite <- Hframes.
  destruct frames as [| f fs]; simpl in Hcai |- *; injection Hcai as <-; reflexivity.
Qed.

(** X21: the CAI Studio tool has no [try] around a pair: one pair whose box
    is too short or whose registry request raises makes the whole run
    raise. *)
Theorem cai_run_aborts
    (bounding_boxes : list (list F)) (locations : list string)
    (start_date end_date : string) (aq_parameters : option (list string))
    (bad : list F * string) :
  In bad (combine bounding_boxes locations) ->
  Notions.registry_fails repr openaq_locations bad ->
  exists exn,
    fst (cai_run bounding_boxes locations start_date end_date aq_parameters) = Raise exn.
Proof.
  intros Hin Hbad.
  destruct (cai_loop_aborts start_date end_date aq_parameters
              (combine bounding_boxes locations) bad Hin Hbad [] []) as [exn Hraise].
  exists exn. unfold CaiStudio.run_tool.
  destruct (cai_loop (combine bounding_boxes locations) start_date end_date
                     aq_parameters [] []) as [res tr].
  simpl in Hraise. subst res. reflexivity.
Qed.

End Tools.

End CaiMore.

(** ** The properties on the sample worlds *)

Lemma cai_weather_agrees_witness :
  CaiWeatherTool.run_tool Samples.one_day_archive [20; 70; 30; 80]%R
                          "2023-01-01" "2023-01-01"
  = HistoricalWeatherTool._run Samples.one_day_archive [20; 70; 30; 80]%R
                               "2023-01-01" "2023-01-01".
Proof.
  apply (WeatherFacts.cai_weather_agrees Samples.one_day_archive).
  intros params daily_data [= <-]. reflexivity.
Defined.

Lemma cai_weather_short_array_witness :
  CaiWeatherTool.run_tool Scenarios.ragged_archive [20; 70; 30; 80]%R
                          "2023-01-01" "2023-01-03"
  = HistoricalWeatherTool.UnexpectedError IndexError /\
  HistoricalWeatherTool._run Scenarios.ragged_archive [20; 70; 30; 80]%R
                             "2023-01-01" "2023-01-03"
  = HistoricalWeatherTool.WeatherSummary
      (map (HistoricalWeatherTool.expected_row Scenarios.ragged_daily) (seq 0 3)).
Proof.
  apply (WeatherFacts.cai_weather_short_array Scenarios.ragged_archive
           20%R 70%R 30%R 80%R "2023-01-01" "2023-01-03" Scenarios.ragged_daily);
    reflexivity.
Defined.

Lemma aggregate_rows_sorted_witness :
  exists frame ev,
    AirQualityAnalysisTool.aggregate_data R AirQualityAnalysisTool.MixedRaises
      Scenarios.one_reading_per_day None = (Ok frame, ev) /\
    StronglySorted Notions.row_order (AirQualityAnalysisTool.rows frame).
Proof.
  exact (AggregationOrder.aggregate_rows_sorted R AirQualityAnalysisTool.MixedRaises
           Scenarios.one_reading_per_day None eq_refl).
Defined.

Lemma aggregate_rows_from_readings_witness :
  exists frame ev,
    AirQualityAnalysisTool.aggregate_data R AirQualityAnalysisTool.MixedRaises
      Scenarios.two_readings_one_day None = (Ok frame, ev) /\
    forall d, In d (AirQualityAnalysisTool.rows frame) ->
      exists r, In r Scenarios.two_readings_one_day /\
                AirQualityAnalysisTool.parameter r = AirQualityAnalysisTool.d_parameter d /\
                AirQualityAnalysisTool.day (AirQualityAnalysisTool.datetime r)
                = AirQualityAnalysisTool.d_date d /\
                AirQualityAnalysisTool.units r = Some (AirQualityAnalysisTool.d_units d).
Proof.
  destruct (AggregationOrder.aggregate_rows_from_readings
              R AirQualityAnalysisTool.MixedRaises
              Scenarios.two_readings_one_day None eq_refl)
    as [frame [ev [Hret Hrows]]].
  exists frame, ev. split; [exact Hret |].
  intros d Hd. exact (proj1 (Hrows d Hd)).
Defined.

Lemma aggregate_order_independent_witness :
  exists frame frame' ev ev',
    AirQualityAnalysisTool.aggregate_data R AirQualityAnalysisTool.MixedRaises
      Scenarios.two_readings_one_day None = (Ok frame, ev) /\
    AirQualityAnalysisTool.aggregate_data R AirQualityAnalysisTool.MixedRaises
      (rev Scenarios.two_readings_one_day) None = (Ok frame', ev') /\
    Permutation (map AirQualityAnalysisTool.row_key (AirQualityAnalysisTool.rows frame))
                (map AirQualityAnalysisTool.row_key (AirQualityAnalysisTool.rows frame')).
Proof.
  exact (proj2 (AggregationPermutation.aggregate_order_independent
                  R AirQualityAnalysisTool.MixedRaises
                  Scenarios.two_readings_one_day (rev Scenarios.two_readings_one_day) None
                  (Permutation_rev _))
           eq_refl).
Defined.

Lemma run_reversed_range_witness :
  Notions.returned
    (AirQualityAnalysisTool._run Q Scenarios.repr_Q Scenarios.registry
       Scenarios.failing_archive Scenarios.archive_files AirQualityAnalysisTool.MixedRaises
       [Scenarios.india_box] ["Delhi"%string] "2023-01-02" "2023-01-01" None)
  = Ok Notions.empty_table.
Proof.
  apply (RunMore.run_reversed_range Q Scenarios.repr_Q Scenarios.registry
           Scenarios.failing_archive Scenarios.archive_files AirQualityAnalysisTool.MixedRaises
           [Scenarios.india_box] ["Delhi"%string] "2023-01-02" "2023-01-01" None
           (Calendar.toordinal 2023 1 2) (Calendar.toordinal 2023 1 1));
    vm_compute; reflexivity.
Defined.

Lemma run_skips_failed_pair_witness :
  Notions.returned
    (AirQualityAnalysisTool._run Q Scenarios.repr_Q Scenarios.registry
       Scenarios.failing_archive Scenarios.archive_files AirQualityAnalysisTool.MixedRaises
       [Scenarios.india_box; Samples.unknown_box] ["Delhi"; "Nowhere"]%string
       "2023-01-01" "2023-01-01" None)
  = Notions.returned
      (AirQualityAnalysisTool._run Q Scenarios.repr_Q Scenarios.registry
         Scenarios.failing_archive Scenarios.archive_files AirQualityAnalysisTool.MixedRaises
         [Scenarios.india_box] ["Delhi"%string] "2023-01-01" "2023-01-01" None).
Proof.
  apply (RunMore.run_skips_failed_pair Q Scenarios.repr_Q Scenarios.registry
           Scenarios.failing_archive Scenarios.archive_files AirQualityAnalysisTool.MixedRaises
           [(Scenarios.india_box, "Delhi"%string)] [] (Samples.unknown_box, "Nowhere"%string)
           "2023-01-01" "2023-01-01" None).
  exists HTTPError. reflexivity.
Defined.

Lemma run_rows_requested_witness :
  exists frame tr r,
    AirQualityAnalysisTool._run Q Scenarios.repr_Q Scenarios.registry
      Scenarios.failing_archive Scenarios.archive_files AirQualityAnalysisTool.MixedRaises
      [Scenarios.india_box] ["Delhi"%string] "2023-01-01" "2023-01-01"
      (Some ["pm25"%string])
    = Ok (frame, tr) /\
    In r (AirQualityAnalysisTool.rows frame) /\
    In (AirQualityAnalysisTool.r_location r) ["Delhi"%string] /\
    In (AirQualityAnalysisTool.r_parameter r) ["pm25"%string].
Proof.
  destruct (AirQualityAnalysisTool._run Q Scenarios.repr_Q Scenarios.registry
              Scenarios.failing_archive Scenarios.archive_files AirQualityAnalysisTool.MixedRaises
              [Scenarios.india_box] ["Delhi"%string] "2023-01-01" "2023-01-01"
              (Some ["pm25"%string]))
    as [[frame tr] | exn] eqn:Hrun; [| vm_compute in Hrun; discriminate].
  assert (Hrow : exists r, In r (AirQualityAnalysisTool.rows frame)).
  { pose proof Hrun as Hc. vm_compute in Hc. injection Hc as <- _.
    eexists. left. reflexivity. }
  destruct Hrow as [r Hr].
  exists frame, tr, r. split; [reflexivity | split; [exact Hr |]].
  destruct (RunMore.run_rows_requested Q Scenarios.repr_Q Scenarios.registry
              Scenarios.failing_archive Scenarios.archive_files AirQualityAnalysisTool.MixedRaises
              [Scenarios.india_box] ["Delhi"%string] "2023-01-01" "2023-01-01"
              (Some ["pm25"%string]) frame tr r Hrun Hr) as [Hloc Hpar].
  split; [exact Hloc | exact (Hpar _ _ eq_refl)].
Defined.

Lemma cai_run_same_table_witness :
  exists table,
    fst (CaiStudio.run_tool Q Scenarios.repr_Q Scenarios.registry
           Scenarios.failing_archive Scenarios.archive_files Calendar.strptime
           AirQualityAnalysisTool.MixedRaises
           [Scenarios.india_box] ["Delhi"%string] "2023-01-01" "2023-01-01" None)
    = Ok table /\
    List.length (AirQualityAnalysisTool.rows table) = 1 /\
    Notions.returned
      (AirQualityAnalysisTool._run Q Scenarios.repr_Q Scenarios.registry
         Scenarios.failing_archive Scenarios.archive_files
         AirQualityAnalysisTool.MixedRaises
         [Scenarios.india_box] ["Delhi"%string] "2023-01-01" "2023-01-01" None)
    = Ok table.
Proof.
  eexists. split; [vm_compute; reflexivity | split; [reflexivity |]].
  apply (CaiMore.cai_run_same_table Q Scenarios.repr_Q Scenarios.registry
           Scenarios.failing_archive Scenarios.archive_files Calendar.strptime
           AirQualityAnalysisTool.MixedRaises
           [Scenarios.india_box] ["Delhi"%string] "2023-01-01" "2023-01-01" None
           Scenarios.new_year Scenarios.new_year);
    vm_compute; reflexivity.
Defined.

Lemma cai_run_aborts_witness :
  exists exn,
    fst (CaiStudio.run_tool Q Scenarios.repr_Q Scenarios.registry
           Scenarios.failing_archive Scenarios.archive_files
               Calendar.strptime AirQualityAnalysisTool.MixedRaises
           [Scenarios.india_box; Samples.unknown_box] ["Delhi"; "Nowhere"]%string
           "2023-01-01" "2023-01-01" None)
    = Raise exn.
Proof.
  apply (CaiMore.cai_run_aborts Q Scenarios.repr_Q Scenarios.registry
           Scenarios.failing_archive Scenarios.archive_files
               Calendar.strptime AirQualityAnalysisTool.MixedRaises
           [Scenarios.india_box; Samples.unknown_box] ["Delhi"; "Nowhere"]%string
           "2023-01-01" "2023-01-01" None (Samples.unknown_box, "Nowhere"%string)).
  - right. left. reflexivity.
  - exists HTTPError. reflexivity.
Defined.

Lemma india_offsets_clash :
  Notions.offsets_clash Scenarios.repr_Q Scenarios.registry
    Scenarios.failing_archive Samples.clashing_files
    Scenarios.new_year Scenarios.new_year (Scenarios.india_box, "Delhi"%string).
Proof.
  exists [70; 20; 80; 30]%Q,
         [ {| AirQualityAnalysisTool.id := 1 |}; {| AirQualityAnalysisTool.id := 2 |} ].
  split; [reflexivity | split; [reflexivity | vm_compute; reflexivity]].
Qed.

Lemma run_skips_clashing_pair_witness :
  Notions.returned
    (AirQualityAnalysisTool._run Q Scenarios.repr_Q Scenarios.registry
       Scenarios.failing_archive Samples.clashing_files AirQualityAnalysisTool.MixedObjects
       [Scenarios.india_box] ["Delhi"%string] "2023-01-01" "2023-01-01" None)
  = Notions.returned
      (AirQualityAnalysisTool._run Q Scenarios.repr_Q Scenarios.registry
         Scenarios.failing_archive Samples.clashing_files AirQualityAnalysisTool.MixedObjects
         [] [] "2023-01-01" "2023-01-01" None).
Proof.
  apply (RunMore.run_skips_clashing_pair Q Scenarios.repr_Q Scenarios.registry
           Scenarios.failing_archive Samples.clashing_files
           AirQualityAnalysisTool.MixedObjects
           [] [] (Scenarios.india_box, "Delhi"%string)
           "2023-01-01" "2023-01-01" None Scenarios.new_year Scenarios.new_year).
  - vm_compute. reflexivity.
  - vm_compute. reflexivity.
  - exact india_offsets_clash.
Defined.

Lemma cai_run_aborts_on_clash_witness :
  exists exn,
    fst (CaiStudio.run_tool Q Scenarios.repr_Q Scenarios.registry
           Scenarios.failing_archive Samples.clashing_files Calendar.strptime
           AirQualityAnalysisTool.MixedObjects
           [Scenarios.india_box] ["Delhi"%string] "2023-01-01" "2023-01-01" None)
    = Raise exn.
Proof.
  apply (CaiMore.cai_run_aborts_on_clash Q Scenarios.repr_Q Scenarios.registry
           Scenarios.failing_archive Samples.clashing_files Calendar.strptime
           AirQualityAnalysisTool.MixedObjects
           [Scenarios.india_box] ["Delhi"%string] "2023-01-01" "2023-01-01" None
           Scenarios.new_year Scenarios.new_year (Scenarios.india_box, "Delhi"%string)).
  - vm_compute. reflexivity.
  - vm_compute. reflexivity.
  - left. reflexivity.
  - exact india_offsets_clash.
Defined.
